(** * PN5180 driver: command transport, register layer, ISO 14443 and
      ISO 15693 protocol functions

    A shallow embedding of PN5180.cpp, PN5180ISO14443.cpp and
    PN5180ISO15693.cpp.  The driver talks to hardware, so every function
    is a computation over a [World]: the chronological record of what
    happened on the pins and on the SPI bus, plus the driver's own
    memory (the two receive buffers and the command timeout).  What the
    hardware answers is given by an [Env], a family of oracles from the
    record so far to the next input; quantifying over [Env] covers
    every (deterministic) device.

    Platform conventions: [int], [size_t] and [unsigned long] are 32 bits
    wide and the host is little-endian (the code reads the bytes of a
    [uint32_t] through a [uint8_t*]).  Unsigned arithmetic wraps and is
    written out; signed [int] arithmetic is exact in [Z] (signed overflow
    is undefined in C).  Debug and error printing to the serial console
    is not part of the model. *)

From Stdlib Require Import ZArith List Bool Lia.
Import ListNotations.
Open Scope Z_scope.

(** ** Machine integers and byte arrays *)

Definition uint8 (z : Z) : Z := z mod 256.
Definition uint16 (z : Z) : Z := z mod 65536.
Definition uint32 (z : Z) : Z := z mod 4294967296.

(** The four bytes of a [uint32_t], least significant first
    ([uint8_t *p = (uint8_t* )&value]). *)
Definition le_bytes32 (v : Z) : list Z :=
  [ Z.land v 255;
    Z.land (Z.shiftr v 8) 255;
    Z.land (Z.shiftr v 16) 255;
    Z.land (Z.shiftr v 24) 255 ].

(** [a[i]] for a byte array held as a list; [0] stands for a read past
    the end of the list (which C leaves undefined). *)
Definition at_ (a : list Z) (i : nat) : Z := nth i a 0.

(** The [uint32_t] stored in four bytes, least significant first. *)
Definition of_le_bytes32 (b : list Z) : Z :=
  at_ b 0 + 256 * at_ b 1 + 65536 * at_ b 2 + 16777216 * at_ b 3.

(** [a[i] = v]; a write past the end of the list is dropped. *)
Fixpoint upd (i : nat) (v : Z) (a : list Z) : list Z :=
  match a, i with
  | [], _ => []
  | _ :: t, O => v :: t
  | x :: t, S j => x :: upd j v t
  end.

(** [n] consecutive cells [a[start]], [a[start+1]], ... *)
Definition cells (a : list Z) (start n : nat) : list Z :=
  map (fun i => at_ a (start + i)) (seq 0 n).

(** [for (i = 0; i < n; i++) dst[doff + i] = src[soff + i];] *)
Fixpoint copy_cells (n : nat) (src : list Z) (soff : nat)
                    (dst : list Z) (doff : nat) : list Z :=
  match n with
  | O => dst
  | S k => copy_cells k src (S soff) (upd doff (at_ src soff) dst) (S doff)
  end.

(** ** Hardware events and the environment *)

(** Logic levels of a pin: [true] is HIGH. *)
Definition HIGH : bool := true.
Definition LOW : bool := false.

Inductive Event : Type :=
| EvBeginTransaction                       (* SPI.beginTransaction *)
| EvEndTransaction                         (* SPI.endTransaction *)
| EvNSS (level : bool)                     (* digitalWrite(PN5180_NSS, level) *)
| EvBusy (level : bool)                    (* digitalRead(PN5180_BUSY) = level *)
| EvMillis (t : Z)                         (* millis() = t *)
| EvDelay (ms : Z)                         (* delay(ms) *)
| EvTransfer (mosi miso : list Z)          (* SPI.transfer(buf, n) *)
| EvMalloc (ok : bool).                    (* malloc(508) succeeded or not *)

(** What the outside world answers, as a function of everything that
    happened so far (newest event first). *)
Record Env : Type := mkEnv {
  env_busy : list Event -> bool;           (* level of the BUSY line *)
  env_millis : list Event -> Z;            (* the millisecond clock *)
  env_miso : list Event -> nat -> Z;       (* i-th byte shifted in by the next transfer *)
  env_malloc : list Event -> bool;         (* does the next malloc succeed *)
  env_indet : list Event -> nat -> Z       (* contents of uninitialised memory *)
}.

(** The record of events (newest first) and the driver's memory. *)
Record World : Type := mkWorld {
  history : list Event;
  commandTimeout : Z;
  readBufferStatic16 : list Z;
  readBufferDynamic508 : option (list Z)   (* [None] is the null pointer *)
}.

Definition emit (e : Event) (w : World) : World :=
  mkWorld (e :: history w) (commandTimeout w)
          (readBufferStatic16 w) (readBufferDynamic508 w).

(** Level of the select line: the last value written, HIGH after
    [begin()]. *)
Fixpoint nss_level (h : list Event) : bool :=
  match h with
  | [] => HIGH
  | EvNSS l :: _ => l
  | _ :: h' => nss_level h'
  end.

(** SPI transfers of a record, oldest first, as pairs (bytes shifted
    out, bytes shifted in). *)
Fixpoint transfers_rev (h : list Event) : list (list Z * list Z) :=
  match h with
  | [] => []
  | EvTransfer o i :: h' => (o, i) :: transfers_rev h'
  | _ :: h' => transfers_rev h'
  end.

Definition transfers (w : World) : list (list Z * list Z) :=
  rev (transfers_rev (history w)).

(** ** The monad of driver computations

    [None] means that a polling loop did not finish within the loop
    budget of the model. *)

Definition M (A : Type) : Type := World -> option (A * World).

Definition ret {A : Type} (a : A) : M A := fun w => Some (a, w).

Definition bind {A B : Type} (c : M A) (k : A -> M B) : M B :=
  fun w => match c w with
           | Some (a, w') => k a w'
           | None => None
           end.

Declare Scope drv_scope.
Delimit Scope drv_scope with drv.
Notation "x <- c ;; k" := (bind c (fun x => k))
  (at level 100, c at next level, right associativity) : drv_scope.
Notation "' pat <- c ;; k" := (bind c (fun x => match x with pat => k end))
  (at level 100, pat pattern, c at next level, right associativity) : drv_scope.
Notation "c ;; k" := (bind c (fun _ => k))
  (at level 100, right associativity) : drv_scope.
Open Scope drv_scope.

(** ** Constants of the missing headers *)

(** Register addresses and interrupt flag masks are declared in
    PN5180.h, which is not among the sources; the development is
    parametric in them. *)
Record Header : Type := mkHeader {
  SYSTEM_CONFIG : Z;
  IRQ_STATUS : Z;
  IRQ_CLEAR : Z;
  CRC_RX_CONFIG : Z;
  RX_STATUS : Z;
  TX_CONFIG : Z;
  CRC_TX_CONFIG : Z;
  RF_STATUS : Z;
  RX_IRQ_STAT : Z;
  TX_IRQ_STAT : Z;
  IDLE_IRQ_STAT : Z;
  TX_RFOFF_IRQ_STAT : Z;
  TX_RFON_IRQ_STAT : Z;
  RX_SOF_DET_IRQ_STAT : Z
}.

(** TRANSCEIVE_STATEs, in the order of the table in
    [getTransceiveState] (0 - idle ... 7 - reserved). *)
Inductive PN5180TransceiveStat : Type :=
| PN5180_TS_Idle
| PN5180_TS_WaitTransmit
| PN5180_TS_Transmitting
| PN5180_TS_WaitReceive
| PN5180_TS_WaitForData
| PN5180_TS_Receiving
| PN5180_TS_LoopBack
| PN5180_TS_RESERVED.

(** The cast [PN5180TransceiveStat(state)] of a three-bit value. *)
Definition PN5180TransceiveStat_of (state : Z) : PN5180TransceiveStat :=
  match state with
  | 0 => PN5180_TS_Idle
  | 1 => PN5180_TS_WaitTransmit
  | 2 => PN5180_TS_Transmitting
  | 3 => PN5180_TS_WaitReceive
  | 4 => PN5180_TS_WaitForData
  | 5 => PN5180_TS_Receiving
  | 6 => PN5180_TS_LoopBack
  | _ => PN5180_TS_RESERVED
  end.

Definition is_WaitTransmit (s : PN5180TransceiveStat) : bool :=
  match s with PN5180_TS_WaitTransmit => true | _ => false end.

(** PN5180 1-Byte Direct Commands *)
Definition PN5180_WRITE_REGISTER : Z := 0x00.
Definition PN5180_WRITE_REGISTER_OR_MASK : Z := 0x01.
Definition PN5180_WRITE_REGISTER_AND_MASK : Z := 0x02.
Definition PN5180_READ_REGISTER : Z := 0x04.
Definition PN5180_WRITE_EEPROM : Z := 0x06.
Definition PN5180_READ_EEPROM : Z := 0x07.
Definition PN5180_SEND_DATA : Z := 0x09.
Definition PN5180_READ_DATA : Z := 0x0A.
Definition PN5180_SWITCH_MODE : Z := 0x0B.
Definition PN5180_MIFARE_AUTHENTICATE : Z := 0x0C.
Definition PN5180_LOAD_RF_CONFIG : Z := 0x11.
Definition PN5180_RF_ON : Z := 0x16.
Definition PN5180_RF_OFF : Z := 0x17.

Definition SETRF_ON_TIMEOUT : Z := 500.
Definition SETRF_OFF_TIMEOUT : Z := 500.

(** The pointer returned by [readData(int len)]: one of the two buffers
    the driver owns. *)
Inductive BufPtr : Type :=
| PtrStatic16
| PtrDynamic508.

(** Contents behind such a pointer. *)
Definition load (p : BufPtr) (w : World) : list Z :=
  match p with
  | PtrStatic16 => readBufferStatic16 w
  | PtrDynamic508 => match readBufferDynamic508 w with
                     | Some b => b
                     | None => []
                     end
  end.

(** Modelled from the spec: the enumeration [ISO15693ErrorCode] is
    declared in PN5180ISO15693.h, which is not among the sources.  The
    values are those of the response error code table ("0 = OK, -1 = No
    card detected, 0F = Unknown error, 10 = The specific block is not
    available") and of the custom range, whose codes from 0xA0 on
    collapse to one custom-command error. *)
Definition EC_NO_CARD : Z := -1.
Definition ISO15693_EC_OK : Z := 0.
Definition ISO15693_EC_UNKNOWN_ERROR : Z := 0x0F.
Definition ISO15693_EC_BLOCK_NOT_AVAILABLE : Z := 0x10.
Definition ISO15693_EC_CUSTOM_CMD_ERROR : Z := 0xA0.

(** ISO15693-3 request flags and commands *)
Definition ISO15693_REQ_FLAG_DATARATE : Z := Z.shiftl 1 1.
Definition ISO15693_REQ_FLAG_INVENTORY : Z := Z.shiftl 1 2.
Definition ISO15693_REQ_FLAG_NBSLOTS : Z := Z.shiftl 1 5.
Definition ISO15693_CMD_INVENTORY : Z := 0x01.

(** The caller's variables that [inventoryPoll] updates through its
    pointer arguments. *)
Record Inventory : Type := mkInventory {
  inv_uid : list Z;          (* uint8_t *uid *)
  inv_numCard : Z;           (* uint8_t *numCard *)
  inv_numCol : Z;            (* uint8_t *numCol *)
  inv_collision : list Z     (* uint16_t *collision *)
}.

(** [do { mask >>= 4L; maskLen++; } while (mask > 0);] on a [uint32_t]
    mask: at most eight rounds. *)
Fixpoint maskLen_loop (n : nat) (mask maskLen : Z) : Z :=
  match n with
  | O => maskLen
  | S n' =>
      let mask := Z.shiftr mask 4 in
      let maskLen := uint8 (maskLen + 1) in
      if 0 <? mask then maskLen_loop n' mask maskLen else maskLen
  end.

(** [maskLen] as [inventoryPoll] computes it from [*numCol] and
    [collision[0]]. *)
Definition inventoryPoll_maskLen (numCol : Z) (collision : list Z) : Z :=
  if 0 <? numCol then maskLen_loop 8 (at_ collision 0) 0 else 0.

(** The array [inventory[7]] of [inventoryPoll]; [p] runs over the bytes
    of [collision[0]] and [collision[1]]. *)
Definition inventoryPoll_request (maskLen : Z) (collision : list Z) : list Z :=
  let flags := Z.lor ISO15693_REQ_FLAG_DATARATE ISO15693_REQ_FLAG_INVENTORY in
  [ flags; ISO15693_CMD_INVENTORY; uint8 (maskLen * 4);
    Z.land (at_ collision 0) 255; Z.shiftr (at_ collision 0) 8;
    Z.land (at_ collision 1) 255; Z.shiftr (at_ collision 1) 8 ].

Definition inventoryPoll_cmdLen (maskLen : Z) : Z :=
  uint8 (3 + maskLen / 2 + maskLen mod 2).

(** [for (int i=0; i<numCol; i++) collision[i] = collision[i+1];] *)
Fixpoint shift_collisions (n i : nat) (collision : list Z) : list Z :=
  match n with
  | O => collision
  | S k => shift_collisions k (S i) (upd i (at_ collision (S i)) collision)
  end.

(** [for (int i=0; i<8; i++) uid[uint8_t(numCard*8 + i)] = readBuffer[2+i];] *)
Fixpoint record_uid (n i : nat) (numCard : Z) (readBuffer uid : list Z)
  : list Z :=
  match n with
  | O => uid
  | S k =>
      let startAddr := uint8 (numCard * 8 + Z.of_nat i) in
      record_uid k (S i) numCard readBuffer
                 (upd (Z.to_nat startAddr) (at_ readBuffer (2 + i)) uid)
  end.

(** [*p] for the pointer a call stored in [*resultPtr]; a pointer that
    was never stored is not dereferenced by the driver, and reads as the
    empty array here. *)
Definition deref (p : option BufPtr) : M (list Z) :=
  fun w => Some (match p with Some q => load q w | None => [] end, w).

Section Driver.

Variable env : Env.
Variable hdr : Header.

(** Bound on the number of iterations of each polling loop. *)
Variable fuel : nat.

(** ** Primitive operations of the Arduino core *)

Definition log (e : Event) : M unit := fun w => Some (tt, emit e w).

Definition SPI_beginTransaction : M unit := log EvBeginTransaction.
Definition SPI_endTransaction : M unit := log EvEndTransaction.
Definition digitalWrite_NSS (level : bool) : M unit := log (EvNSS level).
Definition delay (ms : Z) : M unit := log (EvDelay ms).

Definition digitalRead_BUSY : M bool :=
  fun w => let b := env_busy env (history w) in Some (b, emit (EvBusy b) w).

Definition millis : M Z :=
  fun w => let t := uint32 (env_millis env (history w)) in
           Some (t, emit (EvMillis t) w).

(** [SPI.transfer(buf, n)]: shifts [buf] out and returns the [n] bytes
    shifted in, which replace the contents of [buf]. *)
Definition SPI_transfer (mosi : list Z) : M (list Z) :=
  fun w => let miso := map (fun i => uint8 (env_miso env (history w) i))
                           (seq 0 (length mosi)) in
           Some (miso, emit (EvTransfer mosi miso) w).

Definition get_commandTimeout : M Z := fun w => Some (commandTimeout w, w).

(** An uninitialised local of [n] bytes. *)
Definition indeterminate (n : nat) : M (list Z) :=
  fun w => Some (map (fun i => uint8 (env_indet env (history w) i)) (seq 0 n), w).

(** ** PN5180.cpp: the command transport *)

(** [while (level != digitalRead(PN5180_BUSY)) {
       if (millis() - startedWaiting > commandTimeout) ... return false; }]
    The result is [true] when the line reached [level], [false] on a
    timeout. *)
Fixpoint waitBusy (n : nat) (level : bool) (startedWaiting : Z) : M bool :=
  match n with
  | O => fun _ => None
  | S n' =>
      b <- digitalRead_BUSY ;;
      if Bool.eqb b level then ret true
      else
        now <- millis ;;
        timeout <- get_commandTimeout ;;
        if timeout <? uint32 (now - startedWaiting) then ret false
        else waitBusy n' level startedWaiting
  end.

Definition awaitBusy (level : bool) : M bool :=
  startedWaiting <- millis ;;
  waitBusy fuel level startedWaiting.

(** The common body of the five timeout branches. *)
Definition tc_timeout (recvBuffer : option (list Z)) : M (bool * option (list Z)) :=
  SPI_endTransaction ;;
  digitalWrite_NSS HIGH ;;
  ret (false, recvBuffer).

(** [transceiveCommand(sendBuffer, sendBufferLen, recvBuffer, recvBufferLen)].
    [sendBuffer] is the frame of [sendBufferLen] bytes; [recvBuffer] is
    the memory the pointer designates ([None] for a null pointer) and the
    second component of the result is that memory afterwards. *)
Definition transceiveCommand (sendBuffer : list Z)
    (recvBuffer : option (list Z)) (recvBufferLen : Z)
  : M (bool * option (list Z)) :=
  SPI_beginTransaction ;;
  (* 0. *)
  ok <- awaitBusy LOW ;;
  if negb ok then tc_timeout recvBuffer else
  (* 1. *)
  digitalWrite_NSS LOW ;; delay 1 ;;
  (* 2. *)
  _ <- SPI_transfer sendBuffer ;;
  (* 3. *)
  ok <- awaitBusy HIGH ;;
  if negb ok then tc_timeout recvBuffer else
  (* 4. *)
  digitalWrite_NSS HIGH ;; delay 1 ;;
  (* 5. *)
  ok <- awaitBusy LOW ;;
  if negb ok then tc_timeout recvBuffer else
  (* check, if write-only *)
  match recvBuffer with
  | None =>
      SPI_endTransaction ;; digitalWrite_NSS HIGH ;; ret (true, recvBuffer)
  | Some buf =>
      if recvBufferLen =? 0 then
        SPI_endTransaction ;; digitalWrite_NSS HIGH ;; ret (true, recvBuffer)
      else
        (* 1. *)
        digitalWrite_NSS LOW ;;
        (* 2. memset(recvBuffer, 0xFF, recvBufferLen); transfer *)
        miso <- SPI_transfer (repeat 0xFF (Z.to_nat recvBufferLen)) ;;
        let buf' := Some (miso ++ skipn (Z.to_nat recvBufferLen) buf) in
        (* 3. *)
        ok <- awaitBusy HIGH ;;
        if negb ok then tc_timeout buf' else
        (* 4. *)
        digitalWrite_NSS HIGH ;;
        (* 5. *)
        ok <- awaitBusy LOW ;;
        if negb ok then tc_timeout buf' else
        SPI_endTransaction ;;
        ret (true, buf')
  end.

(** ** PN5180.cpp: the register and command layer *)

(** WRITE_REGISTER - 0x00 *)
Definition writeRegister (reg value : Z) : M bool :=
  '(ok, _) <- transceiveCommand
                ([PN5180_WRITE_REGISTER; reg] ++ le_bytes32 value) None 0 ;;
  if negb ok then ret false else ret true.

(** WRITE_REGISTER_OR_MASK - 0x01 *)
Definition writeRegisterWithOrMask (reg mask : Z) : M bool :=
  '(ok, _) <- transceiveCommand
                ([PN5180_WRITE_REGISTER_OR_MASK; reg] ++ le_bytes32 mask) None 0 ;;
  if negb ok then ret false else ret true.

(** WRITE_REGISTER_AND_MASK - 0x02 *)
Definition writeRegisterWithAndMask (reg mask : Z) : M bool :=
  '(ok, _) <- transceiveCommand
                ([PN5180_WRITE_REGISTER_AND_MASK; reg] ++ le_bytes32 mask) None 0 ;;
  if negb ok then ret false else ret true.

(** READ_REGISTER - 0x04.  [value] is what the caller's variable holds
    before the call; the second component is what it holds afterwards. *)
Definition readRegister (reg value : Z) : M (bool * Z) :=
  '(ok, buf) <- transceiveCommand [PN5180_READ_REGISTER; reg]
                  (Some (le_bytes32 value)) 4 ;;
  let value' := match buf with
                | Some b => of_le_bytes32 b
                | None => value
                end in
  if negb ok then ret (false, value') else ret (true, value').

(** An uninitialised [uint32_t] local. *)
Definition indeterminate32 : M Z :=
  b <- indeterminate 4 ;; ret (of_le_bytes32 b).

(** WRITE_EEPROM - 0x06 *)
Definition writeEEprom (addr : Z) (buffer : list Z) (len : Z) : M bool :=
  '(ok, _) <- transceiveCommand
                ([PN5180_WRITE_EEPROM; addr] ++ cells buffer 0 (Z.to_nat len))
                None 0 ;;
  if negb ok then ret false else ret true.

(** READ_EEPROM - 0x07.  [addr] is a [uint8_t], [len] an [int]. *)
Definition readEEprom (addr : Z) (buffer : list Z) (len : Z)
  : M (bool * list Z) :=
  if (addr >? 254) || (addr + len >? 254) then ret (false, buffer)
  else
    '(ok, buf) <- transceiveCommand [PN5180_READ_EEPROM; addr; uint8 len]
                    (Some buffer) (uint32 len) ;;
    let buffer' := match buf with Some b => b | None => buffer end in
    if negb ok then ret (false, buffer') else ret (true, buffer').

(** SEND_DATA - 0x09, the bare command. *)
Definition cmd_SendData (data : list Z) (len validBits : Z) : M bool :=
  '(ok, _) <- transceiveCommand
                ([PN5180_SEND_DATA; validBits] ++ cells data 0 (Z.to_nat len))
                None 0 ;;
  if negb ok then ret false else ret true.

(** Get TRANSCEIVE_STATE from RF_STATUS register *)
Definition getTransceiveState : M PN5180TransceiveStat :=
  rfStatus0 <- indeterminate32 ;;
  '(ok, rfStatus) <- readRegister (RF_STATUS hdr) rfStatus0 ;;
  if negb ok then ret (PN5180TransceiveStat_of 0)
  else
    let state := Z.land (Z.shiftr rfStatus 24) 0x07 in
    ret (PN5180TransceiveStat_of state).

(** [sendData(data, len, validBits)] *)
Definition sendData (data : list Z) (len validBits : Z) : M bool :=
  if len >? 260 then ret false else
  (* Idle/StopCom Command *)
  ok <- writeRegisterWithAndMask (SYSTEM_CONFIG hdr) 0xfffffff8 ;;
  if negb ok then ret false else
  (* Transceive Command *)
  ok <- writeRegisterWithOrMask (SYSTEM_CONFIG hdr) 0x00000003 ;;
  if negb ok then ret false else
  transceiveState <- getTransceiveState ;;
  if negb (is_WaitTransmit transceiveState) then ret false else
  ok <- cmd_SendData data len validBits ;;
  if negb ok then ret false else ret true.

Definition set_readBufferStatic16 (b : list Z) : M unit :=
  fun w => Some (tt, mkWorld (history w) (commandTimeout w) b
                             (readBufferDynamic508 w)).

Definition set_readBufferDynamic508 (b : option (list Z)) : M unit :=
  fun w => Some (tt, mkWorld (history w) (commandTimeout w)
                             (readBufferStatic16 w) b).

Definition get_readBufferStatic16 : M (list Z) :=
  fun w => Some (readBufferStatic16 w, w).

Definition get_readBufferDynamic508 : M (option (list Z)) :=
  fun w => Some (readBufferDynamic508 w, w).

(** [malloc(508)]: a fresh block of indeterminate contents, or null. *)
Definition malloc508 : M (option (list Z)) :=
  fun w => let ok := env_malloc env (history w) in
           let block := map (fun i => uint8 (env_indet env (history w) i))
                            (seq 0 508) in
           Some (if ok then Some block else None, emit (EvMalloc ok) w).

(** READ_DATA - 0x0A, [uint8_t * readData(int len)]: the result is the
    pointer returned, [None] for the null pointer. *)
Definition readData (len : Z) : M (option BufPtr) :=
  if (len <? 0) || (len >? 508) then ret None else
  let cmd := [PN5180_READ_DATA; 0x00] in
  if len <=? 16 then
    (* use a smaller static buffer, e.g. if reading the uid only *)
    readBuffer <- get_readBufferStatic16 ;;
    '(ok, buf) <- transceiveCommand cmd (Some readBuffer) len ;;
    set_readBufferStatic16
      (match buf with Some b => b | None => readBuffer end) ;;
    if negb ok then ret None else ret (Some PtrStatic16)
  else
    (* allocate the max buffer length of 508 bytes *)
    dyn <- get_readBufferDynamic508 ;;
    dyn <- match dyn with
           | Some b => ret (Some b)
           | None => blk <- malloc508 ;;
                     set_readBufferDynamic508 blk ;;
                     ret blk
           end ;;
    match dyn with
    | None => ret None
    | Some readBuffer =>
        '(ok, buf) <- transceiveCommand cmd (Some readBuffer) len ;;
        set_readBufferDynamic508
          (Some (match buf with Some b => b | None => readBuffer end)) ;;
        if negb ok then ret None else ret (Some PtrDynamic508)
    end.

(** [bool readData(int len, uint8_t *buffer)]: [buffer] is the memory
    from the pointer on, returned as it is afterwards. *)
Definition readData_into (len : Z) (buffer : list Z) : M (bool * list Z) :=
  if (len <? 0) || (len >? 508) then ret (false, buffer) else
  '(ok, buf) <- transceiveCommand [PN5180_READ_DATA; 0x00] (Some buffer) len ;;
  let buffer' := match buf with Some b => b | None => buffer end in
  if negb ok then ret (false, buffer') else ret (true, buffer').

(** MIFARE_AUTHENTICATE - 0x0C.  The result is an [int16_t]. *)
Definition mifareAuthenticate (blockNo : Z) (key : list Z) (keyType : Z)
    (uid : list Z) : M Z :=
  if negb (keyType =? 0x60) && negb (keyType =? 0x61) then ret (-2) else
  let cmdBuffer := [PN5180_MIFARE_AUTHENTICATE] ++ cells key 0 6
                     ++ [keyType; blockNo] ++ cells uid 0 4 in
  let rcvBuffer := [0x02] in
  '(ok, buf) <- transceiveCommand cmdBuffer (Some rcvBuffer) 1 ;;
  if negb ok then ret (-3)
  else ret (at_ (match buf with Some b => b | None => rcvBuffer end) 0).

(** LOAD_RF_CONFIG - 0x11 *)
Definition loadRFConfig (txConf rxConf : Z) : M bool :=
  '(ok, _) <- transceiveCommand [PN5180_LOAD_RF_CONFIG; txConf; rxConf] None 0 ;;
  if negb ok then ret false else ret true.

(** RF_ON - 0x16 and RF_OFF - 0x17, the bare commands. *)
Definition cmd_RfOn (parameter : Z) : M bool :=
  '(ok, _) <- transceiveCommand [PN5180_RF_ON; parameter] None 0 ;;
  if negb ok then ret false else ret true.

Definition cmd_RfOff (parameter : Z) : M bool :=
  '(ok, _) <- transceiveCommand [PN5180_RF_OFF; parameter] None 0 ;;
  if negb ok then ret false else ret true.

Definition getIRQStatus : M Z :=
  irqStatus0 <- indeterminate32 ;;
  '(ok, irqStatus) <- readRegister (IRQ_STATUS hdr) irqStatus0 ;;
  if negb ok then ret 0 else ret irqStatus.

Definition clearIRQStatus (irqMask : Z) : M bool :=
  ok <- writeRegister (IRQ_CLEAR hdr) irqMask ;;
  if negb ok then ret false else ret true.

(** The [while (1)] loop of [setRF_on] / [setRF_off]: [true] when the
    flag was seen, [false] on a failed register read or a timeout. *)
Fixpoint waitRF (n : nat) (flag limit startedWaiting irqStatus : Z) : M bool :=
  match n with
  | O => fun _ => None
  | S n' =>
      '(ok, irqStatus) <- readRegister (IRQ_STATUS hdr) irqStatus ;;
      if negb ok then ret false else
      if negb (Z.land flag irqStatus =? 0) then ret true else
      now <- millis ;;
      if limit <? uint32 (now - startedWaiting) then ret false
      else waitRF n' flag limit startedWaiting irqStatus
  end.

Definition setRF_on : M bool :=
  ok <- cmd_RfOn 0 ;;
  if negb ok then ret false else
  startedWaiting <- millis ;;
  irqStatus <- indeterminate32 ;;
  seen <- waitRF fuel (TX_RFON_IRQ_STAT hdr) SETRF_ON_TIMEOUT
                 startedWaiting irqStatus ;;
  if negb seen then ret false else
  ok <- clearIRQStatus (TX_RFON_IRQ_STAT hdr) ;;
  if negb ok then ret false else ret true.

Definition setRF_off : M bool :=
  ok <- cmd_RfOff 0 ;;
  if negb ok then ret false else
  startedWaiting <- millis ;;
  irqStatus <- indeterminate32 ;;
  seen <- waitRF fuel (TX_RFOFF_IRQ_STAT hdr) SETRF_OFF_TIMEOUT
                 startedWaiting irqStatus ;;
  if negb seen then ret false else
  ok <- clearIRQStatus (TX_RFOFF_IRQ_STAT hdr) ;;
  if negb ok then ret false else ret true.

(** ** PN5180ISO14443.cpp *)

Definition rxBytesReceived : M Z :=
  rxStatus0 <- indeterminate32 ;;
  '(_, rxStatus) <- readRegister (RX_STATUS hdr) rxStatus0 ;;
  (* Lower 9 bits has length *)
  ret (uint16 (Z.land rxStatus 0x000001ff)).

(** [while (PN5180_TS_WaitTransmit != getTransceiveState()) {
       delay(1); if (millis() - startedWaiting > 200) return -1; }]
    [true] when the state was reached, [false] on the timeout. *)
Fixpoint waitTransmit (n : nat) (startedWaiting : Z) : M bool :=
  match n with
  | O => fun _ => None
  | S n' =>
      st <- getTransceiveState ;;
      if is_WaitTransmit st then ret true else
      delay 1 ;;
      now <- millis ;;
      if 200 <? uint32 (now - startedWaiting) then ret false
      else waitTransmit n' startedWaiting
  end.

(** [readData(len, a + off)]: read into the array [a] from cell [off]
    on. *)
Definition readData_at (len : Z) (a : list Z) (off : nat) : M (bool * list Z) :=
  '(ok, tail) <- readData_into len (skipn off a) ;;
  ret (ok, firstn off a ++ tail).

(** Lines 246-312 of [activateTypeA]: what follows the read of the SAK
    after Select-1.  [cmd] is the local command array ([cmd[2..6]] hold
    the five bytes read after Anticollision-1), [buffer] the caller's
    array ([buffer[2]] holds the SAK). *)
Definition activateTypeA_tiebreak (cmd buffer : list Z) : M (Z * list Z) :=
  (* If Bit 3 is 0 it is 4 Byte UID *)
  if Z.land (at_ buffer 2) 0x04 =? 0 then
    (* Take first 4 bytes of anti collision as UID store at offset 3 onwards *)
    let buffer := copy_cells 4 cmd 2 buffer 3 in
    ret (4, buffer)
  else
    (* Take First 3 bytes of UID, Ignore first byte 88(CT) *)
    if negb (at_ cmd 2 =? 0x88) then ret (0, buffer) else
    let buffer := copy_cells 3 cmd 3 buffer 3 in
    (* Clear RX CRC *)
    ok <- writeRegisterWithAndMask (CRC_RX_CONFIG hdr) 0xFFFFFFFE ;;
    if negb ok then ret (-2, buffer) else
    (* Clear TX CRC *)
    ok <- writeRegisterWithAndMask (CRC_TX_CONFIG hdr) 0xFFFFFFFE ;;
    if negb ok then ret (-2, buffer) else
    (* Do anti collision 2 *)
    let cmd := upd 1 0x20 (upd 0 0x95 cmd) in
    ok <- sendData cmd 2 0x00 ;;
    if negb ok then ret (-2, buffer) else
    (* Read 5 bytes. we will store at offset 2 for later use *)
    '(ok, cmd) <- readData_at 5 cmd 2 ;;
    if negb ok then ret (-2, buffer) else
    (* first 4 bytes belongs to last 4 UID bytes, we keep it. *)
    let buffer := copy_cells 4 cmd 2 buffer 6 in
    (* Enable RX CRC calculation *)
    ok <- writeRegisterWithOrMask (CRC_RX_CONFIG hdr) 0x01 ;;
    if negb ok then ret (-2, buffer) else
    (* Enable TX CRC calculation *)
    ok <- writeRegisterWithOrMask (CRC_TX_CONFIG hdr) 0x01 ;;
    if negb ok then ret (-2, buffer) else
    (* Send Select anti collision 2 *)
    let cmd := upd 1 0x70 (upd 0 0x95 cmd) in
    ok <- sendData cmd 7 0x00 ;;
    if negb ok then ret (-2, buffer) else
    (* Read 1 byte SAK into buffer[2] *)
    '(ok, buffer) <- readData_at 1 buffer 2 ;;
    if negb ok then ret (-2, buffer) else
    ret (7, buffer).

(** [activateTypeA(buffer, kind)]: the result is the [int8_t] returned
    and the caller's 10-byte array afterwards. *)
Definition activateTypeA (buffer : list Z) (kind : Z) : M (Z * list Z) :=
  cmd <- indeterminate 7 ;;
  (* Load standard TypeA protocol already done in reset() *)
  ok <- loadRFConfig 0x0 0x80 ;;
  if negb ok then ret (-1, buffer) else
  (* activate RF field *)
  _ <- setRF_on ;;
  (* wait RF-field to ramp-up *)
  delay 10 ;;
  (* OFF Crypto *)
  ok <- writeRegisterWithAndMask (SYSTEM_CONFIG hdr) 0xFFFFFFBF ;;
  if negb ok then ret (-1, buffer) else
  (* clear RX CRC *)
  ok <- writeRegisterWithAndMask (CRC_RX_CONFIG hdr) 0xFFFFFFFE ;;
  if negb ok then ret (-1, buffer) else
  (* clear TX CRC *)
  ok <- writeRegisterWithAndMask (CRC_TX_CONFIG hdr) 0xFFFFFFFE ;;
  if negb ok then ret (-1, buffer) else
  (* set the PN5180 into IDLE state *)
  ok <- writeRegisterWithAndMask (SYSTEM_CONFIG hdr) 0xFFFFFFF8 ;;
  if negb ok then ret (-1, buffer) else
  (* activate TRANSCEIVE routine *)
  ok <- writeRegisterWithOrMask (SYSTEM_CONFIG hdr) 0x00000003 ;;
  if negb ok then ret (-1, buffer) else
  (* wait for wait-transmit state *)
  transceiveState <- getTransceiveState ;;
  if negb (is_WaitTransmit transceiveState) then ret (-1, buffer) else
  (* clear all IRQs *)
  _ <- clearIRQStatus 0xffffffff ;;
  (* Send REQA/WUPA, 7 bits in last byte *)
  let cmd := upd 0 (if kind =? 0 then 0x26 else 0x52) cmd in
  ok <- sendData cmd 1 0x07 ;;
  if negb ok then ret (0, buffer) else
  (* wait some mSecs for end of RF receiption *)
  delay 10 ;;
  (* READ 2 bytes ATQA into buffer *)
  '(ok, buffer) <- readData_at 2 buffer 0 ;;
  if negb ok then ret (0, buffer) else
  startedWaiting <- millis ;;
  ready <- waitTransmit fuel startedWaiting ;;
  if negb ready then ret (-1, buffer) else
  (* clear all IRQs *)
  _ <- clearIRQStatus 0xffffffff ;;
  (* send Anti collision 1, 8 bits in last byte *)
  let cmd := upd 1 0x20 (upd 0 0x93 cmd) in
  ok <- sendData cmd 2 0x00 ;;
  if negb ok then ret (-2, buffer) else
  (* wait some mSecs for end of RF receiption *)
  delay 5 ;;
  numBytes <- rxBytesReceived ;;
  if negb (uint8 numBytes =? 5) then ret (-2, buffer) else
  (* read 5 bytes sak, we will store at offset 2 for later usage *)
  '(ok, cmd) <- readData_at 5 cmd 2 ;;
  if negb ok then ret (-2, buffer) else
  (* save the first 4 bytes of UID *)
  let buffer := copy_cells 4 cmd 2 buffer 0 in
  (* Enable RX CRC calculation *)
  ok <- writeRegisterWithOrMask (CRC_RX_CONFIG hdr) 0x01 ;;
  if negb ok then ret (-2, buffer) else
  (* Enable TX CRC calculation *)
  ok <- writeRegisterWithOrMask (CRC_TX_CONFIG hdr) 0x01 ;;
  if negb ok then ret (-2, buffer) else
  (* Send Select anti collision 1 *)
  let cmd := upd 1 0x70 (upd 0 0x93 cmd) in
  ok <- sendData cmd 7 0x00 ;;
  (* no remaining bytes, we have a 4 byte UID *)
  if negb ok then ret (4, buffer) else
  (* Read 1 byte SAK into buffer[2] *)
  '(ok, buffer) <- readData_at 1 buffer 2 ;;
  if negb ok then ret (-2, buffer) else
  activateTypeA_tiebreak cmd buffer.

(** The checks of [readCardSerial] on what [activateTypeA] returned:
    [response] is the 10-byte array (ATQA at 0..1, SAK at 2, UID from 3
    on), [buffer] the caller's array.  The result is the [int8_t]
    returned and the caller's array afterwards. *)
Definition readCardSerial_check (uidLength : Z) (response buffer : list Z)
  : Z * list Z :=
  if uidLength <=? 0 then (uidLength, buffer) else
  (* UID length must be at least 4 bytes *)
  if uidLength <? 4 then (0, buffer) else
  let uidLength :=
    if (at_ response 0 =? 0xFF) && (at_ response 1 =? 0xFF) then 0
    else uidLength in
  (* first UID byte should not be 0x00 or 0xFF *)
  let uidLength :=
    if (at_ response 3 =? 0x00) || (at_ response 3 =? 0xFF) then 0
    else uidLength in
  (* check for valid uid, skip first byte (0x04) *)
  let validUID :=
    existsb (fun i => negb (at_ response (i + 3) =? 0x00)
                      && negb (at_ response (i + 3) =? 0xFF))
            (seq 1 (Z.to_nat uidLength - 1)) in
  let validUID :=
    if uidLength =? 4 then
      (* must not be the CT-flag (0x88)! *)
      if at_ response 3 =? 0x88 then false else validUID
    else validUID in
  let validUID :=
    if uidLength =? 7 then
      let v := if at_ response 6 =? 0x88 then false else validUID in
      let v := if (at_ response 6 =? 0x00) && (at_ response 7 =? 0x00)
                  && (at_ response 8 =? 0x00) && (at_ response 9 =? 0x00)
               then false else v in
      if (at_ response 6 =? 0xFF) && (at_ response 7 =? 0xFF)
         && (at_ response 8 =? 0xFF) && (at_ response 9 =? 0xFF)
      then false else v
    else validUID in
  if validUID
  then (uidLength, copy_cells (Z.to_nat uidLength) response 3 buffer 0)
  else (0, buffer).

Definition readCardSerial (buffer : list Z) : M (Z * list Z) :=
  let response := repeat 0 10 in
  '(uidLength, response) <- activateTypeA response 0 ;;
  ret (readCardSerial_check uidLength response buffer).

(** ** PN5180ISO15693.cpp *)

(** [while(!(irqR & RX_IRQ_STAT)) { irqR = getIRQStatus();
       if (millis() - startedWaiting > commandTimeout) return EC_NO_CARD; }]
    [true] when the flag was seen, [false] on the timeout. *)
Fixpoint waitRxIrq (n : nat) (startedWaiting irqR : Z) : M bool :=
  if negb (Z.land irqR (RX_IRQ_STAT hdr) =? 0) then ret true else
  match n with
  | O => fun _ => None
  | S n' =>
      irqR <- getIRQStatus ;;
      now <- millis ;;
      timeout <- get_commandTimeout ;;
      if timeout <? uint32 (now - startedWaiting) then ret false
      else waitRxIrq n' startedWaiting irqR
  end.

(** [issueISO15693Command(cmd, cmdLen, resultPtr)]: the result is the
    error code and the pointer stored in [*resultPtr] ([None] while
    nothing has been stored there). *)
Definition issueISO15693Command (cmd : list Z) (cmdLen : Z)
  : M (Z * option BufPtr) :=
  _ <- sendData cmd cmdLen 0 ;;
  delay 10 ;;
  irqR <- getIRQStatus ;;
  if Z.land irqR (RX_SOF_DET_IRQ_STAT hdr) =? 0 then ret (EC_NO_CARD, None) else
  startedWaiting <- millis ;;
  seen <- waitRxIrq fuel startedWaiting irqR ;;
  if negb seen then ret (EC_NO_CARD, None) else
  rxStatus0 <- indeterminate32 ;;
  '(ok, rxStatus) <- readRegister (RX_STATUS hdr) rxStatus0 ;;
  if negb ok then ret (ISO15693_EC_UNKNOWN_ERROR, None) else
  let len := uint16 (Z.land rxStatus 0x000001ff) in
  resultPtr <- readData len ;;
  match resultPtr with
  | None => ret (ISO15693_EC_UNKNOWN_ERROR, None)
  | Some p =>
      irqStatus <- getIRQStatus ;;
      if Z.land (RX_SOF_DET_IRQ_STAT hdr) irqStatus =? 0 then
        (* no card detected *)
        _ <- clearIRQStatus (Z.lor (TX_IRQ_STAT hdr) (IDLE_IRQ_STAT hdr)) ;;
        ret (EC_NO_CARD, resultPtr)
      else
        result <- deref (Some p) ;;
        let responseFlags := at_ result 0 in
        if negb (Z.land responseFlags (Z.shiftl 1 0) =? 0) then
          (* error flag *)
          let errorCode := at_ result 1 in
          if errorCode >=? 0xA0 then ret (ISO15693_EC_CUSTOM_CMD_ERROR, resultPtr)
          else ret (errorCode, resultPtr)
        else
          _ <- clearIRQStatus
                 (Z.lor (Z.lor (Z.lor (RX_SOF_DET_IRQ_STAT hdr) (IDLE_IRQ_STAT hdr))
                               (TX_IRQ_STAT hdr)) (RX_IRQ_STAT hdr)) ;;
          ret (ISO15693_EC_OK, resultPtr)
  end.

Definition ISO15693_setupRF : M bool :=
  ok <- loadRFConfig 0x0d 0x8d ;;
  if negb ok then ret false else
  ok <- setRF_on ;;
  if negb ok then ret false else
  _ <- writeRegisterWithAndMask (SYSTEM_CONFIG hdr) 0xfffffff8 ;;
  _ <- writeRegisterWithOrMask (SYSTEM_CONFIG hdr) 0x00000003 ;;
  ret true.

(** [getInventory(uid)]: the result is the error code and the caller's
    [uid] array afterwards. *)
Definition getInventory (uid : list Z) : M (Z * list Z) :=
  let cmd := ISO15693_CMD_INVENTORY in
  let flags := Z.lor (Z.lor ISO15693_REQ_FLAG_NBSLOTS ISO15693_REQ_FLAG_INVENTORY)
                     ISO15693_REQ_FLAG_DATARATE in
  let maskLen := 0x00 in
  let inventory := [cmd; flags; maskLen] in
  let uid := copy_cells 8 (repeat 0 8) 0 uid 0 in
  '(rc, readBuffer) <- issueISO15693Command inventory 3 ;;
  if negb (rc =? ISO15693_EC_OK) then ret (rc, uid) else
  result <- deref readBuffer ;;
  ret (ISO15693_EC_OK, copy_cells 8 result 2 uid 0).

(** The body of the slot loop of [inventoryPoll] (step 7 to 15). The
    boolean is [false] where the source returns
    [ISO15693_EC_UNKNOWN_ERROR]. *)
Definition inventoryPoll_slot (maxTags maskLen : Z) (inventory : list Z)
    (slot : Z) (st : Inventory) : M (bool * Inventory) :=
  irqStatus <- getIRQStatus ;;
  rxStatus0 <- indeterminate32 ;;
  '(ok, rxStatus) <- readRegister (RX_STATUS hdr) rxStatus0 ;;
  if negb ok then ret (false, st) else
  (* 7+ Determine if a collision occurred *)
  let len := uint16 (Z.land rxStatus 0x000001ff) in
  '(ok, st) <-
    (if negb (Z.land (Z.shiftr rxStatus 18) 0x01 =? 0)
        && (inv_numCol st <? maxTags) then
       let c := if 0 <? maskLen
                then uint16 (Z.lor (at_ (inv_collision st) 0)
                                   (Z.shiftl slot (maskLen * 4)))
                else uint16 (Z.shiftl slot (maskLen * 4)) in
       ret (true, mkInventory (inv_uid st) (inv_numCard st)
                    (uint8 (inv_numCol st + 1))
                    (upd (Z.to_nat (inv_numCol st)) c (inv_collision st)))
     else
       (* 8. Check if a card has responded *)
       if (Z.land irqStatus (RX_IRQ_STAT hdr) =? 0) && (len =? 0) then
         ret (true, st)
       else
         (* 9. Read reception buffer *)
         readBuffer <- readData (len + 1) ;;
         match readBuffer with
         | None => ret (false, st)
         | Some p =>
             result <- deref (Some p) ;;
             (* 10. Record all data to Inventory struct *)
             ret (true, mkInventory
                          (record_uid 8 0 (inv_numCard st) result (inv_uid st))
                          (uint8 (inv_numCard st + 1))
                          (inv_numCol st) (inv_collision st))
         end) ;;
  if negb ok then ret (false, st) else
  if slot + 1 <? 16 then
    (* 11. Next SEND_DATA will only include EOF *)
    ok <- writeRegisterWithAndMask (TX_CONFIG hdr) 0xFFFFFB3F ;;
    if negb ok then ret (false, st) else
    delay 5 ;;
    (* 14. Clear all IRQ_STATUS flags *)
    ok <- clearIRQStatus 0x000FFFFF ;;
    if negb ok then ret (false, st) else
    (* 12. 13. 15. Idle/StopCom Command, Transceive Command, Send EOF *)
    ok <- sendData inventory 0 0 ;;
    if negb ok then ret (false, st) else
    ret (true, st)
  else ret (true, st).

(** [for(uint8_t slot=0; slot<16; slot++)], entered at [slot] with
    [n] rounds to go. *)
Fixpoint inventoryPoll_slots (n : nat) (maxTags maskLen : Z)
    (inventory : list Z) (slot : Z) (st : Inventory) : M (bool * Inventory) :=
  match n with
  | O => ret (true, st)
  | S n' =>
      '(ok, st) <- inventoryPoll_slot maxTags maskLen inventory slot st ;;
      if negb ok then ret (false, st)
      else inventoryPoll_slots n' maxTags maskLen inventory (slot + 1) st
  end.

(** [inventoryPoll(uid, maxTags, numCard, numCol, collision)] *)
Definition inventoryPoll (maxTags : Z) (st : Inventory) : M (Z * Inventory) :=
  let maskLen := inventoryPoll_maskLen (inv_numCol st) (inv_collision st) in
  let inventory := inventoryPoll_request maskLen (inv_collision st) in
  let cmdLen := inventoryPoll_cmdLen maskLen in
  (* 3. Clear all IRQ_STATUS flags *)
  ok <- clearIRQStatus 0x000FFFFF ;;
  if negb ok then ret (ISO15693_EC_UNKNOWN_ERROR, st) else
  (* 4. 5. 6. Idle/StopCom Command, Transceive Command, Inventory command *)
  ok <- sendData inventory cmdLen 0 ;;
  if negb ok then ret (ISO15693_EC_UNKNOWN_ERROR, st) else
  (* 7. Loop to check 16 time slots for data *)
  '(ok, st) <- inventoryPoll_slots 16 maxTags maskLen inventory 0 st ;;
  if negb ok then ret (ISO15693_EC_UNKNOWN_ERROR, st) else
  (* 16. Switch off RF field *)
  ok <- setRF_off ;;
  if negb ok then ret (ISO15693_EC_UNKNOWN_ERROR, st) else
  (* 1. 2. Load ISO15693 config, RF on *)
  ok <- ISO15693_setupRF ;;
  if negb ok then ret (ISO15693_EC_UNKNOWN_ERROR, st) else
  ret (ISO15693_EC_OK, st).

(** [while(numCol){ ... }] of [getInventoryMultiple]. *)
Fixpoint resolveCollisions (n : nat) (maxTags : Z) (st : Inventory)
  : M (Z * Inventory) :=
  if inv_numCol st =? 0 then ret (ISO15693_EC_OK, st) else
  match n with
  | O => fun _ => None
  | S n' =>
      '(rc, st) <- inventoryPoll maxTags st ;;
      if negb (rc =? ISO15693_EC_OK) then ret (ISO15693_EC_UNKNOWN_ERROR, st)
      else
        let numCol := uint8 (inv_numCol st - 1) in
        let collision :=
          shift_collisions (Z.to_nat numCol) 0 (inv_collision st) in
        resolveCollisions n' maxTags
          (mkInventory (inv_uid st) (inv_numCard st) numCol collision)
  end.

(** An uninitialised array of [n] [uint16_t]. *)
Definition indeterminate16 (n : nat) : M (list Z) :=
  b <- indeterminate (2 * n) ;;
  ret (map (fun i => at_ b (2 * i) + 256 * at_ b (2 * i + 1)) (seq 0 n)).

(** [getInventoryMultiple(uid, maxTags, numCard)]: the result is the
    error code and the caller's variables afterwards (with the final
    values of the locals [numCol] and [collision]). *)
Definition getInventoryMultiple (uid : list Z) (maxTags : Z)
  : M (Z * Inventory) :=
  collision <- indeterminate16 (Z.to_nat maxTags) ;;
  let st := mkInventory uid 0 0 collision in
  '(rc, st) <- inventoryPoll maxTags st ;;
  if negb (rc =? ISO15693_EC_OK) then ret (ISO15693_EC_UNKNOWN_ERROR, st)
  else resolveCollisions fuel maxTags st.

(** [readMultipleBlock(uid, blockNo, numBlock, blockData, blockSize)]:
    [blockNo], [numBlock] and [blockSize] are [uint8_t], promoted to
    [int] in the two range tests. *)
Definition readMultipleBlock (uid : list Z) (blockNo numBlock : Z)
    (blockData : list Z) (blockSize : Z) : M (Z * list Z) :=
  if blockNo >? numBlock - 1 then
    (* Attempted to start at a block greater than the num blocks on the VICC *)
    ret (ISO15693_EC_BLOCK_NOT_AVAILABLE, blockData) else
  if blockNo + numBlock >? numBlock then
    (* Will attempt to read a block greater than the num blocks on the VICC *)
    ret (ISO15693_EC_BLOCK_NOT_AVAILABLE, blockData) else
  let readMultipleCmd :=
    copy_cells 8 uid 0
      [0x22; 0x23; 1; 2; 3; 4; 5; 6; 7; 8; blockNo; uint8 (numBlock - 1)] 2 in
  '(rc, resultPtr) <- issueISO15693Command readMultipleCmd 12 ;;
  if negb (rc =? ISO15693_EC_OK) then ret (rc, blockData) else
  result <- deref resultPtr ;;
  ret (ISO15693_EC_OK,
       copy_cells (Z.to_nat (numBlock * blockSize)) result 1 blockData 0).

End Driver.

(** ** Reading the record of events *)

(** Transfers of a stretch of the record, oldest first. *)
Definition chron (ext : list Event) : list (list Z * list Z) :=
  rev (transfers_rev ext).

(** Number of [malloc] calls in a stretch of the record. *)
Fixpoint allocs (ext : list Event) : nat :=
  match ext with
  | [] => O
  | EvMalloc _ :: t => S (allocs t)
  | _ :: t => allocs t
  end.

(** A stretch that only samples the BUSY line and the clock. *)
Definition is_poll (e : Event) : bool :=
  match e with
  | EvBusy _ | EvMillis _ => true
  | _ => false
  end.

(** [w'] is [w] after the events [ext] (newest first), the driver's
    memory being the same. *)
Definition advances (w w' : World) (ext : list Event) : Prop :=
  history w' = ext ++ history w /\
  commandTimeout w' = commandTimeout w /\
  readBufferStatic16 w' = readBufferStatic16 w /\
  readBufferDynamic508 w' = readBufferDynamic508 w.

(** What one call of [transceiveCommand] puts on the bus: nothing (the
    first wait timed out), the command frame alone, or the command frame
    and the read of the response. *)
Definition tc_shape (send : list Z) (recv : option (list Z)) (n : Z)
    (ok : bool) (buf : option (list Z)) (fs : list (list Z * list Z)) : Prop :=
  (fs = [] /\ ok = false /\ buf = recv)
  \/ (exists m, fs = [(send, m)] /\ buf = recv /\
                (ok = true -> recv = None \/ n = 0))
  \/ (exists b m1 m2, recv = Some b /\ n <> 0 /\
        fs = [(send, m1); (repeat 0xFF (Z.to_nat n), m2)] /\
        length m2 = Z.to_nat n /\
        buf = Some (m2 ++ skipn (Z.to_nat n) b)).

(** Postcondition of a run: whatever [c] returns from [w] satisfies
    [Q]. *)
Definition post {A : Type} (c : M A) (w : World) (Q : A -> World -> Prop) : Prop :=
  forall a w', c w = Some (a, w') -> Q a w'.

(** The world in which a timeout branch of [transceiveCommand] returns,
    [w] being the world in which the wait gave up. *)
Definition tc_aborted (w : World) : World :=
  emit (EvNSS HIGH) (emit EvEndTransaction w).

(** The values of the PN5180 data sheet, for concrete runs. *)
Definition datasheet : Header :=
  mkHeader 0x00 0x02 0x03 0x12 0x13 0x18 0x19 0x1d
           (Z.shiftl 1 0) (Z.shiftl 1 1) (Z.shiftl 1 2)
           (Z.shiftl 1 8) (Z.shiftl 1 9) (Z.shiftl 1 14).

(** Postcondition of [transceiveCommand]: the events it adds, none of
    them an allocation, leave the select line HIGH and have one of the
    three shapes. *)
Definition tc_post (send : list Z) (recv : option (list Z)) (n : Z)
    (w : World) (r : bool * option (list Z)) (w' : World) : Prop :=
  exists ext, advances w w' ext /\ nss_level (ext ++ history w) = HIGH /\
              allocs ext = 0%nat /\
              tc_shape send recv n (fst r) (snd r) (chron ext).

(** Postcondition of a command without response ([writeRegister],
    [loadRFConfig], [cmd_SendData], ...): the frame went out at most
    once, and it did whenever the call reports success. *)
Definition cmd_post (frame : list Z) (w : World) (ok : bool) (w' : World) : Prop :=
  exists ext, advances w w' ext /\ allocs ext = 0%nat /\
    ((chron ext = [] /\ ok = false) \/ (exists m, chron ext = [(frame, m)])).

(** Postcondition of [readRegister]: on success the value is the one
    the four bytes read back encode. *)
Definition reg_post (reg : Z) (w : World) (r : bool * Z) (w' : World) : Prop :=
  exists ext, advances w w' ext /\ allocs ext = 0%nat /\
    ((chron ext = [] /\ fst r = false)
     \/ (exists m, chron ext = [([PN5180_READ_REGISTER; reg], m)] /\
                   fst r = false)
     \/ (exists m1 m2, chron ext = [([PN5180_READ_REGISTER; reg], m1);
                                    (repeat 0xFF 4, m2)] /\
                       length m2 = 4%nat /\ snd r = of_le_bytes32 m2)).

Section Phases.

Variable env : Env.
Variable fuel : nat.

(** The five waits of [transceiveCommand], each with the bus activity
    that leads to it. *)
Definition tc_wait0 : M bool :=
  SPI_beginTransaction ;; awaitBusy env fuel LOW.

Definition tc_wait3 (sendBuffer : list Z) : M bool :=
  digitalWrite_NSS LOW ;; delay 1 ;;
  _ <- SPI_transfer env sendBuffer ;;
  awaitBusy env fuel HIGH.

Definition tc_wait5 : M bool :=
  digitalWrite_NSS HIGH ;; delay 1 ;; awaitBusy env fuel LOW.

Definition tc_recv3 (recvBufferLen : Z) : M (bool * list Z) :=
  digitalWrite_NSS LOW ;;
  miso <- SPI_transfer env (repeat 0xFF (Z.to_nat recvBufferLen)) ;;
  ok <- awaitBusy env fuel HIGH ;;
  ret (ok, miso).

Definition tc_recv5 : M bool :=
  digitalWrite_NSS HIGH ;; awaitBusy env fuel LOW.

End Phases.

(** The transceiver state encoded in the four bytes read back from
    RF_STATUS. *)
Definition transceive_state_of_bytes (m : list Z) : PN5180TransceiveStat :=
  PN5180TransceiveStat_of (Z.land (Z.shiftr (of_le_bytes32 m) 24) 0x07).

(** The five transfers of a complete [sendData], in order: the AND-mask
    write (Idle/StopCom), the OR-mask write (Transceive), the read of
    RF_STATUS (command and response) and the SEND_DATA command. *)
Definition sendData_frames (hdr : Header) (data : list Z) (len validBits : Z)
  : list (list Z) :=
  [ [PN5180_WRITE_REGISTER_AND_MASK; SYSTEM_CONFIG hdr] ++ le_bytes32 0xfffffff8;
    [PN5180_WRITE_REGISTER_OR_MASK; SYSTEM_CONFIG hdr] ++ le_bytes32 0x00000003;
    [PN5180_READ_REGISTER; RF_STATUS hdr];
    repeat 0xFF 4;
    [PN5180_SEND_DATA; validBits] ++ cells data 0 (Z.to_nat len) ].

(** Postcondition of [sendData]: the transfers made are the first [k]
    of the five, all five when the call reports success, and the fifth
    is made only after RF_STATUS read back as WaitTransmit. *)
Definition sendData_post (hdr : Header) (data : list Z) (len validBits : Z)
    (w : World) (ok : bool) (w' : World) : Prop :=
  exists ext, advances w w' ext /\ allocs ext = 0%nat /\
    exists (k : nat) (ms : list (list Z)),
      length ms = k /\ (k <= 5)%nat /\
      chron ext = combine (firstn k (sendData_frames hdr data len validBits)) ms /\
      (ok = true -> k = 5%nat) /\
      (k = 5%nat ->
       transceive_state_of_bytes (nth 3 ms []) = PN5180_TS_WaitTransmit).

(** Postcondition of [getTransceiveState]: a state other than Idle
    (the value returned on a failed read) was decoded from the four
    bytes read back from RF_STATUS. *)
Definition state_post (hdr : Header) (w : World) (st : PN5180TransceiveStat)
    (w' : World) : Prop :=
  exists ext, advances w w' ext /\ allocs ext = 0%nat /\
    ((st = PN5180_TS_Idle /\
      (chron ext = [] \/
       (exists m, chron ext = [([PN5180_READ_REGISTER; RF_STATUS hdr], m)]) \/
       (exists m1 m2, chron ext = [([PN5180_READ_REGISTER; RF_STATUS hdr], m1);
                                   (repeat 0xFF 4, m2)])))
     \/ (exists m1 m2, chron ext = [([PN5180_READ_REGISTER; RF_STATUS hdr], m1);
                                    (repeat 0xFF 4, m2)] /\
                       st = transceive_state_of_bytes m2)).

(** Postcondition of [uint8_t *readData(int len)].  The events added
    are [ext]; a length outside 0..508 returns null in an unchanged
    world; reads of at most 16 bytes leave the large buffer as it was
    and allocate nothing; larger reads leave the scratch buffer as it
    was and call [malloc] once, when the large buffer did not exist yet;
    a non-null result points to the buffer chosen by [len], whose first
    [len] bytes are the bytes read from the bus. *)
Definition readData_post (len : Z) (w : World) (r : option BufPtr)
    (w' : World) : Prop :=
  exists ext,
    history w' = ext ++ history w /\
    commandTimeout w' = commandTimeout w /\
    (len < 0 \/ 508 < len -> r = None /\ w' = w) /\
    (0 <= len <= 16 ->
     allocs ext = 0%nat /\
     readBufferDynamic508 w' = readBufferDynamic508 w /\
     (r = None \/ r = Some PtrStatic16)) /\
    (16 < len <= 508 ->
     readBufferStatic16 w' = readBufferStatic16 w /\
     (r = None \/ r = Some PtrDynamic508) /\
     allocs ext = match readBufferDynamic508 w with
                  | Some _ => 0%nat
                  | None => 1%nat
                  end /\
     (readBufferDynamic508 w <> None -> readBufferDynamic508 w' <> None) /\
     (r <> None -> readBufferDynamic508 w' <> None)) /\
    (forall p, r = Some p ->
       exists m0,
         (len = 0 /\ chron ext = [([PN5180_READ_DATA; 0x00], m0)])
         \/ (len <> 0 /\
             exists m, chron ext = [([PN5180_READ_DATA; 0x00], m0);
                                    (repeat 0xFF (Z.to_nat len), m)] /\
                       length m = Z.to_nat len /\
                       firstn (Z.to_nat len) (load p w') = m)).

(** ** Example devices, for concrete runs *)

(** A device that follows the handshake: BUSY is HIGH from a transfer
    until the host does something else than sampling. *)
Fixpoint ideal_busy (h : list Event) : bool :=
  match h with
  | EvBusy _ :: h' => ideal_busy h'
  | EvMillis _ :: h' => ideal_busy h'
  | EvTransfer _ _ :: _ => true
  | _ => false
  end.

(** The frame of the last transfer. *)
Fixpoint last_command (h : list Event) : list Z :=
  match h with
  | [] => []
  | EvTransfer o _ :: _ => o
  | _ :: h' => last_command h'
  end.

(** The payload of the last SEND_DATA command: the frame last sent to
    the card. *)
Fixpoint last_rf_frame (h : list Event) : list Z :=
  match h with
  | [] => []
  | EvTransfer (c :: _ :: payload) _ :: h' =>
      if c =? PN5180_SEND_DATA then payload else last_rf_frame h'
  | _ :: h' => last_rf_frame h'
  end.

(** A device with registers [regs] and, in its reception buffer, the
    answer [card] of the card; both may depend on what happened so far.
    Its clock stands still and every allocation succeeds. *)
Definition device (regs : list Event -> Z -> Z) (card : list Event -> list Z)
  : Env :=
  mkEnv ideal_busy
        (fun _ => 0)
        (fun h i =>
           match last_command h with
           | [c; reg] =>
               if c =? PN5180_READ_REGISTER then nth i (le_bytes32 (regs h reg)) 0
               else if c =? PN5180_READ_DATA then nth i (card h) 0
               else 0xFF
           | _ => 0xFF
           end)
        (fun _ => true)
        (fun _ _ => 0).

(** A device whose BUSY line is stuck HIGH; the clock advances by one
    millisecond per event. *)
Definition stuck_device : Env :=
  mkEnv (fun _ => HIGH)
        (fun h => Z.of_nat (length h))
        (fun _ _ => 0xFF)
        (fun _ => false)
        (fun _ _ => 0).

(** A device that never raises BUSY: it accepts a frame and does not
    react to it; the clock advances by one millisecond per event. *)
Definition unresponsive_device : Env :=
  mkEnv (fun _ => LOW)
        (fun h => Z.of_nat (length h))
        (fun _ _ => 0xFF)
        (fun _ => false)
        (fun _ _ => 0).

(** The world after [begin()]: nothing happened yet, the buffers are
    zero and absent. *)
Definition initial_world (timeout : Z) : World :=
  mkWorld [] timeout (repeat 0 16) None.

(** Registers of a device that is always ready: the transceiver waits
    to transmit, every interrupt flag is raised, and [rx] bytes were
    received. *)
Definition ready_regs (rx : Z) (h : list Event) (reg : Z) : Z :=
  if reg =? RF_STATUS datasheet then 0x01000000
  else if reg =? IRQ_STATUS datasheet then 0xFFFFFFFF
  else if reg =? RX_STATUS datasheet then rx
  else 0.

(** A Type-A card with the 7-byte UID 11 22 33 44 55 66 77: it answers
    REQA with its ATQA, Anticollision-1 with the cascade tag and three
    UID bytes, Select-1 with a SAK whose cascade bit is set,
    Anticollision-2 with the last four UID bytes and Select-2 with its
    final SAK. *)
Definition card7 (h : list Event) : list Z :=
  match last_rf_frame h with
  | [c] => if c =? 0x26 then [0x44; 0x00] else []
  | [c; d] =>
      if (c =? 0x93) && (d =? 0x20) then [0x88; 0x11; 0x22; 0x33; 0x88]
      else if (c =? 0x95) && (d =? 0x20) then [0x44; 0x55; 0x66; 0x77; 0x00]
      else []
  | c :: d :: _ =>
      if (c =? 0x93) && (d =? 0x70) then [0x04]
      else if (c =? 0x95) && (d =? 0x70) then [0x00]
      else []
  | _ => []
  end.

(** A Type-A card with the 4-byte UID 04 12 34 56. *)
Definition card4 (h : list Event) : list Z :=
  match last_rf_frame h with
  | [c] => if c =? 0x26 then [0x44; 0x00] else []
  | [c; d] =>
      if (c =? 0x93) && (d =? 0x20) then [0x04; 0x12; 0x34; 0x56; 0x74]
      else []
  | c :: d :: _ => if (c =? 0x93) && (d =? 0x70) then [0x08] else []
  | _ => []
  end.



(** [w'] is [w] after the events [ext] (newest first); the receive
    buffers may have been written. *)
Definition extends (w w' : World) (ext : list Event) : Prop :=
  history w' = ext ++ history w /\ commandTimeout w' = commandTimeout w.

(** The READ_DATA commands among transfers: [readData] sends one per
    call, and no other function of the driver sends any. *)
Definition is_read_data (frame : list Z) : bool :=
  match frame with
  | c :: _ => c =? PN5180_READ_DATA
  | [] => false
  end.

Definition reads (fs : list (list Z * list Z)) : nat :=
  length (filter (fun f => is_read_data (fst f)) fs).

(** [w'] is [w] after events that leave the driver's memory alone and
    include no READ_DATA command. *)
Definition quiet (w w' : World) : Prop :=
  exists ext, advances w w' ext /\ reads (chron ext) = 0%nat.

(** The transfers of one successful [readData(len)] into the buffer
    [q], as seen from the world [w']: the command, and for a non-zero
    length the read of the bytes that are now the first [len] of [q]. *)
Definition response_read (len : Z) (q : BufPtr) (w' : World)
  : list (list Z * list Z) -> Prop :=
  fun fs => exists m0,
    fs = ([PN5180_READ_DATA; 0x00], m0)
         :: (if len =? 0 then []
             else [(repeat 0xFF (Z.to_nat len),
                    firstn (Z.to_nat len) (load q w'))]).

(** Postcondition of [issueISO15693Command]: the events are those of
    [sendData] ([ext1]), the 10 ms pause and the rest ([ext2]); a
    request of at most 260 bytes opens a bus transaction first; the
    code OK comes with a stored pointer to the buffer the response was
    read into. *)
Definition issue_post (hdr : Header) (cmd : list Z) (cmdLen : Z) (w : World)
    (r : Z * option BufPtr) (w' : World) : Prop :=
  exists ext1 ext2,
    extends w w' (ext2 ++ EvDelay 10 :: ext1) /\
    (cmdLen <= 260 -> exists e, ext1 = e ++ [EvBeginTransaction]) /\
    (exists (k : nat) (ms : list (list Z)),
        length ms = k /\ (k <= 5)%nat /\
        chron ext1 = combine (firstn k (sendData_frames hdr cmd cmdLen 0)) ms) /\
    (fst r = ISO15693_EC_OK ->
     exists q len pre fs suf,
       snd r = Some q /\ response_read len q w' fs /\
       chron ext2 = pre ++ fs ++ suf).

(** An ISO 15693 tag alone in the field: its answer to an inventory
    request is the flags byte, the DSFID and the UID, least significant
    byte first. *)
Definition tag15693 (h : list Event) : list Z :=
  [0x00; 0x00; 0x11; 0x22; 0x33; 0x44; 0x55; 0x66; 0x04; 0xE0].

(** From [w] to [w'] a counter went from [n] to [n']: when the run was
    [good] and [n] was a [uint8_t] value, [n'] is [n] plus the number of
    READ_DATA commands among the events, as a [uint8_t]. *)
Definition counted (good : bool) (n n' : Z) (w w' : World) : Prop :=
  exists ext, extends w w' ext /\
    (good = true -> 0 <= n < 256 ->
     n' = uint8 (n + Z.of_nat (reads (chron ext)))).

(** The command that clears all IRQ_STATUS flags (step 3 of
    [inventoryPoll]). *)
Definition clear_all_frame (hdr : Header) : list Z :=
  [PN5180_WRITE_REGISTER; IRQ_CLEAR hdr] ++ le_bytes32 0x000FFFFF.

(** What the tags in the field have seen: the inventory request last
    sent, and the number of end-of-frame pulses (SEND_DATA commands
    without payload) since, which is the current time slot. *)
Fixpoint slot_state (h : list Event) : nat * list Z :=
  match h with
  | [] => (O, [])
  | EvTransfer (c :: _ :: payload) _ :: h' =>
      if c =? PN5180_SEND_DATA then
        match payload with
        | [] => let (n, r) := slot_state h' in (S n, r)
        | _ => (O, payload)
        end
      else slot_state h'
  | _ :: h' => slot_state h'
  end.

(** A field of ISO 15693 tags.  [answer request slot] is what RX_STATUS
    reads in a time slot: 0 when no tag answers, the collision flag (bit
    18) when several do, the length of the response when one does; the
    response carries the slot number as the first UID byte. *)
Definition field (answer : list Z -> nat -> Z) : Env :=
  device (fun h reg =>
            let (slot, request) := slot_state h in
            let rx := answer request slot in
            if reg =? RF_STATUS datasheet then 0x01000000
            else if reg =? IRQ_STATUS datasheet then
                   (if rx =? 0 then 0x300 else 0x301)
            else if reg =? RX_STATUS datasheet then rx
            else 0)
         (fun h =>
            let (slot, request) := slot_state h in
            [0x00; 0x00; Z.of_nat slot; 0x22; 0x33; 0x44; 0x55; 0x66; 0x04;
             0xE0; 0x00]).

(** Several tags answer in slot 3 of the first round; asked again with
    the mask 3, two tags answer alone in slots 0 and 1. *)
Definition two_behind_slot_3 (request : list Z) (slot : nat) : Z :=
  if at_ request 2 =? 0 then (if (slot =? 3)%nat then 0x40000 else 0)
  else if (slot <? 2)%nat then 10 else 0.

(** Every slot of the first round collides; in every later round a
    single tag answers in every slot. *)
Definition crowd (request : list Z) (slot : nat) : Z :=
  if at_ request 2 =? 0 then 0x40000 else 10.

(** The READ_DATA commands in a record of events, counted with an
    accumulator (for long records). *)
Fixpoint count_read_data (h : list Event) (acc : nat) : nat :=
  match h with
  | [] => acc
  | EvTransfer mosi _ :: h' =>
      count_read_data h' (if is_read_data mosi then S acc else acc)
  | _ :: h' => count_read_data h' acc
  end.

(** * The rest of the driver *)

(** [password[i] ^ random[i % 2]] for the four password bytes, as
    [setPassword] and [enablePrivacy] compute them. *)
Definition xor_password (password random : list Z) : list Z :=
  [ Z.lxor (at_ password 0) (at_ random 0);
    Z.lxor (at_ password 1) (at_ random 1);
    Z.lxor (at_ password 2) (at_ random 0);
    Z.lxor (at_ password 3) (at_ random 1) ].

(** The part of [getSystemInfo] after the UID is copied: the walk over
    the optional fields of the response, from [readBuffer[10]] on.  The
    result is [*blockSize] and [*numBlocks] afterwards. *)
Definition getSystemInfo_fields (readBuffer : list Z) (blockSize numBlocks : Z)
  : Z * Z :=
  let p := 10%nat in
  let infoFlags := at_ readBuffer 1 in
  (* DSFID flag *)
  let p := if negb (Z.land infoFlags 0x01 =? 0) then S p else p in
  (* AFI flag *)
  let p := if negb (Z.land infoFlags 0x02 =? 0) then S p else p in
  (* VICC Memory size *)
  if negb (Z.land infoFlags 0x04 =? 0) then
    let numBlocks := at_ readBuffer p in
    let blockSize := at_ readBuffer (S p) in
    let blockSize := Z.land blockSize 0x1f in
    let blockSize := uint8 (blockSize + 1) in
    let numBlocks := uint8 (numBlocks + 1) in
    (blockSize, numBlocks)
  else (blockSize, numBlocks).

Section Protocols.

Variable env : Env.
Variable hdr : Header.
Variable fuel : nat.

(** Register address and interrupt masks of PN5180.h that only
    [switchToLPCD] uses. *)
Variable IRQ_ENABLE : Z.
Variable LPCD_IRQ_STAT : Z.
Variable GENERAL_ERROR_IRQ_STAT : Z.

(** ** PN5180.cpp: low power card detection *)

(** One step of [prepareLPCD]: [data[0] = v; writeEEprom(addr, data, 1);
    readEEprom(addr, response, 1);].  The result is [data] and
    [response] afterwards. *)
Definition prepareLPCD_step (addr v : Z) (data response : list Z)
  : M (list Z * list Z) :=
  let data := upd 0 v data in
  _ <- writeEEprom env fuel addr data 1 ;;
  '(_, response) <- readEEprom env fuel addr response 1 ;;
  ret (data, response).

Definition prepareLPCD : M bool :=
  data <- indeterminate env 255 ;;
  response <- indeterminate env 256 ;;
  (* 1. Set Fieldon time  LPCD_FIELD_ON_TIME (0x36) *)
  '(data, response) <- prepareLPCD_step 0x36 0xF0 data response ;;
  (* 2. Set threshold level  AGC_LPCD_THRESHOLD @ EEPROM 0x37 *)
  '(data, response) <- prepareLPCD_step 0x37 0x03 data response ;;
  (* 3. Select LPCD mode  LPCD_REFVAL_GPO_CONTROL (0x38) *)
  '(data, response) <- prepareLPCD_step 0x38 0x01 data response ;;
  (* LPCD_GPO_TOGGLE_BEFORE_FIELD_ON (0x39) *)
  '(data, response) <- prepareLPCD_step 0x39 0xF0 data response ;;
  (* LPCD_GPO_TOGGLE_AFTER_FIELD_ON (0x3A) *)
  '(data, response) <- prepareLPCD_step 0x3A 0xF0 data response ;;
  delay 100 ;;
  ret true.

(** [switchToLPCD(wakeupCounterInMs)], the counter a [uint16_t]. *)
Definition switchToLPCD (wakeupCounterInMs : Z) : M bool :=
  (* clear all IRQ flags *)
  _ <- clearIRQStatus env hdr fuel 0xffffffff ;;
  (* enable only LPCD and general error IRQ *)
  _ <- writeRegister env fuel IRQ_ENABLE
         (Z.lor LPCD_IRQ_STAT GENERAL_ERROR_IRQ_STAT) ;;
  (* switch mode to LPCD *)
  let cmd := [ PN5180_SWITCH_MODE; 0x01;
               uint8 (Z.land wakeupCounterInMs 0xFF);
               uint8 (Z.land (Z.shiftr wakeupCounterInMs 8) 0xFF) ] in
  '(ok, _) <- transceiveCommand env fuel cmd None 0 ;;
  ret ok.

(** ** PN5180ISO14443.cpp: the MIFARE helpers *)

Definition ISO14443_setupRF : M bool :=
  (* ISO14443 parameters *)
  ok <- loadRFConfig env fuel 0x00 0x80 ;;
  if negb ok then ret false else
  ok <- setRF_on env hdr fuel ;;
  if negb ok then ret false else
  ret true.

(** [mifareBlockRead(blockno, buffer)]: the result and the caller's
    16-byte array afterwards. *)
Definition mifareBlockRead (blockno : Z) (buffer : list Z)
  : M (bool * list Z) :=
  cmd <- indeterminate env 2 ;;
  (* Send mifare command 30,blockno *)
  let cmd := upd 1 blockno (upd 0 0x30 cmd) in
  ok <- sendData env hdr fuel cmd 2 0x00 ;;
  if negb ok then ret (false, buffer) else
  (* Check if we have received any data from the tag *)
  delay 5 ;;
  len <- rxBytesReceived env hdr fuel ;;
  if len =? 16 then
    (* READ 16 bytes into buffer *)
    '(ok, buffer) <- readData_into env fuel 16 buffer ;;
    if ok then ret (true, buffer) else ret (false, buffer)
  else ret (false, buffer).

(** [mifareBlockWrite16(blockno, buffer)]: the [uint8_t] returned. *)
Definition mifareBlockWrite16 (blockno : Z) (buffer : list Z) : M Z :=
  cmd <- indeterminate env 2 ;;
  (* Clear RX CRC *)
  _ <- writeRegisterWithAndMask env fuel (CRC_RX_CONFIG hdr) 0xFFFFFFFE ;;
  (* Mifare write part 1 *)
  let cmd := upd 1 blockno (upd 0 0xA0 cmd) in
  _ <- sendData env hdr fuel cmd 2 0x00 ;;
  '(_, cmd) <- readData_into env fuel 1 cmd ;;
  (* Mifare write part 2 *)
  _ <- sendData env hdr fuel buffer 16 0x00 ;;
  delay 10 ;;
  (* Read ACK/NAK *)
  '(_, cmd) <- readData_into env fuel 1 cmd ;;
  (* Enable RX CRC calculation *)
  _ <- writeRegisterWithOrMask env fuel (CRC_RX_CONFIG hdr) 0x1 ;;
  ret (at_ cmd 0).

Definition mifareHalt : M bool :=
  cmd <- indeterminate env 2 ;;
  (* mifare Halt *)
  let cmd := upd 1 0x00 (upd 0 0x50 cmd) in
  _ <- sendData env hdr fuel cmd 2 0x00 ;;
  ret true.

Definition isCardPresent : M bool :=
  buffer <- indeterminate env 10 ;;
  '(r, _) <- readCardSerial env hdr fuel buffer ;;
  ret (r >=? 4).

(** ** PN5180ISO15693.cpp: block access and the ICODE SLIX commands *)

(** [readSingleBlock(uid, blockNo, blockData, blockSize)]: the error
    code and the caller's [blockData] afterwards. *)
Definition readSingleBlock (uid : list Z) (blockNo : Z) (blockData : list Z)
    (blockSize : Z) : M (Z * list Z) :=
  let readSingleBlock :=
    copy_cells 8 uid 0 [0x22; 0x20; 1; 2; 3; 4; 5; 6; 7; 8; blockNo] 2 in
  '(rc, resultPtr) <- issueISO15693Command env hdr fuel readSingleBlock 11 ;;
  if negb (rc =? ISO15693_EC_OK) then ret (rc, blockData) else
  result <- deref resultPtr ;;
  ret (ISO15693_EC_OK, copy_cells (Z.to_nat blockSize) result 1 blockData 0).

(** [getSystemInfo(uid, blockSize, numBlocks)]: the error code and the
    caller's [uid], [*blockSize] and [*numBlocks] afterwards. *)
Definition getSystemInfo (uid : list Z) (blockSize numBlocks : Z)
  : M (Z * (list Z * Z * Z)) :=
  let sysInfo := copy_cells 8 uid 0 [0x22; 0x2b; 1; 2; 3; 4; 5; 6; 7; 8] 2 in
  '(rc, readBuffer) <- issueISO15693Command env hdr fuel sysInfo 10 ;;
  if negb (rc =? ISO15693_EC_OK) then ret (rc, (uid, blockSize, numBlocks))
  else
    readBuffer <- deref readBuffer ;;
    let uid := copy_cells 8 readBuffer 2 uid 0 in
    let '(blockSize, numBlocks) :=
      getSystemInfo_fields readBuffer blockSize numBlocks in
    ret (ISO15693_EC_OK, (uid, blockSize, numBlocks)).

(** [getRandomNumber(randomData)]: the error code and the caller's
    two bytes afterwards. *)
Definition getRandomNumber (randomData : list Z) : M (Z * list Z) :=
  let getrandom := [0x02; 0xB2; 0x04] in
  '(rc, readBuffer) <- issueISO15693Command env hdr fuel getrandom 3 ;;
  if rc =? ISO15693_EC_OK then
    readBuffer <- deref readBuffer ;;
    let randomData := upd 0 (at_ readBuffer 1) randomData in
    let randomData := upd 1 (at_ readBuffer 2) randomData in
    ret (rc, randomData)
  else ret (rc, randomData).

Definition setPassword (identifier : Z) (password random : list Z) : M Z :=
  let setPassword :=
    [0x02; 0xB3; 0x04; identifier] ++ xor_password password random in
  '(rc, _) <- issueISO15693Command env hdr fuel setPassword 8 ;;
  ret rc.

Definition enablePrivacy (password random : list Z) : M Z :=
  let setPrivacy := [0x02; 0xBA; 0x04] ++ xor_password password random in
  '(rc, _) <- issueISO15693Command env hdr fuel setPrivacy 7 ;;
  ret rc.

(** disable privacy mode for ICODE SLIX2 tag with given password *)
Definition disablePrivacyMode (password : list Z) : M Z :=
  (* get a random number from the tag *)
  let data := [0x00; 0x00] in
  '(rc, data) <- getRandomNumber data ;;
  if negb (rc =? ISO15693_EC_OK) then ret rc else
  (* set password to disable privacy mode *)
  setPassword 0x04 password data.

(** enable privacy mode for ICODE SLIX2 tag with given password *)
Definition enablePrivacyMode (password : list Z) : M Z :=
  (* get a random number from the tag *)
  let data := [0x00; 0x00] in
  '(rc, data) <- getRandomNumber data ;;
  if negb (rc =? ISO15693_EC_OK) then ret rc else
  (* enable privacy command to lock the tag *)
  enablePrivacy password data.

End Protocols.

(** ** Reading the record: transactions *)




(** Postcondition of [bool readData(int len, uint8_t *buffer)] for any
    length: either no READ_DATA command went out and the call returned
    [false] with the buffer as it was, or the command went out alone and
    the buffer is as it was, or the command was followed by the read of
    [len] bytes, which replace the first [len] bytes of the buffer. *)
Definition read_into_post (len : Z) (buffer : list Z) (w : World)
    (r : bool * list Z) (w' : World) : Prop :=
  exists ext, advances w w' ext /\
    ((chron ext = [] /\ r = (false, buffer))
     \/ (exists m0, chron ext = [([PN5180_READ_DATA; 0x00], m0)] /\
                    snd r = buffer /\ (fst r = true -> len = 0))
     \/ (exists m0 m, chron ext = [([PN5180_READ_DATA; 0x00], m0);
                                   (repeat 0xFF (Z.to_nat len), m)] /\
                      length m = Z.to_nat len /\ len <> 0 /\
                      snd r = m ++ skipn (Z.to_nat len) buffer)).

(** What [activateTypeA] guarantees of the caller's 10-byte array: it
    keeps its length, and on the result 7 cell 0 is the cascade tag and
    cell 1 repeats cell 3. *)
Definition keeps_cascade (r : Z * list Z) : Prop :=
  length (snd r) = 10%nat /\
  (fst r = 7 -> at_ (snd r) 0 = 0x88 /\ at_ (snd r) 1 = at_ (snd r) 3).

(** The events of a wait for an interrupt flag that saw it: the last
    transfers are a read of IRQ_STATUS whose value has the flag. *)
Definition flag_seen (hdr : Header) (flag : Z) (fs : list (list Z * list Z))
  : Prop :=
  exists pre m1 m2,
    fs = pre ++ [([PN5180_READ_REGISTER; IRQ_STATUS hdr], m1);
                 (repeat 0xFF 4, m2)] /\
    Z.land flag (of_le_bytes32 m2) <> 0.

(** The transfers of a successful [setRF_on] or [setRF_off]: the
    command, reads of IRQ_STATUS the last of which shows the flag, and
    the write that clears the flag. *)
Definition field_switched (hdr : Header) (command flag : Z)
    (fs : list (list Z * list Z)) : Prop :=
  exists m0 mid m3,
    flag_seen hdr flag mid /\
    fs = ([command; 0x00], m0) :: mid
         ++ [([PN5180_WRITE_REGISTER; IRQ_CLEAR hdr] ++ le_bytes32 flag, m3)].

(** The index of the memory-size field in a system-information
    response: behind the ten fixed bytes and the DSFID and AFI bytes,
    each present when its flag is set. *)
Definition memory_field (infoFlags : Z) : nat :=
  Nat.add (if Z.land infoFlags 0x01 =? 0 then 10%nat else 11%nat)
          (if Z.land infoFlags 0x02 =? 0 then 0%nat else 1%nat).

(** The transfers of a command whose result the caller may ignore: the
    frame, or nothing when the wait for BUSY timed out. *)
Definition at_most_once (frame : list Z) (fs : list (list Z * list Z))
  : Prop :=
  fs = [] \/ exists m, fs = [(frame, m)].

(** The transfers of one step of [prepareLPCD]: the write of [v] to
    EEPROM address [addr], then the read of one byte from it, each of
    which may be cut short by a timeout. *)
Definition eeprom_step (addr v : Z) (fs : list (list Z * list Z)) : Prop :=
  exists a b,
    fs = a ++ b /\
    at_most_once [PN5180_WRITE_EEPROM; addr; v] a /\
    (at_most_once [PN5180_READ_EEPROM; addr; 1] b \/
     exists m1 m2, b = [([PN5180_READ_EEPROM; addr; 1], m1); ([0xFF], m2)]).

(** The transfers of a [setupRF] up to the field being on: the
    LOAD_RF_CONFIG command, then those of a successful [setRF_on]. *)
Definition rf_configured (hdr : Header) (txConf rxConf : Z)
    (fs : list (list Z * list Z)) : Prop :=
  exists m on,
    fs = ([PN5180_LOAD_RF_CONFIG; txConf; rxConf], m) :: on /\
    field_switched hdr PN5180_RF_ON (TX_RFON_IRQ_STAT hdr) on.

(** Nothing was sent, or LOAD_RF_CONFIG went first. *)
Definition config_first (txConf rxConf : Z) (fs : list (list Z * list Z))
  : Prop :=
  fs = [] \/ exists m rest,
               fs = ([PN5180_LOAD_RF_CONFIG; txConf; rxConf], m) :: rest.

(** [blockData'] is [blockData] with its first [n] cells replaced by
    the cells 1 to [n] of the response [result]. *)
Definition block_copied (n : nat) (result blockData blockData' : list Z)
  : Prop :=
  length blockData' = length blockData /\
  cells blockData' 0 n = cells result 1 n /\
  forall j, (n <= j)%nat -> at_ blockData' j = at_ blockData j.

(** A MIFARE card whose answer to a block read is the bytes 1 to 16. *)
Definition mifare_block (h : list Event) : list Z :=
  [1; 2; 3; 4; 5; 6; 7; 8; 9; 10; 11; 12; 13; 14; 15; 16].

(** A MIFARE card that acknowledges every frame (ACK is 0x0A). *)
Definition mifare_ack (h : list Event) : list Z := [0x0A].

(** An ISO 15693 tag of 256 blocks of 4 bytes: its system information
    has all four information flags set, so that the DSFID and AFI bytes
    come before the memory size FF 03. *)
Definition info_tag (h : list Event) : list Z :=
  [0x00; 0x0F; 0x11; 0x22; 0x33; 0x44; 0x55; 0x66; 0x04; 0xE0;
   0x00; 0x00; 0xFF; 0x03; 0x01].

(** The bytes a record of transfers shows as the response of the
    device: those shifted in by the transfer that follows the first
    READ_DATA command, when that transfer is a read (every byte shifted
    out is 0xFF); none when no read follows the command. *)
Fixpoint device_response (fs : list (list Z * list Z)) : list Z :=
  match fs with
  | [] => []
  | (c, _) :: rest =>
      if is_read_data c then
        match rest with
        | (o, m) :: _ => if forallb (Z.eqb 0xFF) o then m else []
        | [] => []
        end
      else device_response rest
  end.

(** A tag that leaves the field after its first answer: RX_STATUS
    announces 10 bytes until a READ_DATA command has been sent, and no
    byte afterwards. *)
Definition departing_tag : Env :=
  device (fun h reg =>
            ready_regs (match count_read_data h 0 with
                        | O => 10
                        | S _ => 0
                        end) h reg)
         tag15693.

(** A Type-A card with the 4-byte UID 04 12 34 56 that answers REQA
    with the ATQA FF FF. *)
Definition card4_atqa_ffff (h : list Event) : list Z :=
  match last_rf_frame h with
  | [c] => if c =? 0x26 then [0xFF; 0xFF] else []
  | _ => card4 h
  end.

(** A device that stops reacting once the REQA frame is out: BUSY stays
    HIGH from then on; the clock advances by one millisecond per
    event. *)
Definition silent_after_reqa : Env :=
  mkEnv (fun h => match last_rf_frame h with
                  | [c] => if c =? 0x26 then HIGH else ideal_busy h
                  | _ => ideal_busy h
                  end)
        (fun h => Z.of_nat (length h))
        (env_miso (device (ready_regs 5) card4))
        (fun _ => true)
        (fun _ _ => 0).



(** * Properties *)

(** ** Rules for runs *)

Lemma bind_Some {A B : Type} (c : M A) (k : A -> M B) w r :
  bind c k w = Some r ->
  exists a w1, c w = Some (a, w1) /\ k a w1 = Some r.
Proof.
  unfold bind. destruct (c w) as [[a w1]|]; [|discriminate].
  intros H. exists a, w1. split; [reflexivity|exact H].
Qed.

Lemma post_ret {A : Type} (a : A) w (Q : A -> World -> Prop) :
  Q a w -> post (ret a) w Q.
Proof. intros H a' w' E. unfold ret in E. inversion E; subst. exact H. Qed.

Lemma post_bind {A B : Type} (c : M A) (k : A -> M B) w (Q : B -> World -> Prop) :
  post c w (fun a w1 => post (k a) w1 Q) -> post (bind c k) w Q.
Proof.
  intros H b w' E. apply bind_Some in E. destruct E as (a & w1 & E1 & E2).
  exact (H a w1 E1 b w' E2).
Qed.

Lemma post_conseq {A : Type} (c : M A) w (Q Q' : A -> World -> Prop) :
  post c w Q -> (forall a w', Q a w' -> Q' a w') -> post c w Q'.
Proof. intros H HQ a w' E. apply HQ, (H a w' E). Qed.

Lemma post_fun {A : Type} (f : World -> A * World) w (Q : A -> World -> Prop) :
  Q (fst (f w)) (snd (f w)) -> post (fun w0 => Some (f w0)) w Q.
Proof. intros H a w' E. inversion E as [E']. rewrite E' in H. exact H. Qed.

Section Rules.

Variable env : Env.

Lemma post_log e w (Q : unit -> World -> Prop) :
  Q tt (emit e w) -> post (log e) w Q.
Proof. intros H a w' E. unfold log in E. inversion E; subst. exact H. Qed.

Lemma post_digitalRead_BUSY w (Q : bool -> World -> Prop) :
  (forall b, Q b (emit (EvBusy b) w)) -> post (digitalRead_BUSY env) w Q.
Proof.
  intros H a w' E. unfold digitalRead_BUSY in E. inversion E; subst. apply H.
Qed.

Lemma post_millis w (Q : Z -> World -> Prop) :
  (forall t, Q t (emit (EvMillis t) w)) -> post (millis env) w Q.
Proof. intros H a w' E. unfold millis in E. inversion E; subst. apply H. Qed.

Lemma post_SPI_transfer mosi w (Q : list Z -> World -> Prop) :
  (forall miso, length miso = length mosi ->
                Q miso (emit (EvTransfer mosi miso) w)) ->
  post (SPI_transfer env mosi) w Q.
Proof.
  intros H a w' E. unfold SPI_transfer in E. inversion E; subst.
  apply H. rewrite length_map, length_seq. reflexivity.
Qed.

Lemma post_get_commandTimeout w (Q : Z -> World -> Prop) :
  Q (commandTimeout w) w -> post get_commandTimeout w Q.
Proof.
  intros H a w' E. unfold get_commandTimeout in E. inversion E; subst. exact H.
Qed.

Lemma post_indeterminate n w (Q : list Z -> World -> Prop) :
  (forall l, length l = n -> Q l w) -> post (indeterminate env n) w Q.
Proof.
  intros H a w' E. unfold indeterminate in E. inversion E; subst.
  apply H. rewrite length_map, length_seq. reflexivity.
Qed.

Lemma post_get_readBufferStatic16 w (Q : list Z -> World -> Prop) :
  Q (readBufferStatic16 w) w -> post get_readBufferStatic16 w Q.
Proof.
  intros H a w' E. unfold get_readBufferStatic16 in E. inversion E; subst.
  exact H.
Qed.

Lemma post_get_readBufferDynamic508 w (Q : option (list Z) -> World -> Prop) :
  Q (readBufferDynamic508 w) w -> post get_readBufferDynamic508 w Q.
Proof.
  intros H a w' E. unfold get_readBufferDynamic508 in E. inversion E; subst.
  exact H.
Qed.

Lemma post_set_readBufferStatic16 b w (Q : unit -> World -> Prop) :
  Q tt (mkWorld (history w) (commandTimeout w) b (readBufferDynamic508 w)) ->
  post (set_readBufferStatic16 b) w Q.
Proof.
  intros H a w' E. unfold set_readBufferStatic16 in E. inversion E; subst.
  exact H.
Qed.

Lemma post_set_readBufferDynamic508 b w (Q : unit -> World -> Prop) :
  Q tt (mkWorld (history w) (commandTimeout w) (readBufferStatic16 w) b) ->
  post (set_readBufferDynamic508 b) w Q.
Proof.
  intros H a w' E. unfold set_readBufferDynamic508 in E. inversion E; subst.
  exact H.
Qed.

Lemma post_malloc508 w (Q : option (list Z) -> World -> Prop) :
  (forall (ok : bool) (blk : list Z),
      Q (if ok then Some blk else None) (emit (EvMalloc ok) w)) ->
  post (malloc508 env) w Q.
Proof.
  intros H a w' E. unfold malloc508 in E. inversion E; subst. apply H.
Qed.

Lemma post_deref p w (Q : list Z -> World -> Prop) :
  Q (match p with Some q => load q w | None => [] end) w ->
  post (deref p) w Q.
Proof. intros H a w' E. unfold deref in E. inversion E; subst. exact H. Qed.

End Rules.

(** ** Stretches of the record *)

Lemma advances_refl w : advances w w [].
Proof. repeat split. Qed.

Lemma advances_emit w w1 ext e :
  advances w w1 ext -> advances w (emit e w1) (e :: ext).
Proof.
  intros (H1 & H2 & H3 & H4). unfold advances. cbn.
  rewrite H1. repeat split; assumption.
Qed.

Lemma advances_trans w w1 w2 e1 e2 :
  advances w w1 e1 -> advances w1 w2 e2 -> advances w w2 (e2 ++ e1).
Proof.
  intros (H1 & H2 & H3 & H4) (G1 & G2 & G3 & G4). unfold advances.
  rewrite G1, H1, app_assoc. repeat split; congruence.
Qed.

Lemma transfers_rev_app e1 e2 :
  transfers_rev (e1 ++ e2) = transfers_rev e1 ++ transfers_rev e2.
Proof.
  induction e1 as [|e t IH]; [reflexivity|].
  destruct e; cbn; rewrite IH; reflexivity.
Qed.

Lemma chron_app e1 e2 : chron (e2 ++ e1) = chron e1 ++ chron e2.
Proof. unfold chron. rewrite transfers_rev_app, rev_app_distr. reflexivity. Qed.

Lemma allocs_app e1 e2 : allocs (e1 ++ e2) = (allocs e1 + allocs e2)%nat.
Proof.
  induction e1 as [|e t IH]; [reflexivity|].
  destruct e; cbn; rewrite IH; reflexivity.
Qed.

Lemma polls_chron p : forallb is_poll p = true -> chron p = [].
Proof.
  unfold chron. induction p as [|e t IH]; [reflexivity|].
  destruct e; cbn; try discriminate; exact IH.
Qed.

Lemma polls_transfers_rev p : forallb is_poll p = true -> transfers_rev p = [].
Proof.
  induction p as [|e t IH]; [reflexivity|].
  destruct e; cbn; try discriminate; exact IH.
Qed.

Lemma polls_allocs p : forallb is_poll p = true -> allocs p = O.
Proof.
  induction p as [|e t IH]; [reflexivity|].
  destruct e; cbn; try discriminate; exact IH.
Qed.

Lemma polls_nss p h : forallb is_poll p = true -> nss_level (p ++ h) = nss_level h.
Proof.
  induction p as [|e t IH]; [reflexivity|].
  destruct e; cbn; try discriminate; exact IH.
Qed.


(** ** The busy-line waits *)

Section Transport.

Variable env : Env.
Variable fuel : nat.

Lemma waitBusy_polls n level started w :
  post (waitBusy env n level started) w
       (fun _ w' => exists p, advances w w' p /\ forallb is_poll p = true).
Proof.
  revert w. induction n as [|n IH]; intros w; [intros a w' E; discriminate|].
  cbn [waitBusy]. apply post_bind, post_digitalRead_BUSY. intros b.
  destruct (Bool.eqb b level).
  - apply post_ret. exists [EvBusy b]. split; [|reflexivity].
    apply advances_emit, advances_refl.
  - apply post_bind, post_millis. intros t.
    apply post_bind, post_get_commandTimeout. cbn [commandTimeout emit].
    destruct (_ <? _).
    + apply post_ret. exists [EvMillis t; EvBusy b]. split; [|reflexivity].
      apply advances_emit, advances_emit, advances_refl.
    + eapply post_conseq; [apply IH|]. cbn beta.
      intros _ w' (p & Hp & Hq). exists (p ++ [EvMillis t; EvBusy b]).
      split.
      * eapply advances_trans; [|exact Hp].
        apply advances_emit, advances_emit, advances_refl.
      * rewrite forallb_app, Hq. reflexivity.
Qed.

Lemma awaitBusy_polls level w :
  post (awaitBusy env fuel level) w
       (fun _ w' => exists p, advances w w' p /\ forallb is_poll p = true).
Proof.
  unfold awaitBusy. apply post_bind, post_millis. intros t.
  eapply post_conseq; [apply waitBusy_polls|]. cbn beta.
  intros _ w' (p & Hp & Hq). exists (p ++ [EvMillis t]). split.
  - eapply advances_trans; [|exact Hp]. apply advances_emit, advances_refl.
  - rewrite forallb_app, Hq. reflexivity.
Qed.

End Transport.

(** ** The command transport *)

Ltac adv_build :=
  repeat first
    [ apply advances_refl
    | apply advances_emit
    | eapply advances_trans; [|eassumption] ].

Ltac ext_simpl :=
  unfold chron;
  repeat (cbn [app transfers_rev allocs nss_level rev];
          try rewrite <- !app_assoc;
          try rewrite !transfers_rev_app;
          try rewrite !allocs_app;
          try (rewrite !polls_transfers_rev by assumption);
          try (rewrite !polls_allocs by assumption);
          try (rewrite !polls_nss by assumption)).

Ltac wp_prim :=
  lazymatch goal with
  | |- post (ret _) _ _ => apply post_ret
  | |- post (log _) _ _ => apply post_log
  | |- post (millis _) _ _ => apply post_millis; intros ?t
  | |- post (digitalRead_BUSY _) _ _ => apply post_digitalRead_BUSY; intros ?b
  | |- post (SPI_transfer _ _) _ _ =>
      apply post_SPI_transfer; intros ?miso ?Hlen
  | |- post get_commandTimeout _ _ => apply post_get_commandTimeout
  | |- post (indeterminate _ _) _ _ =>
      apply post_indeterminate; intros ?l ?Hlen
  | |- post get_readBufferStatic16 _ _ => apply post_get_readBufferStatic16
  | |- post get_readBufferDynamic508 _ _ => apply post_get_readBufferDynamic508
  | |- post (set_readBufferStatic16 _) _ _ => apply post_set_readBufferStatic16
  | |- post (set_readBufferDynamic508 _) _ _ =>
      apply post_set_readBufferDynamic508
  | |- post (malloc508 _) _ _ => apply post_malloc508; intros ?ok ?blk
  | |- post (deref _) _ _ => apply post_deref
  | |- post (bind get_readBufferStatic16 _) _ _ => apply post_bind
  | |- post (bind get_readBufferDynamic508 _) _ _ => apply post_bind
  | |- post (bind (set_readBufferStatic16 _) _) _ _ => apply post_bind
  | |- post (bind (set_readBufferDynamic508 _) _) _ _ => apply post_bind
  | |- post (bind (malloc508 _) _) _ _ => apply post_bind
  | |- post (bind (deref _) _) _ _ => apply post_bind
  | |- post (bind (ret _) _) _ _ => apply post_bind
  | |- post (bind (log _) _) _ _ => apply post_bind
  | |- post (bind (millis _) _) _ _ => apply post_bind
  | |- post (bind (digitalRead_BUSY _) _) _ _ => apply post_bind
  | |- post (bind (SPI_transfer _ _) _) _ _ => apply post_bind
  | |- post (bind get_commandTimeout _) _ _ => apply post_bind
  | |- post (bind (indeterminate _ _) _) _ _ => apply post_bind
  | |- post (bind (bind _ _) _) _ _ => apply post_bind
  end.

Ltac wp_call lem :=
  apply post_bind; eapply post_conseq; [apply lem|].

Section TC.
Variable env : Env.
Variable fuel : nat.

Ltac wp_wait :=
  apply post_bind; eapply post_conseq;
  [ apply awaitBusy_polls
  | cbn beta; intros [|] ?w (?p & ?Hadv & ?Hpoll); cbn [negb] ].

Ltac tc_leaf :=
  eexists; split; [adv_build|]; ext_simpl.

Lemma transceiveCommand_post send recv n w :
  post (transceiveCommand env fuel send recv n) w (tc_post send recv n w).
Proof.
  unfold transceiveCommand, tc_timeout, SPI_beginTransaction, SPI_endTransaction,
    digitalWrite_NSS, delay.
  apply post_bind, post_log.
  wp_wait;
    [|repeat wp_prim; tc_leaf; repeat split; left; repeat split].
  repeat wp_prim.
  wp_wait;
    [|repeat wp_prim; tc_leaf; repeat split; right; left;
      eexists; repeat split; discriminate].
  repeat wp_prim.
  wp_wait;
    [|repeat wp_prim; tc_leaf; repeat split; right; left;
      eexists; repeat split; discriminate].
  destruct recv as [buf|].
  2:{ repeat wp_prim. tc_leaf. repeat split. right; left.
      eexists; repeat split. intros _. left; reflexivity. }
  destruct (n =? 0) eqn:En.
  { repeat wp_prim. tc_leaf. repeat split. right; left.
    eexists; repeat split. intros _. right. apply Z.eqb_eq, En. }
  apply Z.eqb_neq in En.
  repeat wp_prim.
  assert (Hm : forall m : list Z,
             length m = length (repeat 255 (Z.to_nat n)) ->
             length m = Z.to_nat n)
    by (intros m Hm; rewrite Hm; apply repeat_length).
  wp_wait;
    [|repeat wp_prim; tc_leaf; repeat split; right; right;
      do 3 eexists; repeat split; auto].
  repeat wp_prim.
  wp_wait;
    [|repeat wp_prim; tc_leaf; repeat split; right; right;
      do 3 eexists; repeat split; auto].
  repeat wp_prim. tc_leaf. repeat split. right; right.
  do 3 eexists; repeat split; auto.
Qed.

Lemma transceiveCommand_begins send recv n w :
  post (transceiveCommand env fuel send recv n) w
       (fun _ w' => exists ext,
            advances (emit EvBeginTransaction w) w' ext).
Proof.
  unfold transceiveCommand, tc_timeout, SPI_beginTransaction, SPI_endTransaction,
    digitalWrite_NSS, delay.
  apply post_bind, post_log.
  wp_wait; [|repeat wp_prim; eexists; adv_build].
  repeat wp_prim.
  wp_wait; [|repeat wp_prim; eexists; adv_build].
  repeat wp_prim.
  wp_wait; [|repeat wp_prim; eexists; adv_build].
  destruct recv as [buf|]; [|repeat wp_prim; eexists; adv_build].
  destruct (n =? 0); [repeat wp_prim; eexists; adv_build|].
  repeat wp_prim.
  wp_wait; [|repeat wp_prim; eexists; adv_build].
  repeat wp_prim.
  wp_wait; repeat wp_prim; eexists; adv_build.
Qed.

End TC.

Section Timeouts.

Variable env : Env.
Variable fuel : nat.

Lemma waitBusy_false n level started w w1 :
  waitBusy env n level started w = Some (false, w1) ->
  exists t b p, advances w w1 (EvMillis t :: EvBusy b :: p) /\
                b <> level /\ commandTimeout w < uint32 (t - started).
Proof.
  revert w. induction n as [|n IH]; intros w E; [discriminate|].
  cbn [waitBusy] in E. apply bind_Some in E. destruct E as (b & w2 & E1 & E).
  unfold digitalRead_BUSY in E1. inversion E1; subst; clear E1.
  destruct (Bool.eqb _ level) eqn:Eb; [discriminate|].
  apply bind_Some in E. destruct E as (t & w3 & E1 & E).
  unfold millis in E1. inversion E1; subst; clear E1.
  apply bind_Some in E. destruct E as (T & w4 & E1 & E).
  unfold get_commandTimeout in E1. inversion E1; subst; clear E1.
  cbn [commandTimeout emit] in E.
  destruct (_ <? _) eqn:Et.
  - inversion E; subst; clear E. do 2 eexists. exists []. split.
    + apply advances_emit, advances_emit, advances_refl.
    + split; [|apply Z.ltb_lt, Et].
      intros Hb. rewrite Hb, Bool.eqb_reflx in Eb. discriminate.
  - apply IH in E. destruct E as (t' & b' & p & Hp & Hb & Ht).
    exists t', b'. eexists. split; [|split; assumption].
    eapply advances_trans in Hp;
      [|apply advances_emit, advances_emit, advances_refl].
    exact Hp.
Qed.

Lemma awaitBusy_false level w w1 :
  awaitBusy env fuel level w = Some (false, w1) ->
  exists started t b h,
    history w1 = EvMillis t :: EvBusy b :: h /\ b <> level /\
    In (EvMillis started) h /\ commandTimeout w < uint32 (t - started).
Proof.
  unfold awaitBusy. intros E. apply bind_Some in E.
  destruct E as (started & w2 & E1 & E).
  unfold millis in E1. inversion E1; subst; clear E1.
  apply waitBusy_false in E. destruct E as (t & b & p & Hp & Hb & Ht).
  destruct Hp as (Hp & _). cbn [history emit app] in Hp.
  do 4 eexists. split; [exact Hp|]. split; [exact Hb|]. split; [|exact Ht].
  apply in_or_app. right. left. reflexivity.
Qed.

Lemma uint32_sub a b : uint32 (uint32 a - uint32 b) = uint32 (a - b).
Proof. unfold uint32. symmetry. apply Zminus_mod. Qed.

(** One poll of the wait loop with the line away from [level]. *)
Lemma waitBusy_poll n level started w :
  env_busy env (history w) <> level ->
  waitBusy env (S n) level started w
  = let w1 := emit (EvBusy (env_busy env (history w))) w in
    let t := uint32 (env_millis env (history w1)) in
    if commandTimeout w <? uint32 (t - started)
    then Some (false, emit (EvMillis t) w1)
    else waitBusy env n level started (emit (EvMillis t) w1).
Proof.
  intros Hb. cbn [waitBusy].
  unfold bind at 1. unfold digitalRead_BUSY at 1. cbv zeta.
  destruct (Bool.eqb (env_busy env (history w)) level) eqn:Eb.
  { apply Bool.eqb_prop in Eb. contradiction. }
  unfold bind at 1. unfold millis at 1. cbv zeta.
  unfold bind at 1. unfold get_commandTimeout at 1.
  cbn [commandTimeout emit]. destruct (_ <? _); reflexivity.
Qed.

(** On a line that never reaches [level], with a clock that advances by
    one millisecond per event, the wait gives up within the polls the
    timeout allows. *)
Lemma waitBusy_expires level s :
  (forall h, env_busy env h <> level) ->
  (forall e h, env_millis env (e :: h) = env_millis env h + 1) ->
  forall n w d,
    (0 < n)%nat ->
    env_millis env (history w) = s + d ->
    1 <= d -> d + 1 < 4294967296 ->
    commandTimeout w + 2 < 4294967296 ->
    commandTimeout w + 1 < d + 2 * Z.of_nat n ->
    exists w1, waitBusy env n level (uint32 s) w = Some (false, w1).
Proof.
  intros Hb Ht. induction n as [|n IH]; intros w d Hn Hc Hd1 Hd2 HT Hf;
    [lia|].
  rewrite waitBusy_poll by apply Hb. cbv zeta. cbn [history emit].
  rewrite Ht, Hc.
  assert (He : uint32 (uint32 (s + d + 1) - uint32 s) = d + 1).
  { rewrite uint32_sub. replace (s + d + 1 - s) with (d + 1) by lia.
    unfold uint32. apply Z.mod_small. lia. }
  rewrite He.
  destruct (commandTimeout w <? d + 1) eqn:Et; [eexists; reflexivity|].
  apply Z.ltb_ge in Et.
  apply (IH _ (d + 2)); cbn [history emit commandTimeout]; try lia.
  rewrite !Ht, Hc. lia.
Qed.

Lemma awaitBusy_expires level w :
  (forall h, env_busy env h <> level) ->
  (forall e h, env_millis env (e :: h) = env_millis env h + 1) ->
  0 <= commandTimeout w -> commandTimeout w + 2 < 4294967296 ->
  commandTimeout w < 2 * Z.of_nat fuel ->
  exists w1, awaitBusy env fuel level w = Some (false, w1).
Proof.
  intros Hb Ht H0 HT Hf. unfold awaitBusy.
  unfold bind at 1. unfold millis at 1. cbv zeta.
  apply (waitBusy_expires level (env_millis env (history w)) Hb Ht
           fuel _ 1); cbn [history emit commandTimeout]; try lia.
  apply Ht.
Qed.

Ltac tc_unfold :=
  cbv [transceiveCommand tc_wait0 tc_wait3 tc_wait5 tc_recv3 tc_recv5 tc_timeout
       tc_aborted bind ret log SPI_beginTransaction SPI_endTransaction
       digitalWrite_NSS delay SPI_transfer] in *.

Ltac tc_use H :=
  match type of H with
  | ?c = Some _ => rewrite H; cbv beta iota delta [negb]
  | match ?c with _ => _ end = Some _ =>
      let E := fresh "E" in
      destruct c as [[[|] ?]|] eqn:E; try discriminate;
      inversion H; subst; clear H; cbv beta iota delta [negb]
  end.

Ltac case_wait E0 :=
  match goal with
  | |- context [match awaitBusy ?e ?f ?l ?x with _ => _ end] =>
      destruct (awaitBusy e f l x) as [[[|] ?w]|] eqn:E0;
      [ | | discriminate ]; cbv beta iota delta [negb]
  end.

Ltac timed_out E0 :=
  let E := fresh "E" in
  intros E; inversion E; subst; apply awaitBusy_false in E0;
  destruct E0 as (?s & ?t & ?b & ?h & ?Hh & _); eauto 6.

(** C8.  [transceiveCommand] and its busy-line waits.  In every poll
    of a wait that finds the line away from the awaited level, the wait
    returns [false] at once when the time since its start exceeds the
    command timeout, and polls again otherwise; so on a line that never
    reaches the level, with a clock that advances, every wait does give
    up.  A wait that gave up has seen the clock pass the timeout.
    Whichever of the five waits gives up, the call returns [false] at
    once, in the world of the wait followed only by the end of the
    transaction and the select line going HIGH; every return leaves the
    select line HIGH and has put the command frame on the bus at most
    once (nothing is retried); and with a null receive buffer or a zero
    receive length the call ends after the three waits of the send
    phase and returns [true]. *)
Theorem transceiveCommand_timeout_aborts :
  forall send recv n w,
    (forall k level started w0,
        env_busy env (history w0) <> level ->
        let w1 := emit (EvBusy (env_busy env (history w0))) w0 in
        let t := uint32 (env_millis env (history w1)) in
        (commandTimeout w0 < uint32 (t - started) ->
         waitBusy env (S k) level started w0
         = Some (false, emit (EvMillis t) w1)) /\
        (uint32 (t - started) <= commandTimeout w0 ->
         waitBusy env (S k) level started w0
         = waitBusy env k level started (emit (EvMillis t) w1))) /\
    (forall level w0,
        (forall h, env_busy env h <> level) ->
        (forall e h, env_millis env (e :: h) = env_millis env h + 1) ->
        0 <= commandTimeout w0 -> commandTimeout w0 + 2 < 4294967296 ->
        commandTimeout w0 < 2 * Z.of_nat fuel ->
        exists w1, awaitBusy env fuel level w0 = Some (false, w1)) /\
    (forall level w0 w1,
        awaitBusy env fuel level w0 = Some (false, w1) ->
        exists started t b h,
          history w1 = EvMillis t :: EvBusy b :: h /\ b <> level /\
          In (EvMillis started) h /\
          commandTimeout w0 < uint32 (t - started)) /\
    (forall w1,
        tc_wait0 env fuel w = Some (false, w1) ->
        transceiveCommand env fuel send recv n w
        = Some ((false, recv), tc_aborted w1)) /\
    (forall w1 w2,
        tc_wait0 env fuel w = Some (true, w1) ->
        tc_wait3 env fuel send w1 = Some (false, w2) ->
        transceiveCommand env fuel send recv n w
        = Some ((false, recv), tc_aborted w2)) /\
    (forall w1 w2 w3,
        tc_wait0 env fuel w = Some (true, w1) ->
        tc_wait3 env fuel send w1 = Some (true, w2) ->
        tc_wait5 env fuel w2 = Some (false, w3) ->
        transceiveCommand env fuel send recv n w
        = Some ((false, recv), tc_aborted w3)) /\
    (forall buf w1 w2 w3 miso w4,
        recv = Some buf -> n <> 0 ->
        tc_wait0 env fuel w = Some (true, w1) ->
        tc_wait3 env fuel send w1 = Some (true, w2) ->
        tc_wait5 env fuel w2 = Some (true, w3) ->
        tc_recv3 env fuel n w3 = Some ((false, miso), w4) ->
        transceiveCommand env fuel send recv n w
        = Some ((false, Some (miso ++ skipn (Z.to_nat n) buf)),
                tc_aborted w4)) /\
    (forall buf w1 w2 w3 miso w4 w5,
        recv = Some buf -> n <> 0 ->
        tc_wait0 env fuel w = Some (true, w1) ->
        tc_wait3 env fuel send w1 = Some (true, w2) ->
        tc_wait5 env fuel w2 = Some (true, w3) ->
        tc_recv3 env fuel n w3 = Some ((true, miso), w4) ->
        tc_recv5 env fuel w4 = Some (false, w5) ->
        transceiveCommand env fuel send recv n w
        = Some ((false, Some (miso ++ skipn (Z.to_nat n) buf)),
                tc_aborted w5)) /\
    (forall ok buf w',
        transceiveCommand env fuel send recv n w = Some ((ok, buf), w') ->
        nss_level (history w') = HIGH /\
        (exists ext, advances w w' ext /\
                     tc_shape send recv n ok buf (chron ext)) /\
        (ok = false ->
         exists w0 t b h, w' = tc_aborted w0 /\
                          history w0 = EvMillis t :: EvBusy b :: h)) /\
    (recv = None \/ n = 0 ->
     forall w1 w2 w3,
        tc_wait0 env fuel w = Some (true, w1) ->
        tc_wait3 env fuel send w1 = Some (true, w2) ->
        tc_wait5 env fuel w2 = Some (true, w3) ->
        transceiveCommand env fuel send recv n w
        = Some ((true, recv), emit (EvNSS HIGH) (emit EvEndTransaction w3))).
Proof.
  intros send recv n w.
  split.
  { intros k level started w0 Hb. cbv zeta.
    rewrite (waitBusy_poll k level started w0 Hb). cbv zeta.
    split; intros Ht.
    - apply Z.ltb_lt in Ht. rewrite Ht. reflexivity.
    - apply Z.ltb_ge in Ht. rewrite Ht. reflexivity. }
  split; [exact awaitBusy_expires|].
  split; [intros level w0 w1 E; exact (awaitBusy_false level w0 w1 E)|].
  split; [intros w1 H0; tc_unfold; tc_use H0; reflexivity|].
  split; [intros w1 w2 H0 H3; tc_unfold; tc_use H0; tc_use H3; reflexivity|].
  split; [intros w1 w2 w3 H0 H3 H5; tc_unfold;
          tc_use H0; tc_use H3; tc_use H5; reflexivity|].
  split.
  { intros buf w1 w2 w3 miso w4 -> Hn H0 H3 H5 R3. apply Z.eqb_neq in Hn.
    tc_unfold. tc_use H0. tc_use H3. tc_use H5. rewrite Hn.
    tc_use R3. reflexivity. }
  split.
  { intros buf w1 w2 w3 miso w4 w5 -> Hn H0 H3 H5 R3 R5. apply Z.eqb_neq in Hn.
    tc_unfold. tc_use H0. tc_use H3. tc_use H5. rewrite Hn.
    tc_use R3. tc_use R5. reflexivity. }
  split.
  { intros ok buf w' E. split; [|split].
    - destruct (transceiveCommand_post env fuel send recv n w _ _ E)
        as (ext & Hadv & Hnss & _). destruct Hadv as (Hh & _).
      rewrite Hh. exact Hnss.
    - destruct (transceiveCommand_post env fuel send recv n w _ _ E)
        as (ext & Hadv & _ & _ & Hs). exists ext. split; assumption.
    - intros ->. clear - E. tc_unfold. revert E.
      case_wait E0; [|timed_out E0].
      case_wait E3; [|timed_out E3].
      case_wait E5; [|timed_out E5].
      destruct recv as [rb|]; [|discriminate].
      destruct (n =? 0); [discriminate|].
      case_wait R3; [|timed_out R3].
      case_wait R5; [discriminate|timed_out R5]. }
  intros Hwo w1 w2 w3 H0 H3 H5. tc_unfold. tc_use H0. tc_use H3. tc_use H5.
  destruct recv as [rb|]; [|reflexivity].
  destruct Hwo as [Hwo| ->]; [discriminate|reflexivity].
Qed.

End Timeouts.

(** ** The register and command layer *)

Section Commands.

Variable env : Env.
Variable hdr : Header.
Variable fuel : nat.

Lemma write_only_post frame w :
  post ('(ok, _) <- transceiveCommand env fuel frame None 0 ;;
        if negb ok then ret false else ret true) w (cmd_post frame w).
Proof.
  apply post_bind. eapply post_conseq; [apply transceiveCommand_post|].
  intros [ok buf] w1 (ext & Hadv & _ & Hal & Hs). cbn [fst snd] in Hs.
  assert (Hc : cmd_post frame w ok w1).
  { exists ext. split; [exact Hadv|]. split; [exact Hal|].
    destruct Hs as [(Hf & Hok & _)|[(m & Hf & _)|(b & _ & _ & Hb & _)]].
    - left. split; assumption.
    - right. exists m. exact Hf.
    - discriminate. }
  destruct ok; apply post_ret; exact Hc.
Qed.

Lemma writeRegister_post reg value w :
  post (writeRegister env fuel reg value) w
       (cmd_post ([PN5180_WRITE_REGISTER; reg] ++ le_bytes32 value) w).
Proof. apply write_only_post. Qed.

Lemma writeRegisterWithOrMask_post reg mask w :
  post (writeRegisterWithOrMask env fuel reg mask) w
       (cmd_post ([PN5180_WRITE_REGISTER_OR_MASK; reg] ++ le_bytes32 mask) w).
Proof. apply write_only_post. Qed.

Lemma writeRegisterWithAndMask_post reg mask w :
  post (writeRegisterWithAndMask env fuel reg mask) w
       (cmd_post ([PN5180_WRITE_REGISTER_AND_MASK; reg] ++ le_bytes32 mask) w).
Proof. apply write_only_post. Qed.

Lemma loadRFConfig_post tx rx w :
  post (loadRFConfig env fuel tx rx) w
       (cmd_post [PN5180_LOAD_RF_CONFIG; tx; rx] w).
Proof. apply write_only_post. Qed.

Lemma cmd_RfOn_post parameter w :
  post (cmd_RfOn env fuel parameter) w (cmd_post [PN5180_RF_ON; parameter] w).
Proof. apply write_only_post. Qed.

Lemma cmd_RfOff_post parameter w :
  post (cmd_RfOff env fuel parameter) w (cmd_post [PN5180_RF_OFF; parameter] w).
Proof. apply write_only_post. Qed.

Lemma cmd_SendData_post data len validBits w :
  post (cmd_SendData env fuel data len validBits) w
       (cmd_post ([PN5180_SEND_DATA; validBits] ++ cells data 0 (Z.to_nat len)) w).
Proof. apply write_only_post. Qed.

Lemma clearIRQStatus_post irqMask w :
  post (clearIRQStatus env hdr fuel irqMask) w
       (cmd_post ([PN5180_WRITE_REGISTER; IRQ_CLEAR hdr] ++ le_bytes32 irqMask) w).
Proof.
  unfold clearIRQStatus. apply post_bind.
  eapply post_conseq; [apply writeRegister_post|].
  intros ok w1 H. destruct ok; apply post_ret; exact H.
Qed.

Lemma readRegister_post reg value w :
  post (readRegister env fuel reg value) w (reg_post reg w).
Proof.
  unfold readRegister. apply post_bind.
  eapply post_conseq; [apply transceiveCommand_post|].
  intros [ok buf] w1 (ext & Hadv & _ & Hal & Hs). cbn [fst snd] in Hs.
  assert (Hc : forall o, o = ok ->
             reg_post reg w
               (o, match buf with Some b => of_le_bytes32 b | None => value end)
               w1).
  { intros o ->. exists ext. split; [exact Hadv|]. split; [exact Hal|].
    destruct Hs as [(Hf & Hok & ->)|[(m & Hf & -> & Hw)|
                    (b & m1 & m2 & Hb & _ & Hf & Hl & ->)]].
    - left. split; [exact Hf|exact Hok].
    - right; left. exists m. split; [exact Hf|].
      destruct ok; [|reflexivity].
      destruct (Hw eq_refl); discriminate.
    - right; right. exists m1, m2. split; [exact Hf|].
      split; [exact Hl|]. cbn [snd]. inversion Hb; subst b.
      replace (skipn (Z.to_nat 4) (le_bytes32 value)) with (@nil Z)
        by reflexivity.
      rewrite app_nil_r. reflexivity. }
  destruct ok; apply post_ret; apply Hc; reflexivity.
Qed.

Lemma getTransceiveState_post w :
  post (getTransceiveState env hdr fuel) w (state_post hdr w).
Proof.
  unfold getTransceiveState, indeterminate32.
  repeat wp_prim. apply post_bind.
  eapply post_conseq; [apply readRegister_post|].
  intros [ok v] w1 (ext & Hadv & Hal & Hs). cbn [fst snd] in Hs.
  destruct ok; cbn [negb]; apply post_ret; exists ext;
    (split; [exact Hadv|]); (split; [exact Hal|]).
  - destruct Hs as [(_ & Hok)|[(m & _ & Hok)|(m1 & m2 & Hf & _ & ->)]];
      try discriminate.
    right. exists m1, m2. split; [exact Hf|reflexivity].
  - left. split; [reflexivity|].
    destruct Hs as [(Hf & _)|[(m & Hf & _)|(m1 & m2 & Hf & _)]]; eauto.
Qed.

Ltac cmd_cases H :=
  let ext := fresh "ext" in
  let Hadv := fresh "Hadv" in
  let Hal := fresh "Hal" in
  let Hf := fresh "Hf" in
  let m := fresh "m" in
  destruct H as (ext & Hadv & Hal & [(Hf & ?)|(m & Hf)]).

Ltac sd_leaf k ms :=
  eexists; split; [adv_build|];
  split; [rewrite ?allocs_app; repeat match goal with
                                      | H : allocs _ = _ |- _ => rewrite H
                                      end; reflexivity|];
  exists k, ms; rewrite ?chron_app;
  repeat match goal with H : chron _ = _ |- _ => rewrite H end;
  cbn [app length firstn combine sendData_frames nth];
  repeat split; intros;
  first [reflexivity | lia | discriminate | assumption].

Lemma sendData_post_holds data len validBits w :
  post (sendData env hdr fuel data len validBits) w
       (sendData_post hdr data len validBits w).
Proof.
  unfold sendData. destruct (len >? 260).
  { apply post_ret. sd_leaf 0%nat (@nil (list Z)). }
  wp_call writeRegisterWithAndMask_post. intros ok1 w1 H1.
  cmd_cases H1; [subst ok1; cbn [negb]; apply post_ret;
                 sd_leaf 0%nat (@nil (list Z))|].
  destruct ok1; cbn [negb]; [|apply post_ret; sd_leaf 1%nat [m]].
  wp_call writeRegisterWithOrMask_post. intros ok2 w2 H2.
  cmd_cases H2; [subst ok2; cbn [negb]; apply post_ret; sd_leaf 1%nat [m]|].
  destruct ok2; cbn [negb]; [|apply post_ret; sd_leaf 2%nat [m; m0]].
  wp_call getTransceiveState_post. intros st w3 (ext3 & Hadv3 & Hal3 & H3).
  destruct H3 as [(-> & H3)|(m3 & m4 & Hf3 & ->)].
  { cbn [is_WaitTransmit negb]. apply post_ret.
    destruct H3 as [Hf3|[(m3 & Hf3)|(m3 & m4 & Hf3)]].
    - sd_leaf 2%nat [m; m0].
    - sd_leaf 3%nat [m; m0; m3].
    - sd_leaf 4%nat [m; m0; m3; m4]. }
  destruct (is_WaitTransmit (transceive_state_of_bytes m4)) eqn:Est; cbn [negb];
    [|apply post_ret; sd_leaf 4%nat [m; m0; m3; m4]].
  assert (Hst : transceive_state_of_bytes m4 = PN5180_TS_WaitTransmit)
    by (destruct (transceive_state_of_bytes m4); try discriminate; reflexivity).
  wp_call cmd_SendData_post. intros ok5 w5 H5.
  cmd_cases H5; [subst ok5; cbn [negb]; apply post_ret;
                 sd_leaf 4%nat [m; m0; m3; m4]|].
  destruct ok5; cbn [negb]; apply post_ret; sd_leaf 5%nat [m; m0; m3; m4; m1].
Qed.

(** C5.  [sendData] puts on the bus, in this order and nothing else, the
    AND-mask write of SYSTEM_CONFIG (Idle/StopCom), the OR-mask write of
    SYSTEM_CONFIG (Transceive), the read of RF_STATUS and the SEND_DATA
    command, stopping at the first step that fails; the SEND_DATA
    command goes out only after RF_STATUS read back as WaitTransmit, so
    a state other than WaitTransmit makes the call return [false]
    without it; success means all of them went out; more than 260 bytes
    are refused without touching the bus. *)
Theorem sendData_checks_WaitTransmit :
  forall data len validBits w ok w',
    sendData env hdr fuel data len validBits w = Some (ok, w') ->
    exists ext,
      advances w w' ext /\
      (exists (k : nat) (ms : list (list Z)),
          length ms = k /\ (k <= 5)%nat /\
          chron ext
          = combine (firstn k (sendData_frames hdr data len validBits)) ms /\
          (ok = true -> k = 5%nat) /\
          (k = 5%nat ->
           transceive_state_of_bytes (nth 3 ms []) = PN5180_TS_WaitTransmit) /\
          ((4 <= k)%nat ->
           transceive_state_of_bytes (nth 3 ms []) <> PN5180_TS_WaitTransmit ->
           ok = false /\ k = 4%nat)) /\
      (len > 260 -> ok = false /\ w' = w).
Proof.
  intros data len validBits w ok w' E.
  destruct (sendData_post_holds data len validBits w ok w' E)
    as (ext & Hadv & _ & k & ms & Hl & Hk & Hc & Hok & H5).
  exists ext. split; [exact Hadv|]. split.
  - exists k, ms. repeat split; try assumption.
    + destruct ok; [|reflexivity].
      specialize (Hok eq_refl). specialize (H5 Hok). contradiction.
    + destruct (Nat.eq_dec k 5) as [Hk5|Hk5]; [|lia].
      specialize (H5 Hk5). contradiction.
  - intros Hlen. unfold sendData in E.
    replace (len >? 260) with true in E by (symmetry; apply Z.gtb_lt; lia).
    inversion E. split; reflexivity.
Qed.

End Commands.

(** ** Argument checks of the command layer *)

Section ArgumentChecks.

Variable env : Env.
Variable fuel : nat.

(** C6.  [readEEprom]: an address above 254, or a read that would pass
    address 254, returns [false] in an unchanged world (no bus
    transaction); for every other address and length the call is the
    exchange of the READ_EEPROM frame (opcode, address, length) over the
    transport: it returns what [transceiveCommand] returns for that
    frame, the transaction was begun on the bus, and the transfers made
    are those of that one exchange. *)
Theorem readEEprom_range_check :
  forall addr buffer len w,
    (addr > 254 \/ addr + len > 254 ->
     readEEprom env fuel addr buffer len w = Some ((false, buffer), w)) /\
    (~ (addr > 254 \/ addr + len > 254) ->
     readEEprom env fuel addr buffer len w
     = match transceiveCommand env fuel [PN5180_READ_EEPROM; addr; uint8 len]
               (Some buffer) (uint32 len) w with
       | Some ((ok, buf), w') =>
           Some ((ok, match buf with Some b => b | None => buffer end), w')
       | None => None
       end) /\
    (~ (addr > 254 \/ addr + len > 254) ->
     forall ok buffer' w',
       readEEprom env fuel addr buffer len w = Some ((ok, buffer'), w') ->
       exists ext,
         advances w w' (ext ++ [EvBeginTransaction]) /\
         tc_shape [PN5180_READ_EEPROM; addr; uint8 len] (Some buffer)
                  (uint32 len) ok (Some buffer') (chron ext)).
Proof.
  intros addr buffer len w.
  assert (Hg : (addr >? 254) || (addr + len >? 254) = true <->
               (addr > 254 \/ addr + len > 254)).
  { rewrite orb_true_iff, !Z.gtb_ltb, !Z.ltb_lt. lia. }
  assert (Heq : ~ (addr > 254 \/ addr + len > 254) ->
     readEEprom env fuel addr buffer len w
     = match transceiveCommand env fuel [PN5180_READ_EEPROM; addr; uint8 len]
               (Some buffer) (uint32 len) w with
       | Some ((ok, buf), w') =>
           Some ((ok, match buf with Some b => b | None => buffer end), w')
       | None => None
       end).
  { intros Hn. unfold readEEprom.
    replace ((addr >? 254) || (addr + len >? 254)) with false
      by (symmetry; apply not_true_iff_false; intros E; apply Hn, Hg, E).
    unfold bind. destruct (transceiveCommand _ _ _ _ _ _) as [[[ok buf] w']|];
      [|reflexivity].
    destruct ok; reflexivity. }
  split; [|split].
  - intros H. unfold readEEprom. apply Hg in H. rewrite H. reflexivity.
  - exact Heq.
  - intros Hn ok buffer' w' E. rewrite (Heq Hn) in E.
    destruct (transceiveCommand _ _ _ _ _ _) as [[[ok0 buf] w0]|] eqn:Etc;
      [|discriminate].
    inversion E; subst ok0 w0; clear E.
    destruct (transceiveCommand_post env fuel _ _ _ w _ _ Etc)
      as (ext & Hadv & _ & _ & Hs).
    destruct (transceiveCommand_begins env fuel _ _ _ w _ _ Etc)
      as (ext' & Hadv').
    exists ext'.
    assert (Hx : ext = ext' ++ [EvBeginTransaction]).
    { destruct Hadv as (G1 & _). destruct Hadv' as (G2 & _).
      cbn [history emit] in G2. rewrite G2 in G1.
      change (EvBeginTransaction :: history w)
        with ([EvBeginTransaction] ++ history w) in G1.
      rewrite app_assoc in G1. apply app_inv_tail in G1. symmetry. exact G1. }
    subst ext. split; [exact Hadv|].
    rewrite chron_app in Hs. cbn [chron transfers_rev rev app] in Hs.
    cbn [fst snd] in Hs.
    destruct Hs as [(Hf & Hok & Hb)|[(m & Hf & Hb & Hw)|
                    (b & m1 & m2 & Hb & Hn0 & Hf & Hl & Hb')]].
    + left. subst buf. repeat split; assumption.
    + right; left. subst buf. exists m. repeat split; assumption.
    + right; right. subst buf. exists b, m1, m2. repeat split; assumption.
Qed.

(** C9.  [mifareAuthenticate]: a key type other than 0x60 and 0x61
    returns -2 in an unchanged world (no bus activity); with key type
    0x60 or 0x61 the call is the exchange of the 13-byte
    MIFARE_AUTHENTICATE frame, returning -3 when the transport fails and
    the status byte otherwise; so whenever a call has touched the bus,
    the key type was 0x60 or 0x61. *)
Theorem mifareAuthenticate_keyType_check :
  forall blockNo key keyType uid w,
    (keyType <> 0x60 /\ keyType <> 0x61 ->
     mifareAuthenticate env fuel blockNo key keyType uid w = Some (-2, w)) /\
    (keyType = 0x60 \/ keyType = 0x61 ->
     mifareAuthenticate env fuel blockNo key keyType uid w
     = match transceiveCommand env fuel
               ([PN5180_MIFARE_AUTHENTICATE] ++ cells key 0 6
                  ++ [keyType; blockNo] ++ cells uid 0 4)
               (Some [0x02]) 1 w with
       | Some ((ok, buf), w') =>
           Some (if ok
                 then at_ (match buf with Some b => b | None => [0x02] end) 0
                 else -3, w')
       | None => None
       end) /\
    (forall r w',
        mifareAuthenticate env fuel blockNo key keyType uid w = Some (r, w') ->
        history w' <> history w ->
        keyType = 0x60 \/ keyType = 0x61).
Proof.
  intros blockNo key keyType uid w.
  assert (Hg : negb (keyType =? 0x60) && negb (keyType =? 0x61) = true <->
               (keyType <> 0x60 /\ keyType <> 0x61)).
  { rewrite andb_true_iff, !negb_true_iff, !Z.eqb_neq. reflexivity. }
  assert (Hbad : keyType <> 0x60 /\ keyType <> 0x61 ->
     mifareAuthenticate env fuel blockNo key keyType uid w = Some (-2, w)).
  { intros H. unfold mifareAuthenticate. apply Hg in H. rewrite H.
    reflexivity. }
  split; [exact Hbad|]. split.
  - intros H. unfold mifareAuthenticate.
    replace (negb (keyType =? 0x60) && negb (keyType =? 0x61)) with false
      by (symmetry; apply not_true_iff_false; intros E; apply Hg in E; lia).
    unfold bind. destruct (transceiveCommand _ _ _ _ _ _) as [[[ok buf] w']|];
      [|reflexivity].
    destruct ok; reflexivity.
  - intros r w' E Hh.
    destruct (Z.eq_dec keyType 0x60) as [H1|H1]; [left; exact H1|].
    destruct (Z.eq_dec keyType 0x61) as [H2|H2]; [right; exact H2|].
    rewrite (Hbad (conj H1 H2)) in E. inversion E; subst. contradiction.
Qed.

End ArgumentChecks.

(** ** The receive buffers *)

Section ReceiveBuffers.

Variable env : Env.
Variable fuel : nat.

Lemma firstn_app_exact (m rest : list Z) n :
  length m = n -> firstn n (m ++ rest) = m.
Proof.
  intros <-. rewrite firstn_app, Nat.sub_diag, firstn_all. cbn.
  apply app_nil_r.
Qed.

Lemma readData_received len old ok buf fs :
  0 <= len ->
  tc_shape [PN5180_READ_DATA; 0x00] (Some old) len ok buf fs ->
  ok = true ->
  exists m0,
    (len = 0 /\ fs = [([PN5180_READ_DATA; 0x00], m0)])
    \/ (len <> 0 /\
        exists m, fs = [([PN5180_READ_DATA; 0x00], m0);
                        (repeat 0xFF (Z.to_nat len), m)] /\
                  length m = Z.to_nat len /\
                  firstn (Z.to_nat len)
                         (match buf with Some b => b | None => old end) = m).
Proof.
  intros Hlen Hs ->.
  destruct Hs as [(_ & Hok & _)|[(m & Hf & Hb & Hw)|
                  (b & m1 & m2 & Hb & Hn0 & Hf & Hl & Hb')]].
  - discriminate.
  - exists m. left. destruct (Hw eq_refl) as [H|H]; [discriminate|].
    split; assumption.
  - exists m1. right. split; [exact Hn0|]. exists m2.
    split; [exact Hf|]. split; [exact Hl|]. subst buf.
    apply firstn_app_exact, Hl.
Qed.

Lemma readData_dynamic_post len b w :
  0 <= len ->
  post ('(ok, buf) <- transceiveCommand env fuel [PN5180_READ_DATA; 0x00]
                        (Some b) len ;;
        set_readBufferDynamic508
          (Some (match buf with Some b' => b' | None => b end)) ;;
        if negb ok then ret None else ret (Some PtrDynamic508)) w
       (fun r w' =>
          exists ext,
            history w' = ext ++ history w /\
            commandTimeout w' = commandTimeout w /\
            readBufferStatic16 w' = readBufferStatic16 w /\
            allocs ext = 0%nat /\
            readBufferDynamic508 w' <> None /\
            (r = None \/ r = Some PtrDynamic508) /\
            (forall p, r = Some p ->
               exists m0,
                 (len = 0 /\ chron ext = [([PN5180_READ_DATA; 0x00], m0)])
                 \/ (len <> 0 /\
                     exists m, chron ext = [([PN5180_READ_DATA; 0x00], m0);
                                            (repeat 0xFF (Z.to_nat len), m)] /\
                               length m = Z.to_nat len /\
                               firstn (Z.to_nat len) (load p w') = m))).
Proof.
  intros Hlen. wp_call transceiveCommand_post.
  intros [ok buf] w1 (ext & Hadv & _ & Hal & Hs). cbn [fst snd] in Hs.
  repeat wp_prim. destruct Hadv as (Hh & Ht & Hs16 & Hd).
  assert (Hres : forall r, (r = None \/ (r = Some PtrDynamic508 /\ ok = true)) ->
    exists ext0,
      history (mkWorld (history w1) (commandTimeout w1) (readBufferStatic16 w1)
                 (Some (match buf with Some b' => b' | None => b end)))
      = ext0 ++ history w /\
      commandTimeout w1 = commandTimeout w /\
      readBufferStatic16 w1 = readBufferStatic16 w /\
      allocs ext0 = 0%nat /\
      Some (match buf with Some b' => b' | None => b end) <> None /\
      (r = None \/ r = Some PtrDynamic508) /\
      (forall p, r = Some p ->
         exists m0,
           (len = 0 /\ chron ext0 = [([PN5180_READ_DATA; 0x00], m0)])
           \/ (len <> 0 /\
               exists m, chron ext0 = [([PN5180_READ_DATA; 0x00], m0);
                                       (repeat 0xFF (Z.to_nat len), m)] /\
                         length m = Z.to_nat len /\
                         firstn (Z.to_nat len)
                           (load p (mkWorld (history w1) (commandTimeout w1)
                              (readBufferStatic16 w1)
                              (Some (match buf with
                                     | Some b' => b'
                                     | None => b
                                     end)))) = m))).
  { intros r Hr. exists ext. cbn [history].
    split; [exact Hh|]. split; [exact Ht|]. split; [exact Hs16|].
    split; [exact Hal|]. split; [discriminate|]. split; [tauto|].
    intros p Hp. destruct Hr as [->|(-> & Hok)]; [discriminate|].
    inversion Hp; subst p. cbn [load readBufferDynamic508].
    apply (readData_received len _ _ _ _ Hlen Hs Hok). }
  destruct ok; cbn [negb]; apply post_ret; apply Hres; tauto.
Qed.

Lemma readData_post_holds len w :
  post (readData env fuel len) w (readData_post len w).
Proof.
  unfold readData.
  destruct ((len <? 0) || (len >? 508)) eqn:Eg.
  { apply orb_true_iff in Eg. rewrite Z.gtb_ltb, !Z.ltb_lt in Eg.
    apply post_ret. exists []. split; [reflexivity|]. split; [reflexivity|].
    split; [intros _; split; reflexivity|].
    split; [intros H; lia|]. split; [intros H; lia|].
    intros p H. discriminate. }
  apply orb_false_iff in Eg. rewrite Z.gtb_ltb, !Z.ltb_ge in Eg.
  destruct (len <=? 16) eqn:E16.
  - apply Z.leb_le in E16. repeat wp_prim.
    wp_call transceiveCommand_post.
    intros [ok buf] w1 (ext & Hadv & _ & Hal & Hs). cbn [fst snd] in Hs.
    repeat wp_prim.
    destruct Hadv as (Hh & Ht & Hs16 & Hd).
    assert (Hres : forall r, (r = None \/ (r = Some PtrStatic16 /\ ok = true)) ->
      readData_post len w r
        (mkWorld (history w1) (commandTimeout w1)
           (match buf with Some b => b | None => readBufferStatic16 w end)
           (readBufferDynamic508 w1))).
    { intros r Hr. exists ext. cbn [history commandTimeout readBufferDynamic508
                                    readBufferStatic16].
      split; [exact Hh|]. split; [exact Ht|].
      split; [intros H; lia|].
      split; [intros _; split; [exact Hal|split; [exact Hd|tauto]]|].
      split; [intros H; lia|].
      intros p Hp. destruct Hr as [->|(-> & Hok)]; [discriminate|].
      inversion Hp; subst p. cbn [load readBufferStatic16].
      apply (readData_received len _ _ _ _ (proj1 Eg) Hs Hok). }
    destruct ok; cbn [negb]; apply post_ret; apply Hres; tauto.
  - apply Z.leb_gt in E16. repeat wp_prim.
    destruct (readBufferDynamic508 w) as [b|] eqn:Ed.
    + apply post_bind, post_ret.
      eapply post_conseq; [apply (readData_dynamic_post len b w (proj1 Eg))|].
      intros r w' (ext & Hh & Ht & Hs16 & Hal & Hd & Hr & Hp).
      exists ext. split; [exact Hh|]. split; [exact Ht|].
      split; [intros H; lia|]. split; [intros H; lia|].
      split; [|exact Hp].
      intros _. rewrite Ed. repeat split; try assumption; intros _; exact Hd.
    + repeat wp_prim. destruct ok.
      * eapply post_conseq; [apply (readData_dynamic_post len blk _ (proj1 Eg))|].
        intros r w' (ext & Hh & Ht & Hs16 & Hal & Hd & Hr & Hp).
        cbn [history commandTimeout readBufferStatic16 emit] in Hh, Ht, Hs16.
        exists (ext ++ [EvMalloc true]).
        split; [rewrite <- app_assoc; exact Hh|]. split; [exact Ht|].
        split; [intros H; lia|]. split; [intros H; lia|].
        split.
        { intros _. rewrite Ed, allocs_app, Hal.
          repeat split; try assumption; try contradiction.
          intros _; exact Hd. }
        intros p Hr'. destruct (Hp p Hr') as (m0 & Hm). exists m0.
        rewrite chron_app. cbn [chron transfers_rev rev app]. exact Hm.
      * apply post_ret. exists [EvMalloc false].
        cbn [history commandTimeout readBufferStatic16 readBufferDynamic508 emit].
        split; [reflexivity|]. split; [reflexivity|].
        split; [intros H; lia|]. split; [intros H; lia|].
        split.
        { intros _. rewrite Ed. repeat split; try tauto. }
        intros p Hp. discriminate.
Qed.


End ReceiveBuffers.

(** ** ISO 14443: Type-A activation *)

Section TypeA.

Variable env : Env.
Variable hdr : Header.
Variable fuel : nat.






(** What [readCardSerial_check] rejects. *)
Lemma readCardSerial_check_rejects uidLength response buffer :
  0 <= uidLength ->
  (at_ response 0 = 0xFF /\ at_ response 1 = 0xFF)
  \/ at_ response 3 = 0x00 \/ at_ response 3 = 0xFF
  \/ (uidLength = 4 /\ at_ response 3 = 0x88)
  \/ (uidLength = 7 /\
      (at_ response 6 = 0x88
       \/ (at_ response 6 = 0x00 /\ at_ response 7 = 0x00 /\
           at_ response 8 = 0x00 /\ at_ response 9 = 0x00)
       \/ (at_ response 6 = 0xFF /\ at_ response 7 = 0xFF /\
           at_ response 8 = 0xFF /\ at_ response 9 = 0xFF))) ->
  readCardSerial_check uidLength response buffer = (0, buffer).
Proof.
  intros H0 H. unfold readCardSerial_check.
  destruct (uidLength <=? 0) eqn:E0.
  { apply Z.leb_le in E0. replace uidLength with 0 by lia. reflexivity. }
  destruct (uidLength <? 4) eqn:E4; [reflexivity|].
  destruct ((at_ response 0 =? 255) && (at_ response 1 =? 255)) eqn:Ea.
  { destruct ((at_ response 3 =? 0) || (at_ response 3 =? 255)); reflexivity. }
  destruct ((at_ response 3 =? 0) || (at_ response 3 =? 255)) eqn:E3;
    [reflexivity|].
  apply andb_false_iff in Ea. apply orb_false_iff in E3.
  rewrite !Z.eqb_neq in Ea, E3.
  destruct H as [H|[H|[H|[(-> & H)|(-> & H)]]]]; try lia.
  - cbn [Z.eqb Pos.eqb]. apply Z.eqb_eq in H. rewrite H. reflexivity.
  - cbn [Z.eqb Pos.eqb].
    destruct H as [H|[(G6 & G7 & G8 & G9)|(G6 & G7 & G8 & G9)]].
    + apply Z.eqb_eq in H. rewrite H.
      destruct ((at_ response 6 =? 0) && (at_ response 7 =? 0)
                && (at_ response 8 =? 0) && (at_ response 9 =? 0));
        destruct ((at_ response 6 =? 255) && (at_ response 7 =? 255)
                  && (at_ response 8 =? 255) && (at_ response 9 =? 255));
        reflexivity.
    + rewrite G6, G7, G8, G9. cbn [Z.eqb Pos.eqb andb].
      reflexivity.
    + rewrite G6, G7, G8, G9. cbn [Z.eqb Pos.eqb andb].
      reflexivity.
Qed.

Lemma readCardSerial_check_positive uidLength response buffer :
  0 < fst (readCardSerial_check uidLength response buffer) ->
  readCardSerial_check uidLength response buffer
  = (uidLength, copy_cells (Z.to_nat uidLength) response 3 buffer 0).
Proof.
  unfold readCardSerial_check.
  destruct (uidLength <=? 0) eqn:E0.
  { apply Z.leb_le in E0. cbn [fst]. intros; exfalso; lia. }
  destruct (uidLength <? 4) eqn:E4; [cbn [fst]; intros; exfalso; lia|].
  destruct ((at_ response 0 =? 255) && (at_ response 1 =? 255)).
  { destruct ((at_ response 3 =? 0) || (at_ response 3 =? 255));
      cbn; intros; exfalso; lia. }
  destruct ((at_ response 3 =? 0) || (at_ response 3 =? 255));
    [cbn; intros; exfalso; lia|].
  match goal with
  | |- context [if ?b then (uidLength, _) else _] => destruct b
  end; [reflexivity|cbn [fst]; intros; exfalso; lia].
Qed.

Lemma length_upd i v a : length (upd i v a) = length a.
Proof.
  revert i. induction a as [|x a IH]; intros [|i]; cbn; try reflexivity.
  rewrite IH. reflexivity.
Qed.

Lemma at_upd i v a j :
  at_ (upd i v a) j
  = if ((i =? j) && (i <? length a))%nat then v else at_ a j.
Proof.
  unfold at_. revert i j. induction a as [|x a IH]; intros i j.
  - cbn. rewrite andb_false_r. destruct i; reflexivity.
  - destruct i as [|i], j as [|j]; cbn [upd nth length]; try reflexivity.
    rewrite IH. reflexivity.
Qed.

Lemma copy_cells_at n : forall src soff dst doff j,
  (doff + n <= length dst)%nat ->
  at_ (copy_cells n src soff dst doff) j
  = if ((doff <=? j) && (j <? doff + n))%nat
    then at_ src (soff + (j - doff)) else at_ dst j.
Proof.
  induction n as [|n IH]; intros src soff dst doff j Hlen.
  - cbn [copy_cells]. rewrite Nat.add_0_r.
    destruct (doff <=? j)%nat eqn:E1; [|reflexivity].
    destruct (j <? doff)%nat eqn:E2; [|reflexivity].
    apply Nat.leb_le in E1. apply Nat.ltb_lt in E2. lia.
  - cbn [copy_cells]. rewrite IH by (rewrite length_upd; lia).
    rewrite at_upd.
    destruct (Nat.leb_spec (S doff) j), (Nat.ltb_spec j (S doff + n)),
             (Nat.leb_spec doff j), (Nat.ltb_spec j (doff + S n)),
             (Nat.eqb_spec doff j), (Nat.ltb_spec doff (length dst));
      cbn [andb]; try lia; try reflexivity.
    + f_equal. lia.
    + subst j. f_equal. lia.
Qed.

Lemma cells_copy_cells n src soff dst :
  (n <= length dst)%nat ->
  cells (copy_cells n src soff dst 0) 0 n = cells src soff n.
Proof.
  intros Hlen. unfold cells. apply map_ext_in. intros i Hi.
  apply in_seq in Hi. rewrite copy_cells_at by lia.
  replace ((0 <=? 0 + i) && (0 + i <? 0 + n))%nat with true.
  - f_equal. lia.
  - symmetry. apply andb_true_iff. split.
    + apply Nat.leb_le. lia.
    + apply Nat.ltb_lt. lia.
Qed.

Lemma post_bind_any {A B : Type} (c : M A) (k : A -> M B) w
    (Q : B -> World -> Prop) :
  (forall a w1, post (k a) w1 Q) -> post (bind c k) w Q.
Proof. intros H. apply post_bind. intros a w1 _. apply H. Qed.

Ltac range_step :=
  lazymatch goal with
  | |- post (ret _) _ _ => apply post_ret
  | |- post (bind _ _) _ _ => apply post_bind_any; intros ? ?
  | |- post (match ?x with (_, _) => _ end) _ _ => destruct x
  | |- post (if ?b then _ else _) _ _ => destruct b
  | |- post (let _ := _ in _) _ _ => cbv zeta
  end.

Lemma activateTypeA_tiebreak_range cmd buffer w :
  post (activateTypeA_tiebreak env hdr fuel cmd buffer) w
       (fun r _ => fst r = -2 \/ fst r = -1 \/ fst r = 0
                   \/ fst r = 4 \/ fst r = 7).
Proof.
  unfold activateTypeA_tiebreak.
  repeat range_step; cbn [fst]; tauto.
Qed.

Lemma activateTypeA_range buffer kind w :
  post (activateTypeA env hdr fuel buffer kind) w
       (fun r _ => fst r = -2 \/ fst r = -1 \/ fst r = 0
                   \/ fst r = 4 \/ fst r = 7).
Proof.
  unfold activateTypeA.
  repeat lazymatch goal with
         | |- post (activateTypeA_tiebreak _ _ _ _ _) _ _ =>
             apply activateTypeA_tiebreak_range
         | |- _ => range_step
         end; cbn [fst]; tauto.
Qed.

(** C3.  [readCardSerial] returns what its checks make of the result
    [uidLength] and the array [response] of [activateTypeA] (UID from
    [response[3]] on): a result of the activation that is not positive
    (a negative error code, or 0) is returned as it is; otherwise the
    call returns 0, and leaves the caller's buffer alone, whenever the
    first UID byte is 00 or FF, or a 4-byte UID starts with the cascade
    tag 88, or a 7-byte UID has 88 as its byte 3 or has its last four
    bytes all 00 or all FF; and a positive return value is the UID
    length, 4 or 7, with that many UID bytes copied to the start of the
    caller's buffer. *)
Theorem readCardSerial_validity :
  forall buffer w r buffer' w',
    readCardSerial env hdr fuel buffer w = Some ((r, buffer'), w') ->
    exists uidLength response,
      activateTypeA env hdr fuel (repeat 0 10) 0 w
      = Some ((uidLength, response), w') /\
      (uidLength <= 0 -> r = uidLength /\ buffer' = buffer) /\
      (0 < uidLength ->
       at_ response 3 = 0x00 \/ at_ response 3 = 0xFF
       \/ (uidLength = 4 /\ at_ response 3 = 0x88)
       \/ (uidLength = 7 /\
           (at_ response 6 = 0x88
            \/ (at_ response 6 = 0x00 /\ at_ response 7 = 0x00 /\
                at_ response 8 = 0x00 /\ at_ response 9 = 0x00)
            \/ (at_ response 6 = 0xFF /\ at_ response 7 = 0xFF /\
                at_ response 8 = 0xFF /\ at_ response 9 = 0xFF))) ->
       r = 0 /\ buffer' = buffer) /\
      (0 < r ->
       r = uidLength /\ (r = 4 \/ r = 7) /\
       (r <= Z.of_nat (length buffer) ->
        cells buffer' 0 (Z.to_nat r) = cells response 3 (Z.to_nat r))).
Proof.
  intros buffer w r buffer' w' E. unfold readCardSerial in E.
  apply bind_Some in E. destruct E as ([uidLength response] & w1 & E1 & E).
  unfold ret in E. inversion E as [[Hr Hw]]. subst w1. clear E.
  exists uidLength, response. split; [exact E1|].
  split; [|split].
  - intros Hneg. unfold readCardSerial_check in Hr.
    replace (uidLength <=? 0) with true in Hr
      by (symmetry; apply Z.leb_le; lia).
    inversion Hr. split; reflexivity.
  - intros H0 Hrej.
    rewrite (readCardSerial_check_rejects uidLength response buffer
               ltac:(lia) (or_intror Hrej)) in Hr.
    inversion Hr. split; reflexivity.
  - intros Hpos.
    assert (Hc := readCardSerial_check_positive uidLength response buffer).
    rewrite Hr in Hc. specialize (Hc Hpos). inversion Hc; subst.
    split; [reflexivity|].
    pose proof (activateTypeA_range _ _ _ _ _ E1) as Hrange.
    cbn [fst] in Hrange. split; [lia|].
    intros Hlen. apply cells_copy_cells. lia.
Qed.

End TypeA.

(** ** ISO 15693: commands to the tag *)

Lemma extends_refl w : extends w w [].
Proof. split; reflexivity. Qed.

Lemma extends_emit w w1 ext e :
  extends w w1 ext -> extends w (emit e w1) (e :: ext).
Proof.
  intros [Hh Ht]. split; cbn; [rewrite Hh; reflexivity|exact Ht].
Qed.

Lemma extends_trans w w1 w2 e1 e2 :
  extends w w1 e1 -> extends w1 w2 e2 -> extends w w2 (e2 ++ e1).
Proof.
  intros [Hh1 Ht1] [Hh2 Ht2]. split.
  - rewrite Hh2, Hh1, app_assoc. reflexivity.
  - rewrite Ht2. exact Ht1.
Qed.

Lemma advances_extends w w' ext : advances w w' ext -> extends w w' ext.
Proof. intros (Hh & Ht & _). split; assumption. Qed.

Lemma advances_load w w' ext q : advances w w' ext -> load q w' = load q w.
Proof.
  intros (_ & _ & Hs & Hd). destruct q; cbn [load]; [exact Hs|].
  rewrite Hd. reflexivity.
Qed.

Lemma reads_app a b : reads (a ++ b) = (reads a + reads b)%nat.
Proof. unfold reads. rewrite filter_app, length_app. reflexivity. Qed.

Lemma quiet_refl w : quiet w w.
Proof. exists []. split; [apply advances_refl|reflexivity]. Qed.

Lemma quiet_trans w w1 w2 : quiet w w1 -> quiet w1 w2 -> quiet w w2.
Proof.
  intros (e1 & H1 & R1) (e2 & H2 & R2). exists (e2 ++ e1).
  split; [eapply advances_trans; eassumption|].
  rewrite chron_app, reads_app, R1, R2. reflexivity.
Qed.

Lemma quiet_emit w w1 e :
  transfers_rev [e] = [] -> quiet w w1 -> quiet w (emit e w1).
Proof.
  intros He (e1 & H1 & R1). exists (e :: e1).
  split; [apply advances_emit; exact H1|].
  change (e :: e1) with ([e] ++ e1).
  rewrite chron_app, reads_app, R1. unfold chron. rewrite He. reflexivity.
Qed.

Lemma quiet_extends w w' :
  quiet w w' -> exists ext, extends w w' ext /\ reads (chron ext) = 0%nat.
Proof.
  intros (e & H & R). exists e. split; [apply advances_extends; exact H|exact R].
Qed.

Ltac ext_build :=
  repeat first
    [ eassumption
    | apply advances_extends; eassumption
    | apply extends_refl
    | apply extends_emit
    | eapply extends_trans;
      [|first [eassumption | eapply advances_extends; eassumption]] ].

Ltac quiet_build :=
  cbn beta in *;
  repeat first
    [ assumption
    | apply quiet_refl
    | apply quiet_emit; [reflexivity|]
    | eapply quiet_trans; [|eassumption] ].

Ltac no_code := let H := fresh in intros H; vm_compute in H; discriminate H.

Section Quiet.

Variable env : Env.
Variable hdr : Header.
Variable fuel : nat.

Lemma cmd_post_quiet frame w ok w' :
  is_read_data frame = false -> cmd_post frame w ok w' -> quiet w w'.
Proof.
  intros Hf (ext & Hadv & _ & [(Hc & _)|(m & Hc)]); exists ext;
    (split; [exact Hadv|]); rewrite Hc; [reflexivity|].
  unfold reads. cbn [filter fst]. rewrite Hf. reflexivity.
Qed.

Lemma reg_post_quiet reg w r w' : reg_post reg w r w' -> quiet w w'.
Proof.
  intros (ext & Hadv & _ & [(Hc & _)|[(m & Hc & _)|(m1 & m2 & Hc & _)]]);
    exists ext; (split; [exact Hadv|]); rewrite Hc; reflexivity.
Qed.

Lemma sendData_post_quiet data len validBits w ok w' :
  sendData_post hdr data len validBits w ok w' -> quiet w w'.
Proof.
  intros (ext & Hadv & _ & k & ms & Hl & Hk & Hc & _).
  exists ext. split; [exact Hadv|]. rewrite Hc. clear Hc.
  do 6 (destruct k as [|k]; [repeat (destruct ms as [|? ms]; try discriminate Hl);
                             reflexivity|]).
  lia.
Qed.

Lemma clearIRQStatus_quiet irqMask w :
  post (clearIRQStatus env hdr fuel irqMask) w (fun _ w' => quiet w w').
Proof.
  eapply post_conseq; [apply clearIRQStatus_post|].
  intros ok w'. apply cmd_post_quiet. reflexivity.
Qed.

Lemma readRegister_quiet reg value w :
  post (readRegister env fuel reg value) w (fun _ w' => quiet w w').
Proof.
  eapply post_conseq; [apply readRegister_post|].
  intros r w'. apply reg_post_quiet.
Qed.

Lemma getIRQStatus_quiet w :
  post (getIRQStatus env hdr fuel) w (fun _ w' => quiet w w').
Proof.
  unfold getIRQStatus, indeterminate32. repeat wp_prim.
  wp_call readRegister_quiet. intros [ok v] w1 H.
  destruct ok; cbn [negb]; apply post_ret; exact H.
Qed.

Lemma sendData_quiet data len validBits w :
  post (sendData env hdr fuel data len validBits) w (fun _ w' => quiet w w').
Proof.
  eapply post_conseq; [apply sendData_post_holds|].
  intros ok w'. apply sendData_post_quiet.
Qed.

Lemma post_stuck {A : Type} w (Q : A -> World -> Prop) :
  post (fun _ : World => @None (A * World)) w Q.
Proof. intros a w' E. discriminate E. Qed.

Lemma waitRxIrq_quiet n : forall started irqR w,
  post (waitRxIrq env hdr fuel n started irqR) w (fun _ w' => quiet w w').
Proof.
  induction n as [|n IH]; intros started irqR w; cbn [waitRxIrq];
    destruct (negb (Z.land irqR (RX_IRQ_STAT hdr) =? 0));
    try (apply post_ret, quiet_refl).
  - apply post_stuck.
  - wp_call getIRQStatus_quiet. intros irq w1 H1.
    repeat wp_prim.
    destruct (_ <? _); [apply post_ret; quiet_build|].
    eapply post_conseq; [apply IH|].
    cbn beta. intros _ w2 H2. quiet_build.
Qed.


Lemma sendData_begins data len validBits w :
  len <= 260 ->
  post (sendData env hdr fuel data len validBits) w
       (fun _ w' => exists e, history w' = e ++ EvBeginTransaction :: history w).
Proof.
  intros Hlen. unfold sendData.
  replace (len >? 260) with false
    by (symmetry; rewrite Z.gtb_ltb; apply Z.ltb_ge; lia).
  unfold writeRegisterWithAndMask. do 2 apply post_bind.
  eapply post_conseq; [apply transceiveCommand_begins|].
  intros [ok0 buf] w0 (e0 & H0 & _).
  assert (Hq : forall (c : M bool),
             post c w0 (fun _ w' => quiet w0 w') ->
             post c w0 (fun _ w' => exists e,
                            history w' = e ++ EvBeginTransaction :: history w)).
  { intros c Hc. eapply post_conseq; [exact Hc|].
    intros _ w' (e & (He & _) & _). exists (e ++ e0).
    rewrite He, H0, <- app_assoc. reflexivity. }
  destruct ok0; cbn [negb]; repeat wp_prim;
    [|apply Hq, post_ret, quiet_refl].
  apply Hq.
  wp_call writeRegisterWithOrMask_post. intros ok2 w2 H2.
  apply cmd_post_quiet in H2; [|reflexivity].
  destruct ok2; cbn [negb]; [|apply post_ret; exact H2].
  wp_call getTransceiveState_post. intros st w3 (e3 & Hadv3 & _ & H3).
  assert (Q3 : quiet w2 w3).
  { exists e3. split; [exact Hadv3|].
    destruct H3 as [(_ & [Hc|[(m & Hc)|(m1 & m2 & Hc)]])|(m1 & m2 & Hc & _)];
      rewrite Hc; reflexivity. }
  destruct (is_WaitTransmit st); cbn [negb]; [|apply post_ret; quiet_build].
  wp_call cmd_SendData_post. intros ok w5 H5.
  apply cmd_post_quiet in H5; [|reflexivity].
  destruct ok; cbn [negb]; apply post_ret; quiet_build.
Qed.

End Quiet.

Section Tag.

Variable env : Env.
Variable hdr : Header.
Variable fuel : nat.

Lemma extends_after_pause w w1 w' ext1 ext2 :
  advances w w1 ext1 ->
  extends (emit (EvDelay 10) w1) w' ext2 ->
  extends w w' (ext2 ++ EvDelay 10 :: ext1).
Proof.
  intros H1 H2.
  change (EvDelay 10 :: ext1) with ([EvDelay 10] ++ ext1).
  rewrite app_assoc. eapply extends_trans.
  - apply advances_extends. exact H1.
  - destruct H2 as [Hh Ht]. split; [|exact Ht].
    rewrite Hh, <- app_assoc. reflexivity.
Qed.

Lemma response_read_holds len w4 q w5 e5 w' :
  readData_post len w4 (Some q) w5 ->
  history w5 = e5 ++ history w4 ->
  load q w' = load q w5 ->
  response_read len q w' (chron e5).
Proof.
  intros (e & Hh & _ & _ & _ & _ & Hp) He Hl.
  assert (e = e5) by (apply (app_inv_tail (history w4)); congruence).
  subst e. destruct (Hp q eq_refl) as (m0 & [(H0 & Hc)|(Hn & m & Hc & _ & Hm)]);
    exists m0; rewrite Hc.
  - subst len. reflexivity.
  - replace (len =? 0) with false by (symmetry; apply Z.eqb_neq; exact Hn).
    rewrite Hl, Hm. reflexivity.
Qed.

Ltac issue_leaf Hadv1 HC Hkms :=
  eexists; eexists; split;
  [ eapply extends_after_pause; [exact Hadv1|];
    repeat first
      [ eassumption
      | apply extends_refl
      | apply extends_emit
      | eapply extends_trans;
        [|first [eassumption | eapply advances_extends; eassumption]] ]
  | split; [exact HC|]; split; [exact Hkms|]; cbn [fst snd] ].

Lemma issueISO15693Command_post cmd cmdLen w :
  post (issueISO15693Command env hdr fuel cmd cmdLen) w
       (issue_post hdr cmd cmdLen w).
Proof.
  unfold issueISO15693Command. apply post_bind.
  intros ok w1 E1.
  pose proof (sendData_post_holds _ _ _ _ _ _ _ _ _ E1)
    as (ext1 & Hadv1 & _ & Hkms).
  assert (HC : cmdLen <= 260 -> exists e, ext1 = e ++ [EvBeginTransaction]).
  { intros Hlen.
    destruct (sendData_begins _ _ _ _ _ _ _ Hlen _ _ E1) as (e & He).
    exists e. apply (app_inv_tail (history w)).
    rewrite <- app_assoc. cbn [app]. rewrite <- He. symmetry. apply Hadv1. }
  assert (Hkms' : exists (k : nat) (ms : list (list Z)),
             length ms = k /\ (k <= 5)%nat /\
             chron ext1
             = combine (firstn k (sendData_frames hdr cmd cmdLen 0)) ms).
  { destruct Hkms as (k & ms & H1 & H2 & H3 & _). exists k, ms. auto. }
  clear Hkms E1.
  unfold delay. apply post_bind, post_log.
  wp_call getIRQStatus_quiet. intros irqR w2 (e2 & Hadv2 & _).
  destruct (Z.land irqR (RX_SOF_DET_IRQ_STAT hdr) =? 0);
    [apply post_ret; issue_leaf Hadv1 HC Hkms'; no_code|].
  apply post_bind, post_millis. intros t.
  wp_call waitRxIrq_quiet. intros seen w3 (e3 & Hadv3 & _).
  destruct seen; cbn [negb];
    [|apply post_ret; issue_leaf Hadv1 HC Hkms'; no_code].
  unfold indeterminate32. repeat wp_prim.
  wp_call readRegister_quiet. intros [ok4 rxStatus] w4 (e4 & Hadv4 & _).
  destruct ok4; cbn [negb];
    [|apply post_ret; issue_leaf Hadv1 HC Hkms'; no_code].
  assert (HA : exists eA, extends (emit (EvDelay 10) w1) w4 eA)
    by (eexists; ext_build).
  destruct HA as (eA & HA). clear Hadv2 Hadv3 Hadv4.
  wp_call readData_post_holds. intros [q|] w5 Hrd.
  2:{ destruct Hrd as (e5 & Hh5 & Ht5 & _).
      assert (H5 : extends w4 w5 e5) by (split; assumption).
      apply post_ret; issue_leaf Hadv1 HC Hkms'; no_code. }
  assert (H5 : exists e5, extends w4 w5 e5).
  { destruct Hrd as (e5 & Hh5 & Ht5 & _). exists e5. split; assumption. }
  destruct H5 as (e5 & H5).
  wp_call getIRQStatus_quiet. intros irqStatus w6 (e6 & Hadv6 & _).
  destruct (Z.land (RX_SOF_DET_IRQ_STAT hdr) irqStatus =? 0).
  { wp_call clearIRQStatus_quiet. intros ok7 w7 (e7 & Hadv7 & _).
    apply post_ret; issue_leaf Hadv1 HC Hkms'; no_code. }
  apply post_bind, post_deref.
  assert (HD : forall w' suf,
             load q w' = load q w5 ->
             exists q0 len pre fs suf0,
               Some q = Some q0 /\ response_read len q0 w' fs /\
               chron eA ++ chron e5 ++ suf = pre ++ fs ++ suf0).
  { intros w' suf Hl. exists q. do 2 eexists. exists (chron e5). eexists.
    split; [reflexivity|]. split; [|reflexivity].
    eapply response_read_holds; [exact Hrd|apply H5|exact Hl]. }
  destruct (negb (Z.land (at_ (load q w6) 0) (Z.shiftl 1 0) =? 0)).
  - destruct (at_ (load q w6) 1 >=? 160).
    + apply post_ret; issue_leaf Hadv1 HC Hkms'; no_code.
    + apply post_ret; issue_leaf Hadv1 HC Hkms'. intros _.
      rewrite !chron_app, <- !app_assoc. apply HD.
      apply (advances_load _ _ _ _ Hadv6).
  - wp_call clearIRQStatus_quiet. intros ok7 w7 (e7 & Hadv7 & _).
    apply post_ret; issue_leaf Hadv1 HC Hkms'. intros _.
    rewrite !chron_app, <- !app_assoc. apply HD.
    rewrite (advances_load _ _ _ _ Hadv7). apply (advances_load _ _ _ _ Hadv6).
Qed.


(** C1.  [readMultipleBlock] answers with the block-not-available code
    and leaves the bus alone exactly when one of its two range tests
    fires, that is when [blockNo >= numBlock] or
    [blockNo + numBlock > numBlock]; when neither fires, so for block 0
    of at least one block, the run is that of [issueISO15693Command] on
    the 12-byte request frame 22 23, UID, block number, block count
    minus one, and it opens a bus transaction first. *)
Theorem readMultipleBlock_range_tests :
  forall uid blockNo numBlock blockData blockSize w,
    (readMultipleBlock env hdr fuel uid blockNo numBlock blockData blockSize w
     = Some ((ISO15693_EC_BLOCK_NOT_AVAILABLE, blockData), w)
     <-> (numBlock <= blockNo \/ numBlock < blockNo + numBlock)) /\
    (blockNo < numBlock -> blockNo + numBlock <= numBlock ->
     forall rc blockData' w',
       readMultipleBlock env hdr fuel uid blockNo numBlock blockData blockSize w
       = Some ((rc, blockData'), w') ->
       exists resultPtr e,
         issueISO15693Command env hdr fuel
           ([0x22; 0x23] ++ cells uid 0 8 ++ [blockNo; uint8 (numBlock - 1)])
           12 w
         = Some ((rc, resultPtr), w') /\
         history w' = e ++ EvBeginTransaction :: history w).
Proof.
  intros uid blockNo numBlock blockData blockSize w.
  assert (Hrun : blockNo < numBlock -> blockNo + numBlock <= numBlock ->
     forall rc blockData' w',
       readMultipleBlock env hdr fuel uid blockNo numBlock blockData blockSize w
       = Some ((rc, blockData'), w') ->
       exists resultPtr e,
         issueISO15693Command env hdr fuel
           ([0x22; 0x23] ++ cells uid 0 8 ++ [blockNo; uint8 (numBlock - 1)])
           12 w
         = Some ((rc, resultPtr), w') /\
         history w' = e ++ EvBeginTransaction :: history w).
  { intros G1 G2 rc blockData' w' E. unfold readMultipleBlock in E.
    replace (blockNo >? numBlock - 1) with false in E
      by (symmetry; rewrite Z.gtb_ltb; apply Z.ltb_ge; lia).
    replace (blockNo + numBlock >? numBlock) with false in E
      by (symmetry; rewrite Z.gtb_ltb; apply Z.ltb_ge; lia).
    cbv zeta in E.
    apply bind_Some in E. destruct E as ([rc0 p] & w1 & E1 & E).
    change (copy_cells 8 uid 0
              [34; 35; 1; 2; 3; 4; 5; 6; 7; 8; blockNo; uint8 (numBlock - 1)] 2)
      with ([0x22; 0x23] ++ cells uid 0 8 ++ [blockNo; uint8 (numBlock - 1)])
      in E1.
    pose proof (issueISO15693Command_post _ _ _ _ _ E1)
      as (ext1 & ext2 & [Hh _] & HC & _).
    destruct (HC ltac:(lia)) as (e1 & He1).
    assert (Hw : rc0 = rc /\ w1 = w').
    { destruct (rc0 =? ISO15693_EC_OK) eqn:Erc; cbn [negb] in E.
      - apply Z.eqb_eq in Erc. apply bind_Some in E.
        destruct E as (result & w2 & E2 & E).
        unfold deref in E2. unfold ret in E.
        inversion E2; inversion E; subst. split; reflexivity.
      - unfold ret in E. inversion E. split; reflexivity. }
    destruct Hw as [-> ->].
    exists p, (ext2 ++ EvDelay 10 :: e1). split; [exact E1|].
    rewrite Hh, He1.
    do 3 (rewrite <- ?app_assoc; cbn [app]). reflexivity. }
  split; [|exact Hrun].
  split.
  - intros E.
    destruct (Z_lt_le_dec blockNo numBlock) as [G1|G1]; [|left; exact G1].
    destruct (Z_lt_le_dec numBlock (blockNo + numBlock)) as [G2|G2];
      [right; exact G2|].
    exfalso. destruct (Hrun G1 G2 _ _ _ E) as (p & e & _ & He).
    apply (f_equal (@length Event)) in He.
    rewrite length_app in He. cbn [length] in He. lia.
  - intros G. unfold readMultipleBlock.
    destruct (blockNo >? numBlock - 1) eqn:E1; [reflexivity|].
    destruct (blockNo + numBlock >? numBlock) eqn:E2; [reflexivity|].
    rewrite Z.gtb_ltb in E1, E2. apply Z.ltb_ge in E1, E2. lia.
Qed.

End Tag.

(** ** ISO 15693: inventory of several tags *)

Lemma is_read_data_repeat n : is_read_data (repeat 0xFF n) = false.
Proof. destruct n; reflexivity. Qed.

Lemma uint8_range z : 0 <= uint8 z < 256.
Proof. unfold uint8. apply Z.mod_pos_bound. lia. Qed.

Lemma uint8_add_l a b : uint8 (uint8 a + b) = uint8 (a + b).
Proof. unfold uint8. apply Zplus_mod_idemp_l. Qed.

Lemma uint8_small z : 0 <= z < 256 -> uint8 z = z.
Proof. intros H. unfold uint8. apply Z.mod_small. exact H. Qed.

Ltac any_step :=
  lazymatch goal with
  | |- post (ret _) _ _ => apply post_ret
  | |- post (bind _ _) _ _ => apply post_bind; intros ? ? _
  | |- post (match ?x with (_, _) => _ end) _ _ => destruct x
  | |- post (if ?b then _ else _) _ _ => destruct b
  | |- post (let _ := _ in _) _ _ => cbv zeta
  end.

Section Inventory.

Variable env : Env.
Variable hdr : Header.
Variable fuel : nat.

Lemma waitRF_quiet n : forall flag limit started irqStatus w,
  post (waitRF env hdr fuel n flag limit started irqStatus) w
       (fun _ w' => quiet w w').
Proof.
  induction n as [|n IH]; intros flag limit started irqStatus w; cbn [waitRF].
  - apply post_stuck.
  - wp_call readRegister_quiet. intros [ok irq] w1 H1.
    destruct ok; cbn [negb]; [|apply post_ret; exact H1].
    destruct (negb (Z.land flag irq =? 0)); [apply post_ret; exact H1|].
    repeat wp_prim.
    destruct (_ <? _); [apply post_ret; quiet_build|].
    eapply post_conseq; [apply IH|].
    cbn beta. intros _ w2 H2. quiet_build.
Qed.

Lemma loadRFConfig_quiet tx rx w :
  post (loadRFConfig env fuel tx rx) w (fun _ w' => quiet w w').
Proof.
  eapply post_conseq; [apply loadRFConfig_post|].
  intros ok w'. apply cmd_post_quiet. reflexivity.
Qed.

Lemma writeRegisterWithAndMask_quiet reg mask w :
  post (writeRegisterWithAndMask env fuel reg mask) w (fun _ w' => quiet w w').
Proof.
  eapply post_conseq; [apply writeRegisterWithAndMask_post|].
  intros ok w'. apply cmd_post_quiet. reflexivity.
Qed.

Lemma writeRegisterWithOrMask_quiet reg mask w :
  post (writeRegisterWithOrMask env fuel reg mask) w (fun _ w' => quiet w w').
Proof.
  eapply post_conseq; [apply writeRegisterWithOrMask_post|].
  intros ok w'. apply cmd_post_quiet. reflexivity.
Qed.

Lemma setRF_on_quiet w :
  post (setRF_on env hdr fuel) w (fun _ w' => quiet w w').
Proof.
  unfold setRF_on.
  apply post_bind. eapply post_conseq; [apply cmd_RfOn_post|].
  intros ok w1 H1. apply cmd_post_quiet in H1; [|reflexivity].
  destruct ok; cbn [negb]; [|apply post_ret; exact H1].
  unfold indeterminate32. repeat wp_prim.
  wp_call waitRF_quiet. intros seen w2 H2.
  destruct seen; cbn [negb]; [|apply post_ret; quiet_build].
  wp_call clearIRQStatus_quiet. intros ok3 w3 H3.
  destruct ok3; cbn [negb]; apply post_ret; quiet_build.
Qed.

Lemma setRF_off_quiet w :
  post (setRF_off env hdr fuel) w (fun _ w' => quiet w w').
Proof.
  unfold setRF_off.
  apply post_bind. eapply post_conseq; [apply cmd_RfOff_post|].
  intros ok w1 H1. apply cmd_post_quiet in H1; [|reflexivity].
  destruct ok; cbn [negb]; [|apply post_ret; exact H1].
  unfold indeterminate32. repeat wp_prim.
  wp_call waitRF_quiet. intros seen w2 H2.
  destruct seen; cbn [negb]; [|apply post_ret; quiet_build].
  wp_call clearIRQStatus_quiet. intros ok3 w3 H3.
  destruct ok3; cbn [negb]; apply post_ret; quiet_build.
Qed.

Lemma ISO15693_setupRF_quiet w :
  post (ISO15693_setupRF env hdr fuel) w (fun _ w' => quiet w w').
Proof.
  unfold ISO15693_setupRF.
  wp_call loadRFConfig_quiet. intros ok1 w1 H1.
  destruct ok1; cbn [negb]; [|apply post_ret; exact H1].
  wp_call setRF_on_quiet. intros ok2 w2 H2.
  destruct ok2; cbn [negb]; [|apply post_ret; quiet_build].
  wp_call writeRegisterWithAndMask_quiet. intros ok3 w3 H3.
  wp_call writeRegisterWithOrMask_quiet. intros ok4 w4 H4.
  apply post_ret. quiet_build.
Qed.

End Inventory.

Section Counting.

Variable env : Env.
Variable hdr : Header.
Variable fuel : nat.

Lemma counted_refl g n w : counted g n n w w.
Proof.
  exists []. split; [apply extends_refl|]. intros _ Hn.
  cbn. rewrite Z.add_0_r, uint8_small; [reflexivity|exact Hn].
Qed.

Lemma counted_trans g1 g2 n n1 n2 w w1 w2 :
  counted g1 n n1 w w1 -> counted g2 n1 n2 w1 w2 ->
  (g2 = true -> g1 = true) ->
  counted g2 n n2 w w2.
Proof.
  intros (e1 & X1 & H1) (e2 & X2 & H2) Hg. exists (e2 ++ e1).
  split; [eapply extends_trans; eassumption|].
  intros G Hn. specialize (H1 (Hg G) Hn).
  assert (Hn1 : 0 <= n1 < 256) by (rewrite H1; apply uint8_range).
  rewrite (H2 G Hn1), H1, uint8_add_l, chron_app, reads_app, Nat2Z.inj_add.
  f_equal. lia.
Qed.

Lemma counted_quiet g n w w' : quiet w w' -> counted g n n w w'.
Proof.
  intros (e & H & R). exists e. split; [apply advances_extends; exact H|].
  intros _ Hn. rewrite R. cbn. rewrite Z.add_0_r, uint8_small; [reflexivity|exact Hn].
Qed.

Lemma counted_then_quiet g n n' w w1 w2 :
  counted true n n' w w1 -> quiet w1 w2 -> counted g n n' w w2.
Proof.
  intros H Q. eapply counted_trans; [exact H|apply counted_quiet; exact Q|].
  reflexivity.
Qed.

Lemma counted_fail g n n1 n2 w w' :
  counted g n n1 w w' -> counted false n n2 w w'.
Proof.
  intros (e & X & _). exists e. split; [exact X|]. intros G. discriminate G.
Qed.

Lemma readData_reads len w q w' :
  readData_post len w (Some q) w' ->
  exists ext, extends w w' ext /\ reads (chron ext) = 1%nat.
Proof.
  intros (e & Hh & Ht & _ & _ & _ & Hp). exists e. split; [split; assumption|].
  destruct (Hp q eq_refl) as (m0 & [(_ & Hc)|(_ & m & Hc & _)]); rewrite Hc.
  - reflexivity.
  - unfold reads. cbn [filter fst]. rewrite is_read_data_repeat. reflexivity.
Qed.

Lemma readData_grows len w r w' :
  readData_post len w r w' -> exists ext, extends w w' ext.
Proof. intros (e & Hh & Ht & _). exists e. split; assumption. Qed.

Lemma counted_read n w w1 w2 :
  quiet w w1 ->
  (exists ext, extends w1 w2 ext /\ reads (chron ext) = 1%nat) ->
  counted true n (uint8 (n + 1)) w w2.
Proof.
  intros Q (e & X & R).
  eapply counted_trans; [apply (counted_quiet true), Q| |reflexivity].
  exists e. split; [exact X|]. intros _ _. rewrite R. reflexivity.
Qed.

Ltac slot_leaf H :=
  cbn [fst snd];
  first [ exact H
        | eapply counted_then_quiet; [exact H|quiet_build]
        | eapply counted_fail; exact H ].

Lemma inventoryPoll_slot_post maxTags maskLen inventory slot st w :
  post (inventoryPoll_slot env hdr fuel maxTags maskLen inventory slot st) w
       (fun r w' => counted (fst r) (inv_numCard st) (inv_numCard (snd r)) w w').
Proof.
  unfold inventoryPoll_slot.
  wp_call getIRQStatus_quiet. intros irqStatus w1 Q1.
  unfold indeterminate32. repeat wp_prim.
  wp_call readRegister_quiet. intros [ok rxStatus] w2 Q2.
  assert (Q : quiet w w2) by quiet_build. clear Q1 Q2.
  destruct ok; cbn [negb];
    [|apply post_ret; cbn [fst snd];
      apply (counted_fail true _ (inv_numCard st)), counted_quiet, Q].
  lazymatch goal with
  | |- post (bind ?c ?k) _ ?Q0 =>
      assert (Htail : forall r w3,
                 counted (fst r) (inv_numCard st) (inv_numCard (snd r)) w w3 ->
                 post (k r) w3 Q0)
  end.
  { intros [ok2 st2] w3 H. cbn [fst snd] in H.
    destruct ok2; cbn [negb]; [|apply post_ret; slot_leaf H].
    destruct (slot + 1 <? 16); [|apply post_ret; slot_leaf H].
    wp_call writeRegisterWithAndMask_quiet. intros ok5 w5 Q5.
    destruct ok5; cbn [negb]; [|apply post_ret; slot_leaf H].
    unfold delay. apply post_bind, post_log.
    wp_call clearIRQStatus_quiet. intros ok6 w6 Q6.
    destruct ok6; cbn [negb]; [|apply post_ret; slot_leaf H].
    wp_call sendData_quiet. intros ok7 w7 Q7.
    destruct ok7; cbn [negb]; apply post_ret; slot_leaf H. }
  apply post_bind. eapply post_conseq; [|intros r w3 H; apply Htail; exact H].
  destruct (_ && _).
  { apply post_ret. cbn [fst snd inv_numCard]. apply counted_quiet, Q. }
  destruct (_ && _).
  { apply post_ret. cbn [fst snd]. apply counted_quiet, Q. }
  wp_call readData_post_holds. intros [p|] w3 Hrd.
  - apply post_bind, post_deref. apply post_ret. cbn [fst snd inv_numCard].
    eapply counted_read; [exact Q|]. eapply readData_reads. exact Hrd.
  - apply post_ret. cbn [fst snd].
    destruct (readData_grows _ _ _ _ Hrd) as (e3 & X3).
    destruct Q as (e & A & _). exists (e3 ++ e).
    split; [eapply extends_trans; [apply advances_extends, A|exact X3]|].
    intros G. discriminate G.
Qed.

Lemma inventoryPoll_slots_post n : forall maxTags maskLen inventory slot st w,
  post (inventoryPoll_slots env hdr fuel n maxTags maskLen inventory slot st) w
       (fun r w' => counted (fst r) (inv_numCard st) (inv_numCard (snd r)) w w').
Proof.
  induction n as [|n IH]; intros maxTags maskLen inventory slot st w;
    cbn [inventoryPoll_slots].
  - apply post_ret. apply counted_refl.
  - wp_call inventoryPoll_slot_post. intros [ok st1] w1 H1. cbn [fst snd] in H1.
    destruct ok; cbn [negb]; [|apply post_ret; exact H1].
    eapply post_conseq; [apply IH|].
    intros [ok2 st2] w2 H2. cbn [fst snd] in *.
    eapply counted_trans; [exact H1|exact H2|reflexivity].
Qed.

Ltac poll_fail H :=
  apply post_ret; cbn [fst snd]; split; [right; reflexivity|];
  change (ISO15693_EC_UNKNOWN_ERROR =? ISO15693_EC_OK) with false;
  first [ eapply counted_fail; exact H
        | eapply (counted_fail true); eapply counted_then_quiet;
          [exact H|quiet_build] ].

Lemma inventoryPoll_counted maxTags st w :
  post (inventoryPoll env hdr fuel maxTags st) w
       (fun r w' =>
          (fst r = ISO15693_EC_OK \/ fst r = ISO15693_EC_UNKNOWN_ERROR) /\
          counted (fst r =? ISO15693_EC_OK)
                  (inv_numCard st) (inv_numCard (snd r)) w w').
Proof.
  unfold inventoryPoll. cbv zeta.
  wp_call clearIRQStatus_quiet. intros ok1 w1 Q1.
  assert (H1 : counted true (inv_numCard st) (inv_numCard st) w w1)
    by (apply counted_quiet; exact Q1).
  destruct ok1; cbn [negb]; [|poll_fail H1].
  wp_call sendData_quiet. intros ok2 w2 Q2.
  destruct ok2; cbn [negb]; [|poll_fail H1].
  wp_call inventoryPoll_slots_post. intros [ok3 st3] w3 H3. cbn [fst snd] in H3.
  assert (H3' : counted ok3 (inv_numCard st) (inv_numCard st3) w w3).
  { eapply counted_trans; [apply (counted_quiet true)|exact H3|reflexivity].
    quiet_build. }
  clear H3 H1 Q1 Q2.
  destruct ok3; cbn [negb]; [|poll_fail H3'].
  wp_call setRF_off_quiet. intros ok4 w4 Q4.
  destruct ok4; cbn [negb]; [|poll_fail H3'].
  wp_call ISO15693_setupRF_quiet. intros ok5 w5 Q5.
  destruct ok5; cbn [negb]; [|poll_fail H3'].
  apply post_ret. cbn [fst snd]. split; [left; reflexivity|].
  eapply counted_then_quiet; [exact H3'|quiet_build].
Qed.

Lemma resolveCollisions_counted n : forall maxTags st w,
  post (resolveCollisions env hdr fuel n maxTags st) w
       (fun r w' =>
          (fst r = ISO15693_EC_OK \/ fst r = ISO15693_EC_UNKNOWN_ERROR) /\
          (fst r = ISO15693_EC_OK -> inv_numCol (snd r) = 0) /\
          counted (fst r =? ISO15693_EC_OK)
                  (inv_numCard st) (inv_numCard (snd r)) w w').
Proof.
  assert (Hdone : forall st w,
             (inv_numCol st =? 0) = true ->
             post (ret (ISO15693_EC_OK, st)) w
               (fun r w' =>
                  (fst r = ISO15693_EC_OK \/ fst r = ISO15693_EC_UNKNOWN_ERROR) /\
                  (fst r = ISO15693_EC_OK -> inv_numCol (snd r) = 0) /\
                  counted (fst r =? ISO15693_EC_OK)
                          (inv_numCard st) (inv_numCard (snd r)) w w')).
  { intros st w E. apply post_ret. cbn [fst snd].
    split; [left; reflexivity|]. split; [intros _; apply Z.eqb_eq, E|].
    apply counted_refl. }
  induction n as [|n IH]; intros maxTags st w; cbn [resolveCollisions];
    destruct (inv_numCol st =? 0) eqn:E; try (apply Hdone; exact E).
  - apply post_stuck.
  - wp_call inventoryPoll_counted. intros [rc st1] w1 (Hrc & H1).
    cbn [fst snd] in Hrc, H1.
    destruct (rc =? ISO15693_EC_OK) eqn:Erc; cbn [negb].
    + eapply post_conseq; [apply IH|].
      intros [rc2 st2] w2 (Hrc2 & Hz & H2). cbn [fst snd inv_numCard] in *.
      split; [exact Hrc2|]. split; [exact Hz|].
      eapply counted_trans; [exact H1|exact H2|reflexivity].
    + apply post_ret. cbn [fst snd]. split; [right; reflexivity|].
      split; [intros G; vm_compute in G; discriminate G|].
      change (ISO15693_EC_UNKNOWN_ERROR =? ISO15693_EC_OK) with false.
      exact H1.
Qed.

End Counting.

Section Collisions.

Variable env : Env.
Variable hdr : Header.
Variable fuel : nat.

Lemma maskLen_of_slot s numCol collision :
  0 <= s < 16 -> 0 < numCol -> at_ collision 0 = s ->
  inventoryPoll_maskLen numCol collision = 1.
Proof.
  intros Hs Hn Hc. unfold inventoryPoll_maskLen.
  replace (0 <? numCol) with true by (symmetry; apply Z.ltb_lt; exact Hn).
  rewrite Hc. cbn [maskLen_loop]. cbv zeta.
  replace (Z.shiftr s 4) with 0
    by (rewrite Z.shiftr_div_pow2 by lia; symmetry; apply Z.div_small; lia).
  reflexivity.
Qed.

Lemma request_of_slot s collision :
  0 <= s < 16 -> at_ collision 0 = s ->
  cells (inventoryPoll_request 1 collision) 0
        (Z.to_nat (inventoryPoll_cmdLen 1))
  = [0x06; 0x01; 0x04; s].
Proof.
  intros Hs Hc. change (Z.to_nat (inventoryPoll_cmdLen 1)) with 4%nat.
  unfold inventoryPoll_request, cells. cbn [map seq Nat.add at_ nth].
  rewrite Hc.
  replace (Z.land s 255) with s; [reflexivity|].
  change 255 with (Z.ones 8). rewrite Z.land_ones by lia.
  symmetry. apply Z.mod_small. change (2 ^ 8) with 256. lia.
Qed.

Lemma counted_grows g n n' w w' :
  counted g n n' w w' -> exists ext, extends w w' ext.
Proof. intros (e & X & _). exists e. exact X. Qed.

Lemma inventoryPoll_request_sent maxTags st w :
  post (inventoryPoll env hdr fuel maxTags st) w
       (fun r w' =>
          fst r = ISO15693_EC_OK ->
          exists ext m0 ms rest,
            extends w w' ext /\ length ms = 5%nat /\
            chron ext
            = (clear_all_frame hdr, m0)
              :: combine
                   (sendData_frames hdr
                      (inventoryPoll_request
                         (inventoryPoll_maskLen (inv_numCol st) (inv_collision st))
                         (inv_collision st))
                      (inventoryPoll_cmdLen
                         (inventoryPoll_maskLen (inv_numCol st) (inv_collision st)))
                      0)
                   ms
              ++ rest).
Proof.
  unfold inventoryPoll. cbv zeta.
  wp_call clearIRQStatus_post. intros ok1 w1 H1.
  destruct ok1; cbn [negb]; [|apply post_ret; no_code].
  destruct H1 as (e1 & A1 & _ & [(_ & F)|(m0 & C1)]); [discriminate F|].
  wp_call sendData_post_holds.
  intros ok2 w2 (e2 & A2 & _ & k & ms & Hl & _ & C2 & Hk & _).
  destruct ok2; cbn [negb]; [|apply post_ret; no_code].
  specialize (Hk eq_refl). rewrite Hk in Hl, C2. clear Hk.
  wp_call inventoryPoll_slots_post. intros [ok3 st3] w3 H3.
  apply counted_grows in H3. destruct H3 as (e3 & X3).
  destruct ok3; cbn [negb]; [|apply post_ret; no_code].
  wp_call setRF_off_quiet. intros ok4 w4 (e4 & A4 & _).
  destruct ok4; cbn [negb]; [|apply post_ret; no_code].
  wp_call ISO15693_setupRF_quiet. intros ok5 w5 (e5 & A5 & _).
  destruct ok5; cbn [negb]; [|apply post_ret; no_code].
  apply post_ret. intros _.
  exists (e5 ++ e4 ++ e3 ++ e2 ++ e1), m0, ms,
         (chron e3 ++ chron e4 ++ chron e5).
  split; [ext_build|]. split; [exact Hl|].
  rewrite !chron_app, C1, C2, <- !app_assoc.
  unfold sendData_frames. cbn [firstn app]. reflexivity.
Qed.

Lemma inventoryPoll_slot_record maxTags inventory s st w ok st' w' :
  0 <= s < 16 ->
  inventoryPoll_slot env hdr fuel maxTags 0 inventory s st w
  = Some ((ok, st'), w') ->
  exists irqStatus w1 rxStatus0 r w2,
    getIRQStatus env hdr fuel w = Some (irqStatus, w1) /\
    readRegister env fuel (RX_STATUS hdr) rxStatus0 w1 = Some (r, w2) /\
    (fst r = true ->
     Z.land (Z.shiftr (snd r) 18) 0x01 <> 0 ->
     inv_numCol st < maxTags ->
     st' = mkInventory (inv_uid st) (inv_numCard st)
             (uint8 (inv_numCol st + 1))
             (upd (Z.to_nat (inv_numCol st)) s (inv_collision st))).
Proof.
  intros Hs E. unfold inventoryPoll_slot in E.
  apply bind_Some in E. destruct E as (irqStatus & w1 & E1 & E).
  apply bind_Some in E. destruct E as (rxStatus0 & w1' & E0 & E).
  assert (w1' = w1).
  { unfold indeterminate32, indeterminate, bind, ret in E0.
    inversion E0. reflexivity. }
  subst w1'. clear E0.
  apply bind_Some in E. destruct E as ([ok2 rxStatus] & w2 & E2 & E).
  exists irqStatus, w1, rxStatus0, (ok2, rxStatus), w2.
  split; [exact E1|]. split; [exact E2|].
  cbn [fst snd]. intros -> Hbit Hcap. cbn [negb] in E.
  replace (negb (Z.land (Z.shiftr rxStatus 18) 1 =? 0)
           && (inv_numCol st <? maxTags)) with true in E.
  2:{ symmetry. apply andb_true_iff. split.
      - apply negb_true_iff, Z.eqb_neq. exact Hbit.
      - apply Z.ltb_lt. exact Hcap. }
  change (0 <? 0) with false in E. cbv beta iota in E.
  change (0 * 4) with 0 in E. rewrite Z.shiftl_0_r in E.
  replace (uint16 s) with s in E
    by (symmetry; apply Z.mod_small; lia).
  apply bind_Some in E. destruct E as ([ok3 st3] & w3 & E3 & E).
  unfold ret in E3. inversion E3; subst ok3 st3 w3. clear E3.
  lazymatch type of E with
  | ?c ?w0 = Some _ =>
      assert (H : post c w0
                    (fun r _ => snd r
                       = mkInventory (inv_uid st) (inv_numCard st)
                           (uint8 (inv_numCol st + 1))
                           (upd (Z.to_nat (inv_numCol st)) s
                                (inv_collision st))))
        by (repeat any_step; reflexivity);
      exact (H _ _ E)
  end.
Qed.

(** C4.  Multi-tag inventory.  (1) In a time slot [s] polled with mask
    length 0, a collision flag in the RX_STATUS value read, while fewer
    than [maxTags] collisions are on record, appends the 16-bit value
    [s] to the collision records.  (2) A poll whose first collision
    record is [s] computes a mask length of one nibble, and when it
    returns OK the bus has seen the clearing of the interrupt flags and
    then the five transfers of [sendData] for the request 06 01 04 [s]:
    mask length 4 bits, [s] in the low nibble of the mask byte.  (3) The
    loop of [getInventoryMultiple] returns OK at once when no collision
    is outstanding, and otherwise polls again, removes the first record
    and goes on.  (4) [getInventoryMultiple] returns OK or the
    unknown-error code; with OK no collision is outstanding and
    [numCard] is the number of READ_DATA commands sent, one per UID
    recorded, as a [uint8_t], that is modulo 256. *)
Theorem getInventoryMultiple_collisions :
  forall maxTags,
    (forall inventory s st w ok st' w',
        0 <= s < 16 ->
        inventoryPoll_slot env hdr fuel maxTags 0 inventory s st w
        = Some ((ok, st'), w') ->
        exists irqStatus w1 rxStatus0 r w2,
          getIRQStatus env hdr fuel w = Some (irqStatus, w1) /\
          readRegister env fuel (RX_STATUS hdr) rxStatus0 w1 = Some (r, w2) /\
          (fst r = true ->
           Z.land (Z.shiftr (snd r) 18) 0x01 <> 0 ->
           inv_numCol st < maxTags ->
           st' = mkInventory (inv_uid st) (inv_numCard st)
                   (uint8 (inv_numCol st + 1))
                   (upd (Z.to_nat (inv_numCol st)) s (inv_collision st)))) /\
    (forall s st,
        0 <= s < 16 -> 0 < inv_numCol st -> at_ (inv_collision st) 0 = s ->
        inventoryPoll_maskLen (inv_numCol st) (inv_collision st) = 1 /\
        Z.land s 0x0F = s /\
        forall w st' w',
          inventoryPoll env hdr fuel maxTags st w
          = Some ((ISO15693_EC_OK, st'), w') ->
          exists ext m0 ms rest,
            extends w w' ext /\ length ms = 5%nat /\
            chron ext
            = (clear_all_frame hdr, m0)
              :: combine (sendData_frames hdr [0x06; 0x01; 0x04; s] 4 0) ms
              ++ rest) /\
    (forall n st w,
        inv_numCol st = 0 ->
        resolveCollisions env hdr fuel n maxTags st w
        = Some ((ISO15693_EC_OK, st), w)) /\
    (forall n st w,
        inv_numCol st <> 0 ->
        resolveCollisions env hdr fuel (S n) maxTags st w
        = ('(rc, st1) <- inventoryPoll env hdr fuel maxTags st ;;
           if negb (rc =? ISO15693_EC_OK)
           then ret (ISO15693_EC_UNKNOWN_ERROR, st1)
           else resolveCollisions env hdr fuel n maxTags
                  (mkInventory (inv_uid st1) (inv_numCard st1)
                     (uint8 (inv_numCol st1 - 1))
                     (shift_collisions
                        (Z.to_nat (uint8 (inv_numCol st1 - 1))) 0
                        (inv_collision st1)))) w) /\
    (forall uid w rc st' w',
        getInventoryMultiple env hdr fuel uid maxTags w
        = Some ((rc, st'), w') ->
        (rc = ISO15693_EC_OK \/ rc = ISO15693_EC_UNKNOWN_ERROR) /\
        (rc = ISO15693_EC_OK ->
         inv_numCol st' = 0 /\
         exists ext,
           extends w w' ext /\
           inv_numCard st' = Z.of_nat (reads (chron ext)) mod 256)).
Proof.
  intros maxTags. split; [|split; [|split; [|split]]].
  - intros inventory s st w ok st' w' Hs E.
    eapply inventoryPoll_slot_record; eassumption.
  - intros s st Hs Hn Hc.
    pose proof (maskLen_of_slot s _ _ Hs Hn Hc) as Hm.
    split; [exact Hm|]. split.
    { change 15 with (Z.ones 4). rewrite Z.land_ones by lia.
      apply Z.mod_small. change (2 ^ 4) with 16. lia. }
    intros w st' w' E.
    destruct (inventoryPoll_request_sent _ _ _ _ _ E eq_refl)
      as (ext & m0 & ms & rest & X & Hl & C).
    exists ext, m0, ms, rest. split; [exact X|]. split; [exact Hl|].
    rewrite C, Hm. unfold sendData_frames.
    rewrite (request_of_slot s _ Hs Hc). reflexivity.
  - intros n st w Hz. destruct n; cbn [resolveCollisions]; rewrite Hz; reflexivity.
  - intros n st w Hz. cbn [resolveCollisions].
    replace (inv_numCol st =? 0) with false
      by (symmetry; apply Z.eqb_neq; exact Hz).
    reflexivity.
  - intros uid w rc st' w' E. unfold getInventoryMultiple in E.
    apply bind_Some in E. destruct E as (collision & w0 & E0 & E).
    assert (w0 = w).
    { unfold indeterminate16, indeterminate, bind, ret in E0.
      inversion E0. reflexivity. }
    subst w0. clear E0.
    apply bind_Some in E. destruct E as ([rc1 st1] & w1 & E1 & E).
    destruct (inventoryPoll_counted _ _ _ _ _ _ _ _ E1) as (Hrc1 & H1).
    cbn [fst snd inv_numCard] in Hrc1, H1.
    destruct (rc1 =? ISO15693_EC_OK) eqn:Erc; cbn [negb] in E.
    + destruct (resolveCollisions_counted _ _ _ _ _ _ _ _ _ E)
        as (Hrc & Hz & H2).
      cbn [fst snd] in Hrc, Hz, H2. split; [exact Hrc|].
      intros ->. split; [apply Hz; reflexivity|].
      destruct (counted_trans _ _ _ _ _ _ _ _ H1 H2 ltac:(reflexivity))
        as (ext & X & Hn).
      exists ext. split; [exact X|].
      rewrite (Hn eq_refl ltac:(lia)). reflexivity.
    + unfold ret in E. inversion E; subst. split; [right; reflexivity|].
      intros G. vm_compute in G. discriminate G.
Qed.

End Collisions.

Lemma count_read_data_reads h : forall acc,
  count_read_data h acc = (reads (chron h) + acc)%nat.
Proof.
  induction h as [|e h IH]; intros acc; [reflexivity|].
  change (e :: h) with ([e] ++ h) at 2. rewrite chron_app, reads_app.
  destruct e; cbn [count_read_data]; rewrite IH;
    try (change (reads (chron [_])) with O; lia).
  unfold reads, chron. cbn [transfers_rev rev app filter fst].
  destruct (is_read_data mosi); cbn [length]; lia.
Qed.

(** * Properties of the rest of the driver *)

(** ** Encodings *)

Lemma land_255 x : Z.land x 255 = x mod 256.
Proof. change 255 with (Z.ones 8). rewrite Z.land_ones by lia. reflexivity. Qed.



(** ** The mask of an inventory round *)

Lemma shiftr_4 x : Z.shiftr x 4 = x / 16.
Proof. rewrite Z.shiftr_div_pow2 by lia. reflexivity. Qed.

(** X2.  The mask length [inventoryPoll] computes from a 16-bit
    collision record is its number of hexadecimal digits, between 1 and
    4, so that the record fits the mask and the request takes 4 or 5 of
    the 7 bytes of the request array; without outstanding collisions
    the mask is empty and the request has 3 bytes. *)
Theorem inventoryPoll_maskLen_digits :
  forall numCol collision,
    0 <= at_ collision 0 < 65536 ->
    (numCol <= 0 ->
     inventoryPoll_maskLen numCol collision = 0 /\
     inventoryPoll_cmdLen (inventoryPoll_maskLen numCol collision) = 3) /\
    (0 < numCol ->
     let maskLen := inventoryPoll_maskLen numCol collision in
     1 <= maskLen <= 4 /\
     at_ collision 0 < 16 ^ maskLen /\
     (1 < maskLen -> 16 ^ (maskLen - 1) <= at_ collision 0) /\
     4 <= inventoryPoll_cmdLen maskLen <= 5 /\
     at_ (inventoryPoll_request maskLen collision) 2 = 4 * maskLen).
Proof.
  intros numCol collision Hc. unfold inventoryPoll_maskLen. split.
  - intros Hn.
    replace (0 <? numCol) with false by (symmetry; apply Z.ltb_ge; exact Hn).
    split; reflexivity.
  - intros Hn.
    replace (0 <? numCol) with true by (symmetry; apply Z.ltb_lt; exact Hn).
    set (c := at_ collision 0) in *. cbv zeta.
    cbn [maskLen_loop]. cbv zeta. rewrite !shiftr_4.
    change (uint8 (0 + 1)) with 1. change (uint8 (1 + 1)) with 2.
    change (uint8 (2 + 1)) with 3. change (uint8 (3 + 1)) with 4.
    pose proof (Z.div_mod c 16 ltac:(lia)) as H1.
    pose proof (Z.mod_pos_bound c 16 ltac:(lia)) as B1.
    pose proof (Z.div_mod (c / 16) 16 ltac:(lia)) as H2.
    pose proof (Z.mod_pos_bound (c / 16) 16 ltac:(lia)) as B2.
    pose proof (Z.div_mod (c / 16 / 16) 16 ltac:(lia)) as H3.
    pose proof (Z.mod_pos_bound (c / 16 / 16) 16 ltac:(lia)) as B3.
    pose proof (Z.div_mod (c / 16 / 16 / 16) 16 ltac:(lia)) as H4.
    pose proof (Z.mod_pos_bound (c / 16 / 16 / 16) 16 ltac:(lia)) as B4.
    destruct (Z.ltb_spec 0 (c / 16)) as [G1|G1];
      [|change (16 ^ 1) with 16; repeat split; try reflexivity; try lia;
        vm_compute; discriminate].
    destruct (Z.ltb_spec 0 (c / 16 / 16)) as [G2|G2];
      [|change (16 ^ 2) with 256; change (16 ^ (2 - 1)) with 16;
        repeat split; try reflexivity; try lia; vm_compute; discriminate].
    destruct (Z.ltb_spec 0 (c / 16 / 16 / 16)) as [G3|G3];
      [|change (16 ^ 3) with 4096; change (16 ^ (3 - 1)) with 256;
        repeat split; try reflexivity; try lia; vm_compute; discriminate].
    assert (G4 : c / 16 / 16 / 16 / 16 <= 0) by lia.
    replace (0 <? c / 16 / 16 / 16 / 16) with false
      by (symmetry; apply Z.ltb_ge; exact G4).
    change (16 ^ 4) with 65536. change (16 ^ (4 - 1)) with 4096.
    repeat split; try reflexivity; try lia; vm_compute; discriminate.
Qed.

(** ** One SPI transaction per command *)




Section Bracket.

Variable env : Env.
Variable fuel : nat.

Ltac wp_wait :=
  apply post_bind; eapply post_conseq;
  [ apply awaitBusy_polls
  | cbn beta; intros [|] ?w (?p & ?Hadv & ?Hpoll); cbn [negb] ].



End Bracket.

(** ** MIFARE block access *)

Lemma chron_cons e ext :
  transfers_rev [e] = [] -> chron (e :: ext) = chron ext.
Proof.
  intros He. change (e :: ext) with ([e] ++ ext).
  rewrite chron_app. unfold chron at 2. rewrite He. apply app_nil_r.
Qed.

Ltac adv_exact :=
  repeat first
    [ eassumption
    | apply advances_refl
    | apply advances_emit
    | eapply advances_trans; [|eassumption] ].

Section Mifare.

Variable env : Env.
Variable hdr : Header.
Variable fuel : nat.

Lemma readData_into_full len buffer w :
  post (readData_into env fuel len buffer) w (read_into_post len buffer w).
Proof.
  unfold readData_into.
  destruct ((len <? 0) || (len >? 508)).
  { apply post_ret. exists []. split; [apply advances_refl|].
    left. split; reflexivity. }
  wp_call transceiveCommand_post.
  intros [ok buf] w1 (ext & Hadv & _ & _ & Hs). cbn [fst snd] in Hs.
  assert (Hres : forall o, o = ok ->
            read_into_post len buffer w
              (o, match buf with Some b => b | None => buffer end) w1).
  { intros o ->. exists ext. split; [exact Hadv|]. cbn [fst snd].
    destruct Hs as [(Hf & -> & ->)|[(m & Hf & -> & Hw)|
                    (b & m1 & m2 & Hb & Hn & Hf & Hl & ->)]].
    - left. split; [exact Hf|reflexivity].
    - right; left. exists m. split; [exact Hf|]. split; [reflexivity|].
      intros Hok. destruct (Hw Hok); [discriminate|assumption].
    - right; right. inversion Hb; subst b. exists m1, m2.
      repeat split; assumption. }
  destruct ok; cbn [negb]; apply post_ret; apply Hres; reflexivity.
Qed.

Lemma rxBytesReceived_quiet w :
  post (rxBytesReceived env hdr fuel) w
       (fun r w' => quiet w w' /\ 0 <= r <= 511).
Proof.
  unfold rxBytesReceived, indeterminate32. repeat wp_prim.
  wp_call readRegister_quiet. intros [ok rxStatus] w1 H.
  apply post_ret. split; [exact H|].
  assert (Hl : Z.land rxStatus 511 = rxStatus mod 512).
  { change 511 with (Z.ones 9). rewrite Z.land_ones by lia. reflexivity. }
  pose proof (Z.mod_pos_bound rxStatus 512 ltac:(lia)) as Hb.
  unfold uint16. rewrite Hl, Z.mod_small by lia. lia.
Qed.

(** X4.  [rxBytesReceived] returns the low nine bits of whatever the
    read of RX_STATUS left in its variable, a length between 0 and 511,
    whether or not the read succeeded; it sends no READ_DATA command and
    leaves the driver's memory alone. *)
Theorem rxBytesReceived_range :
  forall w r w',
    rxBytesReceived env hdr fuel w = Some (r, w') ->
    0 <= r <= 511 /\
    exists ext, advances w w' ext /\ reads (chron ext) = 0%nat.
Proof.
  intros w r w' E.
  destruct (rxBytesReceived_quiet _ _ _ E) as [Q Hr].
  split; [exact Hr|exact Q].
Qed.

(** X5.  [mifareBlockRead] returns [true] only after the five
    transfers of [sendData] for the frame 30, block number, a read of
    RX_STATUS, and a READ_DATA command followed by the read of 16
    bytes, which are then the first 16 bytes of the caller's buffer; and
    as long as no READ_DATA command went out, it returns [false] and
    the caller's buffer is untouched. *)
Theorem mifareBlockRead_sixteen_bytes :
  forall blockno buffer w ok buffer' w',
    mifareBlockRead env hdr fuel blockno buffer w = Some ((ok, buffer'), w') ->
    exists ext,
      advances w w' ext /\
      (ok = true ->
       exists ms rx m0 m,
         length ms = 5%nat /\ length m = 16%nat /\ reads rx = 0%nat /\
         chron ext
         = combine (sendData_frames hdr [0x30; blockno] 2 0) ms
           ++ rx
           ++ [([PN5180_READ_DATA; 0x00], m0); (repeat 0xFF 16, m)] /\
         buffer' = m ++ skipn 16 buffer) /\
      (reads (chron ext) = 0%nat -> ok = false /\ buffer' = buffer).
Proof.
  intros blockno buffer w ok buffer' w' E.
  refine ((_ : post (mifareBlockRead env hdr fuel blockno buffer) w
    (fun r w' =>
       exists ext,
         advances w w' ext /\
         (fst r = true ->
          exists ms rx m0 m,
            length ms = 5%nat /\ length m = 16%nat /\ reads rx = 0%nat /\
            chron ext
            = combine (sendData_frames hdr [0x30; blockno] 2 0) ms
              ++ rx
              ++ [([PN5180_READ_DATA; 0x00], m0); (repeat 0xFF 16, m)] /\
            snd r = m ++ skipn 16 buffer) /\
         (reads (chron ext) = 0%nat -> fst r = false /\ snd r = buffer)))
            (ok, buffer') w' E).
  clear E. unfold mifareBlockRead. repeat wp_prim.
  do 2 (destruct l as [|? l]; [discriminate Hlen|]).
  destruct l; [|discriminate Hlen]. cbn [upd].
  wp_call sendData_post_holds.
  intros ok1 w1 (e1 & A1 & _ & k & ms & Hl & _ & C1 & Hk & _).
  destruct ok1; cbn [negb].
  2:{ apply post_ret. exists e1. split; [exact A1|]. cbn [fst snd].
      split; [discriminate|]. intros _. split; reflexivity. }
  specialize (Hk eq_refl). rewrite Hk in Hl, C1. clear Hk k.
  unfold delay. apply post_bind, post_log.
  wp_call rxBytesReceived_quiet. intros len w2 ((e2 & A2 & R2) & _).
  destruct (len =? 16).
  2:{ apply post_ret. exists (e2 ++ EvDelay 5 :: e1).
      split; [adv_exact|]. cbn [fst snd].
      split; [discriminate|]. intros _. split; reflexivity. }
  wp_call readData_into_full. intros [ok3 buf3] w3 (e3 & A3 & H3).
  assert (Hch : chron (e3 ++ e2 ++ EvDelay 5 :: e1)
                = combine (sendData_frames hdr [0x30; blockno] 2 0) ms
                  ++ chron e2 ++ chron e3).
  { rewrite !chron_app, chron_cons by reflexivity. rewrite C1.
    rewrite <- app_assoc. reflexivity. }
  assert (Hrd : forall o,
             exists ext,
               advances w w3 ext /\
               (fst (o && ok3, buf3) = true ->
                exists ms rx m0 m,
                  length ms = 5%nat /\ length m = 16%nat /\ reads rx = 0%nat /\
                  chron ext
                  = combine (sendData_frames hdr [0x30; blockno] 2 0) ms
                    ++ rx
                    ++ [([PN5180_READ_DATA; 0x00], m0); (repeat 0xFF 16, m)] /\
                  snd (o && ok3, buf3) = m ++ skipn 16 buffer) /\
               (reads (chron ext) = 0%nat ->
                fst (o && ok3, buf3) = false /\ snd (o && ok3, buf3) = buffer)).
  { intros o. exists (e3 ++ e2 ++ EvDelay 5 :: e1).
    split; [adv_exact|]. rewrite Hch. cbn [fst snd].
    destruct H3 as [(C3 & Hr)|[(m0 & C3 & Hb & Hz)|
                    (m0 & m & C3 & Hm & _ & Hb)]]; cbn [fst snd] in *.
    - inversion Hr; subst ok3 buf3. rewrite andb_false_r.
      split; [discriminate|]. intros _. split; reflexivity.
    - subst buf3. split.
      + intros Hok. apply andb_true_iff in Hok. destruct Hok as [_ Hok].
        specialize (Hz Hok). discriminate Hz.
      + rewrite C3, !reads_app. unfold reads at 3. cbn. lia.
    - split.
      + intros _. exists ms, (chron e2), m0, m.
        repeat split; try assumption. rewrite C3. reflexivity.
      + rewrite C3, !reads_app. unfold reads at 3. cbn. lia. }
  destruct ok3; apply post_ret.
  - apply (Hrd true).
  - apply (Hrd false).
Qed.

Lemma read_into_byte cmd w r w' :
  read_into_post 1 cmd w r w' ->
  exists ext, advances w w' ext /\
    (reads (chron ext) = 0%nat -> snd r = cmd) /\
    (snd r = cmd \/
     exists m, In (repeat 0xFF 1, m) (chron ext) /\ length m = 1%nat /\
               at_ (snd r) 0 = at_ m 0).
Proof.
  intros (ext & A & [(C & Hr)|[(m0 & C & Hb & _)|(m0 & m & C & Hm & _ & Hb)]]);
    exists ext; (split; [exact A|]); rewrite C.
  - subst r. split; [reflexivity|left; reflexivity].
  - split; [intros _; exact Hb|left; exact Hb].
  - split; [unfold reads; cbn; discriminate|].
    right. exists m. split; [right; left; reflexivity|].
    split; [exact Hm|]. rewrite Hb.
    destruct m as [|b m]; [discriminate Hm|]. reflexivity.
Qed.

(** X6.  The value [mifareBlockWrite16] returns is the first byte of
    its two-byte command array at the end: the byte of the last one-byte
    read made after a READ_DATA command, and the write command code
    0xA0 itself when no byte was read; in particular, when no READ_DATA
    command went out at all the result is 0xA0, not an ACK or NAK of
    the card. *)
Theorem mifareBlockWrite16_result :
  forall blockno buffer w r w',
    mifareBlockWrite16 env hdr fuel blockno buffer w = Some (r, w') ->
    exists ext,
      advances w w' ext /\
      (reads (chron ext) = 0%nat -> r = 0xA0) /\
      (r = 0xA0 \/
       exists m, In (repeat 0xFF 1, m) (chron ext) /\ length m = 1%nat /\
                 r = at_ m 0).
Proof.
  intros blockno buffer w r w' E.
  refine ((_ : post (mifareBlockWrite16 env hdr fuel blockno buffer) w
    (fun r w' =>
       exists ext,
         advances w w' ext /\
         (reads (chron ext) = 0%nat -> r = 0xA0) /\
         (r = 0xA0 \/
          exists m, In (repeat 0xFF 1, m) (chron ext) /\ length m = 1%nat /\
                    r = at_ m 0))) r w' E).
  clear E. unfold mifareBlockWrite16. repeat wp_prim.
  do 2 (destruct l as [|? l]; [discriminate Hlen|]).
  destruct l; [|discriminate Hlen]. cbn [upd].
  wp_call writeRegisterWithAndMask_quiet. intros ok1 w1 (e1 & A1 & R1).
  wp_call sendData_quiet. intros ok2 w2 (e2 & A2 & R2).
  wp_call readData_into_full. intros [ok3 cmd3] w3 H3.
  apply read_into_byte in H3. destruct H3 as (e3 & A3 & Z3 & B3).
  cbn [fst snd] in Z3, B3.
  wp_call sendData_quiet. intros ok4 w4 (e4 & A4 & R4).
  unfold delay. apply post_bind, post_log.
  wp_call readData_into_full. intros [ok5 cmd5] w5 H5.
  apply read_into_byte in H5. destruct H5 as (e5 & A5 & Z5 & B5).
  cbn [fst snd] in Z5, B5.
  wp_call writeRegisterWithOrMask_quiet. intros ok6 w6 (e6 & A6 & R6).
  apply post_ret.
  exists (e6 ++ e5 ++ EvDelay 10 :: e4 ++ e3 ++ e2 ++ e1).
  split; [adv_exact|].
  assert (Hch : chron (e6 ++ e5 ++ EvDelay 10 :: e4 ++ e3 ++ e2 ++ e1)
                = chron e1 ++ chron e2 ++ chron e3 ++ chron e4 ++ chron e5
                  ++ chron e6).
  { rewrite !chron_app, chron_cons by reflexivity.
    rewrite !chron_app, <- !app_assoc. reflexivity. }
  rewrite Hch. split.
  - rewrite !reads_app, R1, R2, R4, R6. intros Hz.
    rewrite Z5, Z3 by lia. reflexivity.
  - destruct B5 as [->|(m & Hin & Hm & Hr)].
    + destruct B3 as [->|(m & Hin & Hm & Hr)]; [left; reflexivity|].
      right. exists m. split; [|split; [exact Hm|exact Hr]].
      apply in_or_app; right. apply in_or_app; right.
      apply in_or_app; left. exact Hin.
    + right. exists m. split; [|split; [exact Hm|exact Hr]].
      do 4 (apply in_or_app; right). apply in_or_app; left. exact Hin.
Qed.

End Mifare.

(** ** ISO 14443: what activation leaves in the caller's array *)

Lemma length_copy_cells n : forall src soff dst doff,
  length (copy_cells n src soff dst doff) = length dst.
Proof.
  induction n as [|n IH]; intros src soff dst doff; cbn [copy_cells];
    [reflexivity|].
  rewrite IH. apply length_upd.
Qed.

Lemma at_splice (a m : list Z) (off n j : nat) :
  length m = n -> (off + n <= length a)%nat ->
  (j < off \/ off + n <= j)%nat ->
  at_ (firstn off a ++ m ++ skipn n (skipn off a)) j = at_ a j.
Proof.
  intros Hm Hlen Hj. unfold at_.
  assert (Hf : length (firstn off a) = off) by (rewrite length_firstn; lia).
  assert (Hs : length (skipn off a) = (length a - off)%nat)
    by apply length_skipn.
  replace (nth j a 0) with (nth j (firstn off a ++ skipn off a) 0)
    by (rewrite firstn_skipn; reflexivity).
  destruct Hj as [Hj|Hj].
  - rewrite !app_nth1 by lia. reflexivity.
  - rewrite !app_nth2 by lia. rewrite Hf, Hm.
    replace (nth (j - off) (skipn off a) 0)
      with (nth (j - off)
              (firstn n (skipn off a) ++ skipn n (skipn off a)) 0)
      by (rewrite firstn_skipn; reflexivity).
    rewrite app_nth2 by (rewrite length_firstn; lia).
    rewrite length_firstn, Hs. f_equal. lia.
Qed.

Lemma length_splice (a m : list Z) (off n : nat) :
  length m = n -> (off + n <= length a)%nat ->
  length (firstn off a ++ m ++ skipn n (skipn off a)) = length a.
Proof.
  intros Hm Hlen. rewrite !length_app, length_firstn, !length_skipn. lia.
Qed.

Section Activation.

Variable env : Env.
Variable hdr : Header.
Variable fuel : nat.

Lemma readData_at_struct len a off w :
  (off + Z.to_nat len <= length a)%nat ->
  post (readData_at env fuel len a off) w
       (fun r _ => length (snd r) = length a /\
                   forall j, (j < off \/ off + Z.to_nat len <= j)%nat ->
                             at_ (snd r) j = at_ a j).
Proof.
  intros Hlen. unfold readData_at.
  wp_call readData_into_full. intros [ok tail] w1 (ext & _ & H).
  apply post_ret. cbn [fst snd] in *.
  assert (Hsame : tail = skipn off a ->
            length (firstn off a ++ tail) = length a /\
            forall j, (j < off \/ off + Z.to_nat len <= j)%nat ->
                      at_ (firstn off a ++ tail) j = at_ a j).
  { intros ->. rewrite firstn_skipn. split; reflexivity. }
  destruct H as [(_ & Hr)|[(m0 & _ & Hb & _)|(m0 & m & _ & Hm & _ & Hb)]].
  - injection Hr as _ Ht. apply Hsame. exact Ht.
  - apply Hsame. exact Hb.
  - subst tail. split.
    + apply length_splice; assumption.
    + intros j Hj. apply at_splice; assumption.
Qed.

Ltac act_read ok arr HL HA :=
  apply post_bind; eapply post_conseq;
  [ apply readData_at_struct;
    rewrite ?length_upd, ?length_copy_cells; simpl Z.to_nat; lia
  | cbn beta; intros [ok arr] ? [HL HA]; cbn [fst snd] in HL, HA ].

Ltac act_leaf :=
  apply post_ret; split; cbn [fst snd];
  [ rewrite ?length_copy_cells; congruence
  | try (let G := fresh in intros G; discriminate G) ].

(** A call whose result is a flag, with the return that follows when
    the flag is clear. *)
Ltac act_call :=
  apply post_bind;
  let ok := fresh "ok" in
  intros ok ? _; destruct ok; cbn [negb]; [|act_leaf].

Lemma activateTypeA_tiebreak_keeps cmd buffer w :
  length cmd = 7%nat -> length buffer = 10%nat ->
  at_ buffer 0 = at_ cmd 2 -> at_ buffer 1 = at_ cmd 3 ->
  post (activateTypeA_tiebreak env hdr fuel cmd buffer) w
       (fun r _ => keeps_cascade r).
Proof.
  intros Hc Hb H0 H1. unfold activateTypeA_tiebreak, keeps_cascade.
  destruct (Z.land (at_ buffer 2) 4 =? 0); [act_leaf|].
  destruct (at_ cmd 2 =? 0x88) eqn:E88; cbn [negb]; [|act_leaf].
  apply Z.eqb_eq in E88. cbv zeta.
  assert (Hb1 : length (copy_cells 3 cmd 3 buffer 3) = 10%nat)
    by (rewrite length_copy_cells; exact Hb).
  assert (A0 : at_ (copy_cells 3 cmd 3 buffer 3) 0 = 0x88)
    by (rewrite copy_cells_at by lia; cbn; congruence).
  assert (A1 : at_ (copy_cells 3 cmd 3 buffer 3) 1
               = at_ (copy_cells 3 cmd 3 buffer 3) 3)
    by (rewrite !copy_cells_at by lia; cbn; congruence).
  set (buffer1 := copy_cells 3 cmd 3 buffer 3) in *.
  do 3 act_call.
  act_read ok5 cmd5 L5 K5. destruct ok5; cbn [negb]; [|act_leaf].
  assert (Hb2 : length (copy_cells 4 cmd5 2 buffer1 6) = 10%nat)
    by (rewrite length_copy_cells; exact Hb1).
  assert (B0 : at_ (copy_cells 4 cmd5 2 buffer1 6) 0 = 0x88)
    by (rewrite copy_cells_at by lia; cbn; exact A0).
  assert (B1 : at_ (copy_cells 4 cmd5 2 buffer1 6) 1
               = at_ (copy_cells 4 cmd5 2 buffer1 6) 3)
    by (rewrite !copy_cells_at by lia; cbn; exact A1).
  set (buffer2 := copy_cells 4 cmd5 2 buffer1 6) in *.
  do 3 act_call.
  act_read ok9 buffer3 L9 K9.
  assert (Hfin : length buffer3 = 10%nat /\
                 (7 = 7 -> at_ buffer3 0 = 0x88 /\
                           at_ buffer3 1 = at_ buffer3 3)).
  { split; [congruence|]. intros _.
    rewrite !(K9 0%nat), !(K9 1%nat), !(K9 3%nat) by (cbn; lia).
    split; assumption. }
  destruct ok9; cbn [negb]; apply post_ret; cbn [fst snd];
    [exact Hfin|].
  split; [apply Hfin|intros G; discriminate G].
Qed.

Lemma activateTypeA_keeps buffer kind w :
  length buffer = 10%nat ->
  post (activateTypeA env hdr fuel buffer kind) w (fun r _ => keeps_cascade r).
Proof.
  intros Hb. unfold activateTypeA, keeps_cascade.
  apply post_bind, post_indeterminate. intros cmd Hc.
  act_call.
  apply post_bind; intros ? ? _.
  unfold delay. apply post_bind, post_log.
  do 5 act_call.
  apply post_bind; intros st ? _.
  destruct (is_WaitTransmit st); cbn [negb]; [|act_leaf].
  apply post_bind; intros ? ? _. cbv zeta.
  act_call.
  apply post_bind, post_log.
  act_read okA bufferA LA KA. destruct okA; cbn [negb]; [|act_leaf].
  apply post_bind, post_millis. intros t.
  act_call.
  apply post_bind; intros ? ? _.
  act_call.
  apply post_bind, post_log.
  apply post_bind; intros numBytes ? _.
  destruct (negb (uint8 numBytes =? 5)); [act_leaf|].
  act_read ok5 cmd5 L5 K5. destruct ok5; cbn [negb]; [|act_leaf].
  assert (Hb1 : length (copy_cells 4 cmd5 2 bufferA 0) = 10%nat)
    by (rewrite length_copy_cells; congruence).
  assert (C0 : at_ (copy_cells 4 cmd5 2 bufferA 0) 0 = at_ cmd5 2)
    by (rewrite copy_cells_at by lia; reflexivity).
  assert (C1 : at_ (copy_cells 4 cmd5 2 bufferA 0) 1 = at_ cmd5 3)
    by (rewrite copy_cells_at by lia; reflexivity).
  set (buffer1 := copy_cells 4 cmd5 2 bufferA 0) in *.
  do 2 act_call.
  apply post_bind. intros okS ? _.
  destruct okS; cbn [negb]; [|act_leaf].
  act_read okK bufferK LK KK. destruct okK; cbn [negb]; [|act_leaf].
  apply activateTypeA_tiebreak_keeps.
  - rewrite !length_upd. rewrite L5, !length_upd. exact Hc.
  - congruence.
  - rewrite (KK 0%nat) by (cbn; lia). rewrite C0, !at_upd. reflexivity.
  - rewrite (KK 1%nat) by (cbn; lia). rewrite C1, !at_upd. reflexivity.
Qed.

(** X7.  When [activateTypeA] returns 7 for a 10-byte array, cells 0
    and 1 of the array do not hold the ATQA read earlier: the four bytes
    of the first anticollision answer were stored from cell 0 on, so
    cell 0 is the cascade tag 0x88 and cell 1 repeats the first UID
    byte in cell 3.  The array keeps its length on every return. *)
Theorem activateTypeA_overwrites_ATQA :
  forall buffer kind w r buffer' w',
    length buffer = 10%nat ->
    activateTypeA env hdr fuel buffer kind w = Some ((r, buffer'), w') ->
    length buffer' = 10%nat /\
    (r = 7 -> at_ buffer' 0 = 0x88 /\ at_ buffer' 1 = at_ buffer' 3).
Proof.
  intros buffer kind w r buffer' w' Hb E.
  exact (activateTypeA_keeps buffer kind w Hb _ _ E).
Qed.

End Activation.

(** ** ISO 14443: result codes *)

Lemma readCardSerial_check_keeps uidLength response buffer :
  snd (readCardSerial_check uidLength response buffer) = buffer
  \/ 0 < fst (readCardSerial_check uidLength response buffer).
Proof.
  unfold readCardSerial_check.
  destruct (uidLength <=? 0) eqn:E0; [left; reflexivity|].
  destruct (uidLength <? 4) eqn:E4; [left; reflexivity|].
  apply Z.leb_gt in E0.
  destruct ((at_ response 0 =? 255) && (at_ response 1 =? 255)).
  { destruct ((at_ response 3 =? 0) || (at_ response 3 =? 255));
      left; reflexivity. }
  destruct ((at_ response 3 =? 0) || (at_ response 3 =? 255));
    [left; reflexivity|].
  cbv zeta.
  match goal with
  | |- context [if ?v then (uidLength, ?c) else (0, buffer)] =>
      destruct v
  end; [right; cbn [fst]; exact E0|left; reflexivity].
Qed.

Section ResultCodes.

Variable env : Env.
Variable hdr : Header.
Variable fuel : nat.

Lemma readCardSerial_codes buffer w r buffer' w' :
  readCardSerial env hdr fuel buffer w = Some ((r, buffer'), w') ->
  (r = -2 \/ r = -1 \/ r = 0 \/ r = 4 \/ r = 7) /\
  (r <= 0 -> buffer' = buffer).
Proof.
  intros E. unfold readCardSerial in E.
  apply bind_Some in E. destruct E as ([uidLength response] & w1 & E1 & E).
  unfold ret in E. injection E as Hr _.
  pose proof (activateTypeA_range _ _ _ _ _ _ _ _ E1) as Hrange.
  cbn [fst] in Hrange.
  pose proof (readCardSerial_check_keeps uidLength response buffer) as Hk.
  pose proof (readCardSerial_check_positive uidLength response buffer) as Hp.
  pose proof (readCardSerial_check_rejects uidLength response buffer) as Hj.
  rewrite Hr in Hk, Hp. cbn [fst snd] in Hk, Hp.
  split.
  - destruct (Z_lt_le_dec 0 r) as [Hpos|Hneg].
    + specialize (Hp Hpos). injection Hp as Hu _. lia.
    + assert (Hcases : r = uidLength \/ r = 0).
      { unfold readCardSerial_check in Hr.
        destruct (uidLength <=? 0); [injection Hr as <- _; left; reflexivity|].
        destruct (uidLength <? 4); [injection Hr as <- _; right; reflexivity|].
        cbv zeta in Hr.
        match type of Hr with
        | (if ?v then _ else _) = _ => destruct v
        end; injection Hr as Hr' _.
        - destruct ((at_ response 3 =? 0) || (at_ response 3 =? 255));
            [right; symmetry; exact Hr'|].
          destruct ((at_ response 0 =? 255) && (at_ response 1 =? 255));
            [right; symmetry; exact Hr'|left; symmetry; exact Hr'].
        - right. symmetry. exact Hr'. }
      lia.
  - intros Hneg. destruct Hk as [Hk|Hk]; [exact Hk|lia].
Qed.

(** X8.  [readCardSerial] returns -2, -1, 0, 4 or 7 and nothing else,
    and it writes to the caller's buffer only when it returns 4 or 7:
    with any other result the buffer is as it was. *)
Theorem readCardSerial_result_codes :
  forall buffer w r buffer' w',
    readCardSerial env hdr fuel buffer w = Some ((r, buffer'), w') ->
    (r = -2 \/ r = -1 \/ r = 0 \/ r = 4 \/ r = 7) /\
    (r <= 0 -> buffer' = buffer).
Proof.
  intros buffer w r buffer' w' E.
  exact (readCardSerial_codes buffer w r buffer' w' E).
Qed.

(** X9.  [isCardPresent] is [readCardSerial] on a scratch array of ten
    bytes, and it answers [true] exactly when that call returned 4 or 7,
    a UID that passed the validity checks; any failure of the bus, a
    missing card and a rejected UID all read as [false]. *)
Theorem isCardPresent_validated_uid :
  forall w present w',
    isCardPresent env hdr fuel w = Some (present, w') ->
    exists buffer r buffer',
      length buffer = 10%nat /\
      readCardSerial env hdr fuel buffer w = Some ((r, buffer'), w') /\
      (present = true <-> (r = 4 \/ r = 7)) /\
      (present = false <-> (r = -2 \/ r = -1 \/ r = 0)).
Proof.
  intros w present w' E. unfold isCardPresent in E.
  apply bind_Some in E. destruct E as (buffer & w0 & E0 & E).
  assert (Hb : length buffer = 10%nat /\ w0 = w).
  { apply (post_indeterminate env 10 w
             (fun l w1 => length l = 10%nat /\ w1 = w)
             (fun l H => conj H eq_refl) _ _ E0). }
  destruct Hb as [Hb ->].
  apply bind_Some in E. destruct E as ([r buffer'] & w1 & E1 & E).
  unfold ret in E. injection E as <- <-.
  exists buffer, r, buffer'. split; [exact Hb|]. split; [exact E1|].
  destruct (readCardSerial_codes _ _ _ _ _ E1) as [Hc _].
  destruct (Z.geb_spec r 4); split; split; intros; try reflexivity;
    try discriminate; lia.
Qed.

End ResultCodes.

(** ** Switching the RF field *)

Section Field.

Variable env : Env.
Variable hdr : Header.
Variable fuel : nat.

Lemma waitRF_seen n : forall flag limit started irqStatus w,
  post (waitRF env hdr fuel n flag limit started irqStatus) w
       (fun seen w' => exists ext, advances w w' ext /\
                         (seen = true -> flag_seen hdr flag (chron ext))).
Proof.
  induction n as [|n IH]; intros flag limit started irqStatus w; cbn [waitRF].
  - apply post_stuck.
  - wp_call readRegister_post. intros [ok irq] w1 (e1 & A1 & _ & H1).
    cbn [fst snd] in H1.
    destruct ok; cbn [negb];
      [|apply post_ret; exists e1; split; [exact A1|discriminate]].
    destruct H1 as [(_ & F)|[(m & _ & F)|(m1 & m2 & C1 & _ & Hv)]];
      try discriminate F.
    destruct (Z.land flag irq =? 0) eqn:Ef; cbn [negb].
    + repeat wp_prim.
      destruct (_ <? _);
        [apply post_ret; eexists; split; [adv_exact|discriminate]|].
      eapply post_conseq; [apply IH|].
      cbn beta. intros seen w2 (e2 & A2 & H2).
      exists (e2 ++ EvMillis t :: e1). split; [adv_exact|].
      intros Hs. destruct (H2 Hs) as (pre & n1 & n2 & C2 & Hf).
      exists (chron e1 ++ pre), n1, n2. split; [|exact Hf].
      rewrite chron_app, chron_cons by reflexivity.
      rewrite C2, <- app_assoc. reflexivity.
    + apply post_ret. exists e1. split; [exact A1|]. intros _.
      exists [], m1, m2. split; [exact C1|].
      apply Z.eqb_neq in Ef. rewrite <- Hv. exact Ef.
Qed.

Lemma switch_post command flag limit w :
  post (ok <- ('(ok, _) <- transceiveCommand env fuel [command; 0] None 0 ;;
               if negb ok then ret false else ret true) ;;
        if negb ok then ret false else
        startedWaiting <- millis env ;;
        irqStatus <- indeterminate32 env ;;
        seen <- waitRF env hdr fuel fuel flag limit startedWaiting irqStatus ;;
        if negb seen then ret false else
        ok <- clearIRQStatus env hdr fuel flag ;;
        if negb ok then ret false else ret true) w
       (fun ok w' => exists ext, advances w w' ext /\
                       (ok = true -> field_switched hdr command flag (chron ext))).
Proof.
  wp_call write_only_post. intros ok1 w1 (e1 & A1 & _ & H1).
  destruct ok1; cbn [negb];
    [|apply post_ret; exists e1; split; [exact A1|discriminate]].
  destruct H1 as [(_ & F)|(m0 & C1)]; [discriminate F|].
  unfold indeterminate32. repeat wp_prim.
  wp_call waitRF_seen. intros seen w2 (e2 & A2 & H2).
  destruct seen; cbn [negb];
    [|apply post_ret; eexists; split; [adv_exact|discriminate]].
  specialize (H2 eq_refl).
  wp_call clearIRQStatus_post. intros ok3 w3 (e3 & A3 & _ & H3).
  destruct ok3; cbn [negb];
    [|apply post_ret; eexists; split; [adv_exact|discriminate]].
  destruct H3 as [(_ & F)|(m3 & C3)]; [discriminate F|].
  apply post_ret. exists (e3 ++ e2 ++ EvMillis t :: e1).
  split; [adv_exact|]. intros _.
  exists m0, (chron e2), m3. split; [exact H2|].
  rewrite !chron_app, chron_cons by reflexivity.
  rewrite C1, C3. reflexivity.
Qed.

(** X10.  [setRF_on] and [setRF_off] return [true] only after this
    exchange: the RF_ON (RF_OFF) command, then reads of IRQ_STATUS the
    last of which shows the TX_RFON (TX_RFOFF) flag, then the write to
    IRQ_CLEAR that clears exactly that flag; the driver's memory is
    left alone. *)
Theorem setRF_waits_for_flag :
  (forall w ok w',
      setRF_on env hdr fuel w = Some (ok, w') ->
      exists ext, advances w w' ext /\
        (ok = true ->
         field_switched hdr PN5180_RF_ON (TX_RFON_IRQ_STAT hdr) (chron ext))) /\
  (forall w ok w',
      setRF_off env hdr fuel w = Some (ok, w') ->
      exists ext, advances w w' ext /\
        (ok = true ->
         field_switched hdr PN5180_RF_OFF (TX_RFOFF_IRQ_STAT hdr) (chron ext))).
Proof.
  split; intros w ok w' E.
  - exact (switch_post PN5180_RF_ON (TX_RFON_IRQ_STAT hdr) SETRF_ON_TIMEOUT
             w ok w' E).
  - exact (switch_post PN5180_RF_OFF (TX_RFOFF_IRQ_STAT hdr) SETRF_OFF_TIMEOUT
             w ok w' E).
Qed.

End Field.

(** ** ISO 15693: result codes and what reaches the caller *)

Lemma lxor_cancel p r : Z.lxor (Z.lxor p r) r = p.
Proof. rewrite Z.lxor_assoc, Z.lxor_nilpotent, Z.lxor_0_r. reflexivity. Qed.

Lemma lxor_byte p r : 0 <= p < 256 -> 0 <= r < 256 -> 0 <= Z.lxor p r < 256.
Proof.
  intros Hp Hr. split; [apply Z.lxor_nonneg; lia|].
  destruct (Z.eq_dec (Z.lxor p r) 0) as [->|Hz]; [lia|].
  apply Z.log2_lt_cancel. change (Z.log2 256) with 8.
  eapply Z.le_lt_trans; [apply Z.log2_lxor; lia|].
  apply Z.max_lub_lt.
  - destruct (Z.eq_dec p 0) as [->|Hp0]; [cbn; lia|].
    apply Z.log2_lt_pow2; lia.
  - destruct (Z.eq_dec r 0) as [->|Hr0]; [cbn; lia|].
    apply Z.log2_lt_pow2; lia.
Qed.

(** X11.  The four bytes [setPassword] and [enablePrivacy] transmit in
    place of the password are the password bytes XORed with the two
    random bytes, used alternately: they are bytes again, and XORing
    them with the same random bytes gives the password back. *)
Theorem xor_password_involution :
  forall password random,
    Forall (fun b => 0 <= b < 256) (cells password 0 4) ->
    Forall (fun b => 0 <= b < 256) (cells random 0 2) ->
    xor_password (xor_password password random) random = cells password 0 4 /\
    Forall (fun b => 0 <= b < 256) (xor_password password random).
Proof.
  intros password random Hp Hr. split.
  - unfold xor_password, cells, at_. cbn [map seq nth Nat.add].
    rewrite !lxor_cancel. reflexivity.
  - unfold cells in Hp, Hr. cbn [map seq Nat.add] in Hp, Hr.
    inversion Hp as [|? ? P0 Hp1]; inversion Hp1 as [|? ? P1 Hp2];
      inversion Hp2 as [|? ? P2 Hp3]; inversion Hp3 as [|? ? P3 _].
    inversion Hr as [|? ? R0 Hr1]; inversion Hr1 as [|? ? R1 _].
    unfold xor_password. repeat constructor; apply lxor_byte; assumption.
Qed.

Section Tags.

Variable env : Env.
Variable hdr : Header.
Variable fuel : nat.

Ltac code_leaf :=
  apply post_ret; cbn [fst snd];
  split; [vm_compute; discriminate|];
  split; [intros _; first [left; reflexivity | right; reflexivity]|];
  no_code.

Lemma issueISO15693Command_codes cmd cmdLen w :
  post (issueISO15693Command env hdr fuel cmd cmdLen) w
       (fun r w' =>
          fst r <= 0xA0 /\
          (snd r = None ->
           fst r = EC_NO_CARD \/ fst r = ISO15693_EC_UNKNOWN_ERROR) /\
          (fst r = ISO15693_EC_OK ->
           snd r <> None /\
           exists ext, extends w w' ext /\ reads (chron ext) = 1%nat)).
Proof.
  unfold issueISO15693Command.
  wp_call sendData_quiet. intros ok1 w1 Q1.
  unfold delay. apply post_bind, post_log.
  wp_call getIRQStatus_quiet. intros irqR w2 Q2.
  destruct (Z.land irqR (RX_SOF_DET_IRQ_STAT hdr) =? 0); [code_leaf|].
  apply post_bind, post_millis. intros t.
  wp_call waitRxIrq_quiet. intros seen w3 Q3.
  destruct seen; cbn [negb]; [|code_leaf].
  unfold indeterminate32. repeat wp_prim.
  wp_call readRegister_quiet. intros [ok4 rxStatus] w4 Q4.
  destruct ok4; cbn [negb]; [|code_leaf].
  assert (QA : quiet w w4) by quiet_build. clear Q1 Q2 Q3 Q4.
  wp_call readData_post_holds. intros [q|] w5 Hrd; [|code_leaf].
  apply readData_reads in Hrd. destruct Hrd as (e5 & X5 & R5).
  assert (Hone : forall w', quiet w5 w' ->
             exists ext, extends w w' ext /\ reads (chron ext) = 1%nat).
  { intros w' (e6 & A6 & R6). destruct QA as (eA & AA & RA).
    exists (e6 ++ e5 ++ eA). split; [ext_build|].
    rewrite !chron_app, !reads_app, RA, R5, R6. reflexivity. }
  wp_call getIRQStatus_quiet. intros irqStatus w6 Q6.
  destruct (Z.land (RX_SOF_DET_IRQ_STAT hdr) irqStatus =? 0).
  { wp_call clearIRQStatus_quiet. intros ok7 w7 Q7.
    apply post_ret; cbn [fst snd].
    split; [vm_compute; discriminate|].
    split; [intros G; discriminate G|]. no_code. }
  apply post_bind, post_deref.
  destruct (negb (Z.land (at_ (load q w6) 0) (Z.shiftl 1 0) =? 0)).
  - destruct (at_ (load q w6) 1 >=? 160) eqn:Ea.
    + apply post_ret; cbn [fst snd].
      split; [vm_compute; discriminate|].
      split; [intros G; discriminate G|]. no_code.
    + apply post_ret; cbn [fst snd].
      split; [rewrite Z.geb_leb in Ea; apply Z.leb_gt in Ea; lia|].
      split; [intros G; discriminate G|].
      intros _. split; [discriminate|]. apply Hone. exact Q6.
  - wp_call clearIRQStatus_quiet. intros ok7 w7 Q7.
    apply post_ret; cbn [fst snd].
    split; [vm_compute; discriminate|].
    split; [intros G; discriminate G|].
    intros _. split; [discriminate|]. apply Hone. quiet_build.
Qed.

(** X12.  [issueISO15693Command] never returns a code above 0xA0: the
    custom error codes of the tag all come back as the one custom-command
    code.  A null result pointer comes only with the no-card or the
    unknown-error code, and the code OK comes with a non-null pointer
    and exactly one READ_DATA command on the bus. *)
Theorem issueISO15693Command_result_codes :
  forall cmd cmdLen w rc resultPtr w',
    issueISO15693Command env hdr fuel cmd cmdLen w
    = Some ((rc, resultPtr), w') ->
    rc <= ISO15693_EC_CUSTOM_CMD_ERROR /\
    (resultPtr = None ->
     rc = EC_NO_CARD \/ rc = ISO15693_EC_UNKNOWN_ERROR) /\
    (rc = ISO15693_EC_OK ->
     resultPtr <> None /\
     exists ext, extends w w' ext /\ reads (chron ext) = 1%nat).
Proof.
  intros cmd cmdLen w rc resultPtr w' E.
  exact (issueISO15693Command_codes cmd cmdLen w _ _ E).
Qed.

(** What a caller of [issueISO15693Command] gets to see: with a code
    other than OK the continuation [fail] applies, with OK the
    continuation [done] applies to the response buffer. *)
Lemma issue_then {A : Type} cmd cmdLen (fail : Z -> A) (done : list Z -> A)
    w a w' :
  ('(rc, resultPtr) <- issueISO15693Command env hdr fuel cmd cmdLen ;;
   if negb (rc =? ISO15693_EC_OK) then ret (fail rc) else
   result <- deref resultPtr ;; ret (done result)) w = Some (a, w') ->
  exists rc resultPtr,
    issueISO15693Command env hdr fuel cmd cmdLen w
    = Some ((rc, resultPtr), w') /\
    (rc <> ISO15693_EC_OK /\ a = fail rc
     \/ rc = ISO15693_EC_OK /\
        exists q, resultPtr = Some q /\ a = done (load q w')).
Proof.
  intros E. apply bind_Some in E. destruct E as ([rc p] & w1 & E1 & E).
  destruct (issueISO15693Command_codes _ _ _ _ _ E1) as (_ & _ & Hok).
  cbn [fst snd] in Hok.
  destruct (rc =? ISO15693_EC_OK) eqn:Erc; cbn [negb] in E.
  - apply Z.eqb_eq in Erc. destruct (Hok Erc) as (Hp & _).
    destruct p as [q|]; [|contradiction].
    apply bind_Some in E. destruct E as (result & w2 & E2 & E).
    unfold deref in E2. unfold ret in E.
    injection E2 as <- <-. injection E as <- <-.
    exists rc, (Some q). split; [exact E1|]. right.
    split; [exact Erc|]. exists q. split; reflexivity.
  - apply Z.eqb_neq in Erc. unfold ret in E. injection E as <- <-.
    exists rc, p. split; [exact E1|]. left. split; [exact Erc|reflexivity].
Qed.

Lemma copy_cells_block n result blockData :
  (n <= length blockData)%nat ->
  block_copied n result blockData (copy_cells n result 1 blockData 0).
Proof.
  intros Hn. split; [apply length_copy_cells|]. split.
  - apply cells_copy_cells. exact Hn.
  - intros j Hj. rewrite copy_cells_at by lia.
    replace ((0 <=? j) && (j <? 0 + n))%nat with false; [reflexivity|].
    symmetry. apply andb_false_iff. right. apply Nat.ltb_ge. lia.
Qed.

(** X13.  [readSingleBlock] is [issueISO15693Command] on the 11-byte
    frame 22 20, UID, block number, with no range check of its own.  A
    code other than OK leaves the caller's block untouched.  With OK
    the function copies [blockSize] bytes from byte 1 of the response
    buffer on; when these lie within that buffer (which the function
    does not check), they are then the first [blockSize] bytes of the
    caller's block, and the bytes behind them are as before. *)
Theorem readSingleBlock_copies_block :
  forall uid blockNo blockData blockSize w rc blockData' w',
    0 <= blockSize <= Z.of_nat (length blockData) ->
    readSingleBlock env hdr fuel uid blockNo blockData blockSize w
    = Some ((rc, blockData'), w') ->
    exists resultPtr,
      issueISO15693Command env hdr fuel
        ([0x22; 0x20] ++ cells uid 0 8 ++ [blockNo]) 11 w
      = Some ((rc, resultPtr), w') /\
      (rc <> ISO15693_EC_OK -> blockData' = blockData) /\
      (rc = ISO15693_EC_OK ->
       exists q,
         resultPtr = Some q /\
         ((Z.to_nat blockSize < length (load q w'))%nat ->
          block_copied (Z.to_nat blockSize) (load q w') blockData
                       blockData')).
Proof.
  intros uid blockNo blockData blockSize w rc blockData' w' Hs E.
  unfold readSingleBlock in E. cbv zeta in E.
  change (copy_cells 8 uid 0 [34; 32; 1; 2; 3; 4; 5; 6; 7; 8; blockNo] 2)
    with ([0x22; 0x20] ++ cells uid 0 8 ++ [blockNo]) in E.
  apply (issue_then _ _ (fun rc => (rc, blockData))
           (fun result =>
              (ISO15693_EC_OK,
               copy_cells (Z.to_nat blockSize) result 1 blockData 0)))
    in E.
  destruct E as (rc0 & p & E1 & [(Hrc & Ha)|(Hrc & q & Hp & Ha)]);
    injection Ha as -> ->.
  - exists p. split; [exact E1|].
    split; [reflexivity|]. intros G. contradiction.
  - exists p. subst rc0. split; [exact E1|].
    split; [intros G; contradiction G; reflexivity|].
    intros _. exists q. split; [exact Hp|]. intros _.
    apply copy_cells_block. lia.
Qed.

(** X20.  When neither range test of [readMultipleBlock] fires, a code
    other than OK from [issueISO15693Command] is returned with the
    caller's array untouched.  With OK the function copies
    [numBlock * blockSize] bytes from byte 1 of the response buffer on;
    when these lie within that buffer (which the function does not
    check), they are then the first bytes of the caller's array, and
    the bytes behind them are as before. *)
Theorem readMultipleBlock_copies_blocks :
  forall uid blockNo numBlock blockData blockSize w rc blockData' w',
    blockNo < numBlock ->
    blockNo + numBlock <= numBlock ->
    0 <= numBlock * blockSize <= Z.of_nat (length blockData) ->
    readMultipleBlock env hdr fuel uid blockNo numBlock blockData blockSize w
    = Some ((rc, blockData'), w') ->
    exists resultPtr,
      issueISO15693Command env hdr fuel
        ([0x22; 0x23] ++ cells uid 0 8 ++ [blockNo; uint8 (numBlock - 1)])
        12 w
      = Some ((rc, resultPtr), w') /\
      (rc <> ISO15693_EC_OK -> blockData' = blockData) /\
      (rc = ISO15693_EC_OK ->
       exists q,
         resultPtr = Some q /\
         ((Z.to_nat (numBlock * blockSize) < length (load q w'))%nat ->
          block_copied (Z.to_nat (numBlock * blockSize)) (load q w')
                       blockData blockData')).
Proof.
  intros uid blockNo numBlock blockData blockSize w rc blockData' w'
         G1 G2 Hs E.
  unfold readMultipleBlock in E.
  replace (blockNo >? numBlock - 1) with false in E
    by (symmetry; rewrite Z.gtb_ltb; apply Z.ltb_ge; lia).
  replace (blockNo + numBlock >? numBlock) with false in E
    by (symmetry; rewrite Z.gtb_ltb; apply Z.ltb_ge; lia).
  cbv zeta in E.
  change (copy_cells 8 uid 0
            [34; 35; 1; 2; 3; 4; 5; 6; 7; 8; blockNo; uint8 (numBlock - 1)] 2)
    with ([0x22; 0x23] ++ cells uid 0 8 ++ [blockNo; uint8 (numBlock - 1)])
    in E.
  apply (issue_then _ _ (fun rc => (rc, blockData))
           (fun result =>
              (ISO15693_EC_OK,
               copy_cells (Z.to_nat (numBlock * blockSize)) result 1
                          blockData 0)))
    in E.
  destruct E as (rc0 & p & E1 & [(Hrc & Ha)|(Hrc & q & Hp & Ha)]);
    injection Ha as -> ->.
  - exists p. split; [exact E1|].
    split; [reflexivity|]. intros G. contradiction.
  - exists p. subst rc0. split; [exact E1|].
    split; [intros G; contradiction G; reflexivity|].
    intros _. exists q. split; [exact Hp|]. intros _.
    apply copy_cells_block. lia.
Qed.

End Tags.

(** ** System information and the privacy commands *)

Lemma land_31 x : 0 <= Z.land x 31 <= 31.
Proof.
  change 31 with (Z.ones 5) at 1 2. rewrite Z.land_ones by lia.
  pose proof (Z.mod_pos_bound x (2 ^ 5) ltac:(lia)) as H.
  change (2 ^ 5) with 32 in *. lia.
Qed.

Lemma getSystemInfo_fields_spec readBuffer blockSize numBlocks :
  let flags := at_ readBuffer 1 in
  let r := getSystemInfo_fields readBuffer blockSize numBlocks in
  (Z.land flags 0x04 = 0 -> r = (blockSize, numBlocks)) /\
  (Z.land flags 0x04 <> 0 ->
   r = (Z.land (at_ readBuffer (S (memory_field flags))) 0x1f + 1,
        (at_ readBuffer (memory_field flags) + 1) mod 256) /\
   1 <= fst r <= 32 /\ 0 <= snd r <= 255).
Proof.
  cbv zeta. unfold getSystemInfo_fields, memory_field. cbv zeta.
  set (flags := at_ readBuffer 1).
  destruct (Z.land flags 4 =? 0) eqn:E4; cbn [negb].
  - apply Z.eqb_eq in E4. split; [reflexivity|]. intros G. contradiction.
  - split; [intros G; apply Z.eqb_neq in E4; contradiction|]. intros _.
    assert (Hidx : (if negb (Z.land flags 2 =? 0)
                    then S (if negb (Z.land flags 1 =? 0) then 11%nat
                            else 10%nat)
                    else if negb (Z.land flags 1 =? 0) then 11%nat
                         else 10%nat)
                   = Nat.add
                       (if Z.land flags 1 =? 0 then 10%nat else 11%nat)
                       (if Z.land flags 2 =? 0 then 0%nat else 1%nat))
      by (destruct (Z.land flags 1 =? 0), (Z.land flags 2 =? 0); reflexivity).
    rewrite Hidx.
    set (p := Nat.add (if Z.land flags 1 =? 0 then 10%nat else 11%nat)
                      (if Z.land flags 2 =? 0 then 0%nat else 1%nat)).
    pose proof (land_31 (at_ readBuffer (S p))) as Hb.
    assert (Hu : uint8 (Z.land (at_ readBuffer (S p)) 31 + 1)
                 = Z.land (at_ readBuffer (S p)) 31 + 1)
      by (apply uint8_small; lia).
    rewrite Hu. split; [reflexivity|]. cbn [fst snd].
    split; [lia|].
    pose proof (uint8_range (at_ readBuffer p + 1)) as Hr.
    unfold uint8 in *. lia.
Qed.

Section Information.

Variable env : Env.
Variable hdr : Header.
Variable fuel : nat.

(** X15.  [getSystemInfo] sends the 10-byte frame 22 2B, UID.  With a
    code other than OK nothing reaches the caller; with OK the UID is
    bytes 2 to 9 of the response buffer, and when the memory-size flag
    of the response is set, [*blockSize] is the low five bits of its
    field plus one, between 1 and 32, and [*numBlocks] is the block
    count byte plus one as a [uint8_t], so that a tag of 256 blocks
    reads as 0 blocks; without that flag both are left as they were.
    The field lies behind the DSFID and AFI bytes when those are
    flagged. *)
Theorem getSystemInfo_decodes :
  forall uid blockSize numBlocks w rc uid' blockSize' numBlocks' w',
    length uid = 8%nat ->
    getSystemInfo env hdr fuel uid blockSize numBlocks w
    = Some ((rc, (uid', blockSize', numBlocks')), w') ->
    exists resultPtr,
      issueISO15693Command env hdr fuel ([0x22; 0x2b] ++ cells uid 0 8) 10 w
      = Some ((rc, resultPtr), w') /\
      (rc <> ISO15693_EC_OK ->
       uid' = uid /\ blockSize' = blockSize /\ numBlocks' = numBlocks) /\
      (rc = ISO15693_EC_OK ->
       exists q,
         resultPtr = Some q /\
         uid' = cells (load q w') 2 8 /\
         (Z.land (at_ (load q w') 1) 0x04 = 0 ->
          blockSize' = blockSize /\ numBlocks' = numBlocks) /\
         (Z.land (at_ (load q w') 1) 0x04 <> 0 ->
          blockSize'
          = Z.land (at_ (load q w')
                        (S (memory_field (at_ (load q w') 1)))) 0x1f + 1 /\
          numBlocks'
          = (at_ (load q w') (memory_field (at_ (load q w') 1)) + 1) mod 256 /\
          1 <= blockSize' <= 32 /\ 0 <= numBlocks' <= 255)).
Proof.
  intros uid blockSize numBlocks w rc uid' blockSize' numBlocks' w' Hl E.
  unfold getSystemInfo in E. cbv zeta in E.
  change (copy_cells 8 uid 0 [34; 43; 1; 2; 3; 4; 5; 6; 7; 8] 2)
    with ([0x22; 0x2b] ++ cells uid 0 8) in E.
  apply bind_Some in E. destruct E as ([rc0 p] & w1 & E1 & E).
  destruct (issueISO15693Command_codes _ _ _ _ _ _ _ _ E1) as (_ & _ & Hok).
  cbn [fst snd] in Hok.
  destruct (rc0 =? ISO15693_EC_OK) eqn:Erc; cbn [negb] in E.
  - apply Z.eqb_eq in Erc. destruct (Hok Erc) as (Hp & _).
    destruct p as [q|]; [|contradiction].
    apply bind_Some in E. destruct E as (result & w2 & E2 & E).
    unfold deref in E2. injection E2 as <- <-.
    pose proof (getSystemInfo_fields_spec (load q w1) blockSize numBlocks)
      as Hf. cbv zeta in Hf.
    destruct (getSystemInfo_fields (load q w1) blockSize numBlocks)
      as [bs nb] eqn:Ef.
    unfold ret in E. injection E as <- <- <- <- <-.
    exists (Some q). split; [rewrite <- Erc; exact E1|].
    split; [intros G; contradiction|]. intros _.
    exists q. split; [reflexivity|]. split.
    { do 8 (destruct uid as [|? uid]; [discriminate Hl|]).
      destruct uid; [reflexivity|discriminate Hl]. }
    destruct Hf as [Hf0 Hf1]. split.
    + intros G. specialize (Hf0 G). injection Hf0 as -> ->.
      split; reflexivity.
    + intros G. destruct (Hf1 G) as (Hr & Hb & Hn).
      injection Hr as -> ->. cbn [fst snd] in Hb, Hn.
      repeat split; try reflexivity; lia.
  - apply Z.eqb_neq in Erc. unfold ret in E. injection E as <- <- <- <- <-.
    exists p. split; [exact E1|].
    split; [intros _; repeat split|]. intros G. contradiction.
Qed.

Lemma getRandomNumber_run randomData w rc randomData' w' :
  length randomData = 2%nat ->
  getRandomNumber env hdr fuel randomData w = Some ((rc, randomData'), w') ->
  exists resultPtr,
    issueISO15693Command env hdr fuel [0x02; 0xB2; 0x04] 3 w
    = Some ((rc, resultPtr), w') /\
    (rc <> ISO15693_EC_OK -> randomData' = randomData) /\
    (rc = ISO15693_EC_OK ->
     exists q,
       resultPtr = Some q /\
       randomData' = [at_ (load q w') 1; at_ (load q w') 2]).
Proof.
  intros Hl E.
  unfold getRandomNumber in E. cbv zeta in E.
  apply bind_Some in E. destruct E as ([rc0 p] & w1 & E1 & E).
  destruct (issueISO15693Command_codes _ _ _ _ _ _ _ _ E1) as (_ & _ & Hok).
  cbn [fst snd] in Hok.
  destruct (rc0 =? ISO15693_EC_OK) eqn:Erc.
  - apply Z.eqb_eq in Erc. destruct (Hok Erc) as (Hp & _).
    destruct p as [q|]; [|contradiction].
    apply bind_Some in E. destruct E as (result & w2 & E2 & E).
    unfold deref in E2. unfold ret in E.
    injection E2 as <- <-. injection E as <- <- <-.
    exists (Some q). split; [exact E1|].
    split; [intros G; contradiction|].
    intros _. exists q. split; [reflexivity|].
    do 2 (destruct randomData as [|? randomData]; [discriminate Hl|]).
    destruct randomData; [reflexivity|discriminate Hl].
  - apply Z.eqb_neq in Erc. unfold ret in E. injection E as <- <- <-.
    exists p. split; [exact E1|].
    split; [reflexivity|]. intros G. contradiction.
Qed.

(** X14.  [getRandomNumber] sends the request 02 B2 04; with a code
    other than OK the caller's two bytes are untouched, with OK they
    are bytes 1 and 2 of the response buffer. *)
Theorem getRandomNumber_bytes :
  forall randomData w rc randomData' w',
    length randomData = 2%nat ->
    getRandomNumber env hdr fuel randomData w
    = Some ((rc, randomData'), w') ->
    exists resultPtr,
      issueISO15693Command env hdr fuel [0x02; 0xB2; 0x04] 3 w
      = Some ((rc, resultPtr), w') /\
      (rc <> ISO15693_EC_OK -> randomData' = randomData) /\
      (rc = ISO15693_EC_OK ->
       exists q,
         resultPtr = Some q /\
         randomData' = [at_ (load q w') 1; at_ (load q w') 2]).
Proof.
  intros randomData w rc randomData' w' Hl E.
  exact (getRandomNumber_run randomData w rc randomData' w' Hl E).
Qed.

(** The run of a privacy-mode function whose second step sends
    [frame random] of [n] bytes. *)
Lemma privacy_run (frame : list Z -> list Z) (n : Z) w rc w' :
  ('(rc, data) <- getRandomNumber env hdr fuel [0x00; 0x00] ;;
   if negb (rc =? ISO15693_EC_OK) then ret rc else
   '(rc, _) <- issueISO15693Command env hdr fuel (frame data) n ;;
   ret rc) w = Some (rc, w') ->
  exists rc1 ptr1 w1,
    issueISO15693Command env hdr fuel [0x02; 0xB2; 0x04] 3 w
    = Some ((rc1, ptr1), w1) /\
    (rc1 <> ISO15693_EC_OK -> rc = rc1 /\ w' = w1) /\
    (rc1 = ISO15693_EC_OK ->
     exists q ptr2,
       ptr1 = Some q /\
       issueISO15693Command env hdr fuel
         (frame [at_ (load q w1) 1; at_ (load q w1) 2]) n w1
       = Some ((rc, ptr2), w')).
Proof.
  intros E. apply bind_Some in E. destruct E as ([rc1 data] & w1 & E1 & E).
  destruct (getRandomNumber_run [0; 0] w rc1 data w1 eq_refl E1)
    as (ptr1 & Hi & Hbad & Hok).
  exists rc1, ptr1, w1. split; [exact Hi|].
  destruct (rc1 =? ISO15693_EC_OK) eqn:Erc; cbn [negb] in E.
  - apply Z.eqb_eq in Erc. split; [intros G; contradiction|]. intros _.
    destruct (Hok Erc) as (q & Hq & Hd). subst data.
    apply bind_Some in E. destruct E as ([rc2 ptr2] & w2 & E2 & E).
    unfold ret in E. injection E as <- <-.
    exists q, ptr2. split; [exact Hq|exact E2].
  - apply Z.eqb_neq in Erc. unfold ret in E. injection E as <- <-.
    split; [intros _; split; reflexivity|]. intros G. contradiction.
Qed.

(** X16.  [disablePrivacyMode] and [enablePrivacyMode] first ask the
    tag for a random number.  If that command does not return OK its
    code is returned and nothing more happens: no password frame is
    built or sent.  Otherwise the one further command is SET PASSWORD
    (02 B3 04 04) respectively ENABLE PRIVACY (02 BA 04), carrying the
    password XORed with bytes 1 and 2 of the response just read, and
    its code is the result. *)
Theorem privacy_mode_masks_password :
  forall password w rc w',
    (disablePrivacyMode env hdr fuel password w = Some (rc, w') ->
     exists rc1 ptr1 w1,
       issueISO15693Command env hdr fuel [0x02; 0xB2; 0x04] 3 w
       = Some ((rc1, ptr1), w1) /\
       (rc1 <> ISO15693_EC_OK -> rc = rc1 /\ w' = w1) /\
       (rc1 = ISO15693_EC_OK ->
        exists q ptr2,
          ptr1 = Some q /\
          issueISO15693Command env hdr fuel
            ([0x02; 0xB3; 0x04; 0x04]
               ++ xor_password password
                    [at_ (load q w1) 1; at_ (load q w1) 2]) 8 w1
          = Some ((rc, ptr2), w'))) /\
    (enablePrivacyMode env hdr fuel password w = Some (rc, w') ->
     exists rc1 ptr1 w1,
       issueISO15693Command env hdr fuel [0x02; 0xB2; 0x04] 3 w
       = Some ((rc1, ptr1), w1) /\
       (rc1 <> ISO15693_EC_OK -> rc = rc1 /\ w' = w1) /\
       (rc1 = ISO15693_EC_OK ->
        exists q ptr2,
          ptr1 = Some q /\
          issueISO15693Command env hdr fuel
            ([0x02; 0xBA; 0x04]
               ++ xor_password password
                    [at_ (load q w1) 1; at_ (load q w1) 2]) 7 w1
          = Some ((rc, ptr2), w'))).
Proof.
  intros password w rc w'. split; intros E.
  - exact (privacy_run
             (fun data => [0x02; 0xB3; 0x04; 0x04] ++ xor_password password data)
             8 w rc w' E).
  - exact (privacy_run
             (fun data => [0x02; 0xBA; 0x04] ++ xor_password password data)
             7 w rc w' E).
Qed.

End Information.

(** ** Field setup and low power card detection *)

Lemma cmd_post_once frame w ok w' :
  cmd_post frame w ok w' ->
  exists ext, advances w w' ext /\ at_most_once frame (chron ext) /\
              (ok = true -> exists m, chron ext = [(frame, m)]).
Proof.
  intros (ext & A & _ & [(C & F)|(m & C)]); exists ext.
  - split; [exact A|]. split; [left; exact C|]. intros G. congruence.
  - split; [exact A|]. split; [right; exists m; exact C|].
    intros _. exists m. exact C.
Qed.

Section Setup.

Variable env : Env.
Variable hdr : Header.
Variable fuel : nat.

Lemma setRF_on_switched w :
  post (setRF_on env hdr fuel) w
       (fun ok w' => exists ext, advances w w' ext /\
          (ok = true ->
           field_switched hdr PN5180_RF_ON (TX_RFON_IRQ_STAT hdr) (chron ext))).
Proof.
  exact (switch_post env hdr fuel PN5180_RF_ON (TX_RFON_IRQ_STAT hdr)
           SETRF_ON_TIMEOUT w).
Qed.

(** Both [setupRF] up to the field being on; [k] is what follows. *)
Lemma setupRF_prefix tx rx (k : M bool) w
    (Q : list (list Z * list Z) -> Prop) :
  (forall w1, post k w1 (fun ok w' => exists ext, advances w1 w' ext /\
                                        (ok = true -> Q (chron ext)))) ->
  post (ok <- loadRFConfig env fuel tx rx ;;
        if negb ok then ret false else
        ok <- setRF_on env hdr fuel ;;
        if negb ok then ret false else k) w
       (fun ok w' => exists ext, advances w w' ext /\
          config_first tx rx (chron ext) /\
          (ok = true -> exists pre tail,
                          chron ext = pre ++ tail /\
                          rf_configured hdr tx rx pre /\ Q tail)).
Proof.
  intros Hk.
  wp_call loadRFConfig_post. intros ok1 w1 H1.
  apply cmd_post_once in H1. destruct H1 as (e1 & A1 & O1 & H1).
  destruct ok1; cbn [negb];
    [|apply post_ret; exists e1; split; [exact A1|];
      split; [|discriminate];
      destruct O1 as [C|(m & C)];
      [left; exact C|right; exists m, []; exact C]].
  destruct (H1 eq_refl) as (m & C1).
  wp_call setRF_on_switched. intros ok2 w2 (e2 & A2 & H2).
  destruct ok2; cbn [negb];
    [|apply post_ret; exists (e2 ++ e1); split; [adv_exact|];
      split; [|discriminate];
      right; exists m, (chron e2); rewrite chron_app, C1; reflexivity].
  specialize (H2 eq_refl).
  eapply post_conseq; [apply Hk|]. cbn beta.
  intros ok3 w3 (e3 & A3 & H3).
  exists (e3 ++ e2 ++ e1). split; [adv_exact|].
  rewrite !chron_app, C1. split.
  - right. exists m, (chron e2 ++ chron e3). reflexivity.
  - intros G. exists (([PN5180_LOAD_RF_CONFIG; tx; rx], m) :: chron e2),
                     (chron e3).
    split; [reflexivity|]. split; [|exact (H3 G)].
    exists m, (chron e2). split; [reflexivity|exact H2].
Qed.

(** X17.  Both [setupRF] functions send LOAD_RF_CONFIG (00 80 for
    ISO 14443, 0D 8D for ISO 15693) before anything else, and return
    [true] only after that command and a complete field switch-on
    ([setRF_on] saw TX_RFON and cleared it).  The ISO 14443 function
    sends nothing more.  The ISO 15693 function goes on to the two
    writes to SYSTEM_CONFIG, whose results it does not look at: each is
    sent at most once, and [true] is returned even if one was not. *)
Theorem setupRF_config_then_field :
  (forall w ok w',
      ISO14443_setupRF env hdr fuel w = Some (ok, w') ->
      exists ext, advances w w' ext /\
        config_first 0x00 0x80 (chron ext) /\
        (ok = true -> rf_configured hdr 0x00 0x80 (chron ext))) /\
  (forall w ok w',
      ISO15693_setupRF env hdr fuel w = Some (ok, w') ->
      exists ext, advances w w' ext /\
        config_first 0x0d 0x8d (chron ext) /\
        (ok = true ->
         exists pre a b,
           chron ext = pre ++ a ++ b /\
           rf_configured hdr 0x0d 0x8d pre /\
           at_most_once ([PN5180_WRITE_REGISTER_AND_MASK; SYSTEM_CONFIG hdr]
                           ++ le_bytes32 0xfffffff8) a /\
           at_most_once ([PN5180_WRITE_REGISTER_OR_MASK; SYSTEM_CONFIG hdr]
                           ++ le_bytes32 0x00000003) b)).
Proof.
  split; intros w ok w' E.
  - pattern ok, w'.
    refine ((_ : post (ISO14443_setupRF env hdr fuel) w _) ok w' E).
    unfold ISO14443_setupRF.
    eapply post_conseq;
      [apply (setupRF_prefix 0x00 0x80 (ret true) w (fun fs => fs = []))|].
    + intros w1. apply post_ret. exists []. split; [adv_exact|].
      intros _. reflexivity.
    + cbn beta. intros ok1 w1 (ext & A & F & H).
      exists ext. split; [exact A|]. split; [exact F|].
      intros G. destruct (H G) as (pre & tail & C & R & ->).
      rewrite C, app_nil_r. exact R.
  - pattern ok, w'.
    refine ((_ : post (ISO15693_setupRF env hdr fuel) w _) ok w' E).
    unfold ISO15693_setupRF.
    eapply post_conseq;
      [apply (setupRF_prefix 0x0d 0x8d _ w
                (fun fs => exists a b,
                     fs = a ++ b /\
                     at_most_once
                       ([PN5180_WRITE_REGISTER_AND_MASK; SYSTEM_CONFIG hdr]
                          ++ le_bytes32 0xfffffff8) a /\
                     at_most_once
                       ([PN5180_WRITE_REGISTER_OR_MASK; SYSTEM_CONFIG hdr]
                          ++ le_bytes32 0x00000003) b))|].
    + intros w1.
      wp_call writeRegisterWithAndMask_post. intros ok3 w3 H3.
      apply cmd_post_once in H3. destruct H3 as (e3 & A3 & O3 & _).
      wp_call writeRegisterWithOrMask_post. intros ok4 w4 H4.
      apply cmd_post_once in H4. destruct H4 as (e4 & A4 & O4 & _).
      apply post_ret. exists (e4 ++ e3). split; [adv_exact|].
      intros _. exists (chron e3), (chron e4).
      split; [apply chron_app|]. split; assumption.
    + cbn beta. intros ok1 w1 (ext & A & F & H).
      exists ext. split; [exact A|]. split; [exact F|].
      intros G. destruct (H G) as (pre & tail & C & R & a & b & -> & Ha & Hb).
      exists pre, a, b. repeat split; assumption.
Qed.

Lemma writeEEprom_once addr buffer len w :
  post (writeEEprom env fuel addr buffer len) w
       (cmd_post ([PN5180_WRITE_EEPROM; addr]
                    ++ cells buffer 0 (Z.to_nat len)) w).
Proof. apply write_only_post. Qed.

Lemma prepareLPCD_step_post addr v data response w :
  data <> [] ->
  (addr >? 254) || (addr + 1 >? 254) = false ->
  post (prepareLPCD_step env fuel addr v data response) w
       (fun r w' => fst r <> [] /\
                    exists ext, advances w w' ext /\
                                eeprom_step addr v (chron ext)).
Proof.
  intros Hd Hg. destruct data as [|d0 data]; [contradiction|].
  unfold prepareLPCD_step. cbv zeta.
  wp_call writeEEprom_once. intros ok1 w1 H1.
  apply cmd_post_once in H1. destruct H1 as (e1 & A1 & O1 & _).
  unfold readEEprom. rewrite Hg.
  apply post_bind. apply post_bind.
  eapply post_conseq; [apply transceiveCommand_post|].
  intros [ok2 buf] w2 (e2 & A2 & _ & _ & S2). cbn [fst snd] in S2.
  assert (Hs : eeprom_step addr v (chron (e2 ++ e1))).
  { exists (chron e1), (chron e2). split; [apply chron_app|].
    split; [exact O1|].
    destruct S2 as [(C & _)|[(m & C & _)|(b & m1 & m2 & _ & _ & C & _)]].
    - left. left. exact C.
    - left. right. exists m. exact C.
    - right. exists m1, m2. exact C. }
  destruct ok2; cbn [negb]; apply post_ret; apply post_ret; cbn [fst];
    (split; [discriminate|]);
    exists (e2 ++ e1); (split; [adv_exact|exact Hs]).
Qed.

(** X18.  [prepareLPCD] always returns [true]: it looks at none of the
    results of its ten EEPROM calls.  What it sends is, for the
    addresses 0x36, 0x37, 0x38, 0x39, 0x3A in this order, the write of
    the value F0, 03, 01, F0, F0 and the read of one byte, where any of
    them may be missing or cut short after a timeout; nothing else is
    sent and the driver's memory is left alone. *)
Theorem prepareLPCD_always_true :
  forall w ok w',
    prepareLPCD env fuel w = Some (ok, w') ->
    ok = true /\
    exists ext f1 f2 f3 f4 f5,
      advances w w' ext /\
      chron ext = f1 ++ f2 ++ f3 ++ f4 ++ f5 /\
      eeprom_step 0x36 0xF0 f1 /\ eeprom_step 0x37 0x03 f2 /\
      eeprom_step 0x38 0x01 f3 /\ eeprom_step 0x39 0xF0 f4 /\
      eeprom_step 0x3A 0xF0 f5.
Proof.
  intros w ok w' E.
  pattern ok, w'.
  refine ((_ : post (prepareLPCD env fuel) w _) ok w' E).
  unfold prepareLPCD.
  apply post_bind, post_indeterminate. intros data Ld.
  apply post_bind, post_indeterminate. intros response _.
  assert (Hd : data <> []) by (intros ->; discriminate Ld).
  apply post_bind. eapply post_conseq;
    [apply prepareLPCD_step_post; [exact Hd|reflexivity]|].
  intros [data1 r1] w1 (D1 & e1 & A1 & S1). cbn [fst] in D1.
  apply post_bind. eapply post_conseq;
    [apply prepareLPCD_step_post; [exact D1|reflexivity]|].
  intros [data2 r2] w2 (D2 & e2 & A2 & S2). cbn [fst] in D2.
  apply post_bind. eapply post_conseq;
    [apply prepareLPCD_step_post; [exact D2|reflexivity]|].
  intros [data3 r3] w3 (D3 & e3 & A3 & S3). cbn [fst] in D3.
  apply post_bind. eapply post_conseq;
    [apply prepareLPCD_step_post; [exact D3|reflexivity]|].
  intros [data4 r4] w4 (D4 & e4 & A4 & S4). cbn [fst] in D4.
  apply post_bind. eapply post_conseq;
    [apply prepareLPCD_step_post; [exact D4|reflexivity]|].
  intros [data5 r5] w5 (D5 & e5 & A5 & S5).
  unfold delay. repeat wp_prim.
  split; [reflexivity|].
  exists (EvDelay 100 :: e5 ++ e4 ++ e3 ++ e2 ++ e1),
         (chron e1), (chron e2), (chron e3), (chron e4), (chron e5).
  split; [adv_exact|].
  split; [|repeat split; assumption].
  rewrite chron_cons, !chron_app by reflexivity.
  rewrite <- !app_assoc. reflexivity.
Qed.

End Setup.

Section LowPower.

Variable env : Env.
Variable hdr : Header.
Variable fuel : nat.
Variable IRQ_ENABLE : Z.
Variable LPCD_IRQ_STAT : Z.
Variable GENERAL_ERROR_IRQ_STAT : Z.

(** X19.  [switchToLPCD] with a 16-bit wake-up counter returns [true]
    only if the SWITCH_MODE frame went out, as the last transfer, with
    mode 1 and the counter in little-endian order (low byte, then high
    byte).  Before it the function clears all interrupt flags and
    writes the LPCD and general-error mask to IRQ_ENABLE, but does not
    look at the results: each of the two writes is sent at most once,
    and the mode switch is attempted, and may succeed, even if neither
    was. *)
Theorem switchToLPCD_frame :
  forall wakeupCounterInMs w ok w',
    0 <= wakeupCounterInMs < 65536 ->
    switchToLPCD env hdr fuel IRQ_ENABLE LPCD_IRQ_STAT GENERAL_ERROR_IRQ_STAT
      wakeupCounterInMs w = Some (ok, w') ->
    exists ext a b c,
      advances w w' ext /\
      chron ext = a ++ b ++ c /\
      at_most_once ([PN5180_WRITE_REGISTER; IRQ_CLEAR hdr]
                      ++ le_bytes32 0xffffffff) a /\
      at_most_once ([PN5180_WRITE_REGISTER; IRQ_ENABLE]
                      ++ le_bytes32 (Z.lor LPCD_IRQ_STAT
                                           GENERAL_ERROR_IRQ_STAT)) b /\
      at_most_once [PN5180_SWITCH_MODE; 0x01;
                    wakeupCounterInMs mod 256; wakeupCounterInMs / 256] c /\
      (ok = true -> c <> []).
Proof.
  intros c0 w ok w' Hc E.
  assert (Hlo : uint8 (Z.land c0 0xFF) = c0 mod 256).
  { rewrite land_255. apply uint8_small.
    apply Z.mod_pos_bound. lia. }
  assert (Hhi : uint8 (Z.land (Z.shiftr c0 8) 0xFF) = c0 / 256).
  { rewrite land_255, Z.shiftr_div_pow2 by lia.
    change (2 ^ 8) with 256.
    assert (0 <= c0 / 256 < 256)
      by (split; [apply Z.div_pos; lia
                 |apply Z.div_lt_upper_bound; lia]).
    rewrite Z.mod_small by lia. apply uint8_small. lia. }
  pattern ok, w'.
  refine ((_ : post (switchToLPCD env hdr fuel IRQ_ENABLE LPCD_IRQ_STAT
                       GENERAL_ERROR_IRQ_STAT c0) w _) ok w' E).
  unfold switchToLPCD. cbv zeta. rewrite Hlo, Hhi.
  wp_call clearIRQStatus_post. intros ok1 w1 H1.
  apply cmd_post_once in H1. destruct H1 as (e1 & A1 & O1 & _).
  wp_call writeRegister_post. intros ok2 w2 H2.
  apply cmd_post_once in H2. destruct H2 as (e2 & A2 & O2 & _).
  apply post_bind. eapply post_conseq; [apply transceiveCommand_post|].
  intros [ok3 buf] w3 (e3 & A3 & _ & _ & S3). cbn [fst snd] in S3.
  apply post_ret.
  exists (e3 ++ e2 ++ e1), (chron e1), (chron e2), (chron e3).
  split; [adv_exact|].
  split; [rewrite !chron_app, <- app_assoc; reflexivity|].
  split; [exact O1|]. split; [exact O2|].
  destruct S3 as [(C & F & _)|[(m & C & _)|(b & m1 & m2 & F & _)]].
  - split; [left; exact C|]. intros G. congruence.
  - split; [right; exists m; exact C|]. intros _. rewrite C. discriminate.
  - discriminate F.
Qed.

End LowPower.

(** ** Reading into a caller's buffer *)

Section ReadInto.

Variable env : Env.
Variable fuel : nat.

(** X21.  [readData(len, buffer)] refuses a negative length and one
    above 508 with [false] and without touching the bus or the buffer.
    It returns [true], or changes the buffer, only after the READ_DATA
    command and, for a non-zero length, the read of [len] bytes, which
    are then the first [len] bytes of the buffer while the rest is as
    before. *)
Theorem readData_into_range_check :
  forall len buffer w,
    (len < 0 \/ 508 < len ->
     readData_into env fuel len buffer w = Some ((false, buffer), w)) /\
    (forall r w',
        readData_into env fuel len buffer w = Some (r, w') ->
        exists ext m0,
          advances w w' ext /\
          (fst r = true \/ snd r <> buffer ->
           chron ext
           = ([PN5180_READ_DATA; 0x00], m0)
             :: (if len =? 0 then []
                 else [(repeat 0xFF (Z.to_nat len),
                        firstn (Z.to_nat len) (snd r))]) /\
           skipn (Z.to_nat len) (snd r) = skipn (Z.to_nat len) buffer)).
Proof.
  intros len buffer w. split.
  - intros Hl. unfold readData_into.
    replace ((len <? 0) || (len >? 508)) with true; [reflexivity|].
    symmetry. apply orb_true_iff. rewrite Z.gtb_ltb, !Z.ltb_lt. exact Hl.
  - intros r w' E.
    destruct (readData_into_full env fuel len buffer w r w' E)
      as (ext & A & H).
    destruct H as [(C & ->)|[(m0 & C & Hb & Hz)|(m0 & m & C & Lm & Hn & Hb)]].
    + exists ext, []. split; [exact A|]. cbn [fst snd].
      intros [F|F]; [discriminate F|contradiction F; reflexivity].
    + exists ext, m0. split; [exact A|]. rewrite Hb.
      intros [F|F]; [|contradiction F; reflexivity].
      rewrite (Hz F). split; [exact C|reflexivity].
    + exists ext, m0. split; [exact A|]. intros _.
      apply Z.eqb_neq in Hn. rewrite Hn, Hb, C.
      assert (Hf : firstn (Z.to_nat len) (m ++ skipn (Z.to_nat len) buffer)
                   = m).
      { rewrite <- Lm. rewrite firstn_app, Nat.sub_diag, firstn_all.
        cbn [firstn]. apply app_nil_r. }
      rewrite Hf. split; [reflexivity|].
      rewrite <- Lm at 1. rewrite skipn_app, Nat.sub_diag, skipn_all.
      reflexivity.
Qed.

End ReadInto.

(** ** The response behind an inventory *)

Lemma device_response_skip pre l :
  reads pre = 0%nat -> device_response (pre ++ l) = device_response l.
Proof.
  induction pre as [|[c m] pre IH]; intros H; [reflexivity|].
  unfold reads in H. cbn [filter fst] in H. cbn [app device_response].
  destruct (is_read_data c); [discriminate H|]. apply IH. exact H.
Qed.

Lemma forallb_repeat_FF n : forallb (Z.eqb 0xFF) (repeat 0xFF n) = true.
Proof. induction n as [|n IH]; [reflexivity|exact IH]. Qed.

Lemma firstn_length_firstn {A : Type} n (l : list A) :
  firstn (length (firstn n l)) l = firstn n l.
Proof.
  rewrite length_firstn. destruct (Nat.le_ge_cases n (length l)) as [H|H].
  - rewrite Nat.min_l by exact H. reflexivity.
  - rewrite Nat.min_r by exact H.
    rewrite firstn_all, firstn_all2 by exact H. reflexivity.
Qed.

Lemma at_firstn n : forall l i, (i < n)%nat -> at_ (firstn n l) i = at_ l i.
Proof.
  unfold at_. induction n as [|n IH]; intros l i Hi; [lia|].
  destruct l as [|x l]; [reflexivity|].
  destruct i as [|i]; [reflexivity|]. cbn [firstn nth]. apply IH. lia.
Qed.

Lemma cells_firstn n l off k :
  (off + k <= n)%nat -> cells (firstn n l) off k = cells l off k.
Proof.
  intros H. unfold cells. apply map_ext_in. intros i Hi.
  apply in_seq in Hi. apply at_firstn. lia.
Qed.

Section Response.

Variable env : Env.
Variable hdr : Header.
Variable fuel : nat.

(** What [getIRQStatus] sends starts with its READ_REGISTER command. *)
Lemma getIRQStatus_head w :
  post (getIRQStatus env hdr fuel) w
       (fun _ w' =>
          exists ext, advances w w' ext /\
            (chron ext = [] \/
             exists m rest,
               chron ext
               = ([PN5180_READ_REGISTER; IRQ_STATUS hdr], m) :: rest)).
Proof.
  unfold getIRQStatus, indeterminate32. repeat wp_prim.
  wp_call readRegister_post. intros [ok v] w1 (ext & A & _ & H).
  assert (G : exists ext, advances w w1 ext /\
                (chron ext = [] \/
                 exists m rest,
                   chron ext
                   = ([PN5180_READ_REGISTER; IRQ_STATUS hdr], m) :: rest)).
  { exists ext. split; [exact A|].
    destruct H as [(C & _)|[(m & C & _)|(m1 & m2 & C & _)]].
    - left. exact C.
    - right. exists m, []. exact C.
    - right. exists m1, [(repeat 0xFF 4, m2)]. exact C. }
  destruct ok; cbn [negb]; apply post_ret; exact G.
Qed.

(** Nothing that follows the READ_DATA command of a zero-length read
    counts as a response. *)
Lemma no_response m0 a b :
  (a = [] \/ exists m rest,
               a = ([PN5180_READ_REGISTER; IRQ_STATUS hdr], m) :: rest) ->
  (b = [] \/ exists frame m,
               b = [([PN5180_WRITE_REGISTER; IRQ_CLEAR hdr] ++ frame, m)]) ->
  device_response (([PN5180_READ_DATA; 0x00], m0) :: a ++ b) = [].
Proof.
  intros [->|(m & rest & ->)] [->|(frame & m' & ->)]; reflexivity.
Qed.

(** When [issueISO15693Command] returns OK, the response of the device
    that the transfers of the call show is what the first bytes of the
    buffer behind the result pointer hold. *)
Lemma issueISO15693Command_response cmd cmdLen w :
  post (issueISO15693Command env hdr fuel cmd cmdLen) w
       (fun r w' =>
          fst r = ISO15693_EC_OK ->
          exists q ext,
            snd r = Some q /\ extends w w' ext /\
            device_response (chron ext)
            = firstn (length (device_response (chron ext))) (load q w')).
Proof.
  unfold issueISO15693Command.
  wp_call sendData_quiet. intros ok w1 Q1.
  unfold delay. apply post_bind, post_log.
  wp_call getIRQStatus_quiet. intros irqR w2 Q2.
  destruct (Z.land irqR (RX_SOF_DET_IRQ_STAT hdr) =? 0);
    [apply post_ret; no_code|].
  apply post_bind, post_millis. intros t.
  wp_call waitRxIrq_quiet. intros seen w3 Q3.
  destruct seen; cbn [negb]; [|apply post_ret; no_code].
  unfold indeterminate32. repeat wp_prim.
  wp_call readRegister_quiet. intros [ok4 rxStatus] w4 Q4.
  destruct ok4; cbn [negb]; [|apply post_ret; no_code].
  assert (QB : quiet w w4) by quiet_build.
  destruct QB as (eB & AB & RB). clear Q1 Q2 Q3 Q4.
  set (len := uint16 (Z.land rxStatus 511)).
  wp_call readData_post_holds. intros [q|] w5 Hrd;
    [|apply post_ret; no_code].
  destruct Hrd as (e5 & Hh5 & Ht5 & _ & _ & _ & Hp).
  destruct (Hp q eq_refl) as (m0 & Hshape). clear Hp.
  assert (X5 : extends w w5 (e5 ++ eB)).
  { eapply extends_trans; [apply advances_extends; exact AB|].
    split; assumption. }
  wp_call getIRQStatus_head. intros irqStatus w6 (e6 & A6 & H6).
  assert (Hresp : forall e7 w',
            advances w6 w' e7 ->
            (chron e7 = [] \/
             exists frame m,
               chron e7
               = [([PN5180_WRITE_REGISTER; IRQ_CLEAR hdr] ++ frame, m)]) ->
            exists q0 ext,
              Some q = Some q0 /\ extends w w' ext /\
              device_response (chron ext)
              = firstn (length (device_response (chron ext))) (load q0 w')).
  { intros e7 w' A7 H7. exists q, (e7 ++ e6 ++ e5 ++ eB).
    split; [reflexivity|]. split.
    { eapply extends_trans; [|apply advances_extends; exact A7].
      eapply extends_trans; [exact X5|apply advances_extends; exact A6]. }
    rewrite !chron_app, <- !app_assoc.
    rewrite (device_response_skip (chron eB)) by exact RB.
    rewrite (advances_load _ _ _ q A7), (advances_load _ _ _ q A6).
    destruct Hshape as [(_ & C5)|(Hn & m & C5 & _ & Hm)]; rewrite C5.
    - cbn [app]. rewrite (no_response m0 _ _ H6 H7). reflexivity.
    - cbn [app device_response is_read_data].
      change (PN5180_READ_DATA =? PN5180_READ_DATA) with true. cbv iota.
      rewrite forallb_repeat_FF, <- Hm. symmetry.
      apply firstn_length_firstn. }
  destruct (Z.land (RX_SOF_DET_IRQ_STAT hdr) irqStatus =? 0).
  { apply post_bind. intros ? ? _. apply post_ret. no_code. }
  apply post_bind, post_deref.
  destruct (negb (Z.land (at_ (load q w6) 0) (Z.shiftl 1 0) =? 0)).
  - destruct (at_ (load q w6) 1 >=? 160); apply post_ret; [no_code|].
    intros _. cbn [snd].
    apply (Hresp [] w6); [apply advances_refl|left; reflexivity].
  - wp_call clearIRQStatus_post. intros ok7 w7 (e7 & A7 & _ & H7).
    apply post_ret. intros _. cbn [snd].
    apply (Hresp e7 w7 A7).
    destruct H7 as [(C & _)|(m & C)]; [left; exact C|].
    right. eexists. exists m. exact C.
Qed.

(** C10.  [getInventory] clears the caller's eight [uid] bytes before
    the inventory request goes out: the run is that of
    [issueISO15693Command] on the request 01 26 00, and every return
    with a code other than OK leaves the eight bytes zero.  A return
    with OK leaves in them bytes 2..9 of the buffer the response was
    read into.  The bytes of the response read in this call (after the
    READ_DATA command) are the first bytes of that buffer, so the
    [uid] bytes are bytes 2..9 of the response of the device whenever
    that response has at least 10 bytes. *)
Theorem getInventory_uid_buffer :
  forall uid w,
    length uid = 8%nat ->
    getInventory env hdr fuel uid w
    = getInventory env hdr fuel (repeat 0 8) w /\
    forall rc uid' w',
      getInventory env hdr fuel uid w = Some ((rc, uid'), w') ->
      exists resultPtr,
        issueISO15693Command env hdr fuel [0x01; 0x26; 0x00] 3 w
        = Some ((rc, resultPtr), w') /\
        (rc <> ISO15693_EC_OK -> uid' = repeat 0 8) /\
        (rc = ISO15693_EC_OK ->
         exists q ext,
           resultPtr = Some q /\
           extends w w' ext /\
           uid' = cells (load q w') 2 8 /\
           device_response (chron ext)
           = firstn (length (device_response (chron ext))) (load q w') /\
           ((10 <= length (device_response (chron ext)))%nat ->
            uid' = cells (device_response (chron ext)) 2 8)).
Proof.
  intros uid w Hlen.
  assert (Hz : copy_cells 8 (repeat 0 8) 0 uid 0 = repeat 0 8).
  { do 8 (destruct uid as [|? uid]; [discriminate Hlen|]).
    destruct uid; [reflexivity|discriminate Hlen]. }
  unfold getInventory. cbv zeta. rewrite Hz.
  split; [reflexivity|].
  intros rc uid' w' E.
  apply bind_Some in E. destruct E as ([rc0 p] & w1 & E1 & E).
  pose proof (issueISO15693Command_response _ _ _ _ _ E1) as Hp.
  cbn [fst snd] in Hp.
  change (Z.lor (Z.lor ISO15693_REQ_FLAG_NBSLOTS ISO15693_REQ_FLAG_INVENTORY)
                ISO15693_REQ_FLAG_DATARATE) with 0x26 in *.
  change ISO15693_CMD_INVENTORY with 0x01 in *.
  destruct (rc0 =? ISO15693_EC_OK) eqn:Erc; cbn [negb] in E.
  - apply Z.eqb_eq in Erc. subst rc0.
    apply bind_Some in E. destruct E as (result & w2 & E2 & E).
    unfold deref in E2. unfold ret in E.
    inversion E2; subst result w2. inversion E; subst rc uid' w'. clear E E2.
    exists p. split; [exact E1|].
    split; [intros H; contradiction H; reflexivity|].
    intros _. destruct (Hp eq_refl) as (q & ext & -> & X & Hr).
    exists q, ext. split; [reflexivity|]. split; [exact X|].
    split; [reflexivity|]. split; [exact Hr|].
    intros H10. rewrite Hr at 1. symmetry. apply cells_firstn. lia.
  - unfold ret in E. inversion E; subst rc0 uid' w1. clear E.
    exists p. split; [exact E1|]. apply Z.eqb_neq in Erc.
    split; [intros _; reflexivity|]. intros H. contradiction.
Qed.

End Response.

(** ** Type-A activation: how the UID is assembled *)


Section Assembly.

Variable env : Env.
Variable hdr : Header.
Variable fuel : nat.
















End Assembly.

(** ** Concrete runs *)

Lemma transceiveCommand_timeout_aborts_witness :
  (exists w1,
      awaitBusy stuck_device 10 LOW
                (emit EvBeginTransaction (initial_world 5))
      = Some (false, w1) /\
      transceiveCommand stuck_device 10 [PN5180_RF_ON; 0] None 0
                        (initial_world 5)
      = Some ((false, None), tc_aborted w1) /\
      transfers (tc_aborted w1) = []) /\
  (exists w1 w2,
      tc_wait0 unresponsive_device 10 (initial_world 5) = Some (true, w1) /\
      tc_wait3 unresponsive_device 10 [PN5180_RF_ON; 0] w1
      = Some (false, w2) /\
      transceiveCommand unresponsive_device 10 [PN5180_RF_ON; 0] None 0
                        (initial_world 5)
      = Some ((false, None), tc_aborted w2) /\
      nss_level (history (tc_aborted w2)) = HIGH /\
      transfers (tc_aborted w2) = [([PN5180_RF_ON; 0], [0xFF; 0xFF])]).
Proof.
  split.
  - destruct (proj1 (proj2 (transceiveCommand_timeout_aborts
                              stuck_device 10 [PN5180_RF_ON; 0] None 0
                              (initial_world 5)))
                LOW (emit EvBeginTransaction (initial_world 5)))
      as (w1 & E).
    + intros h. discriminate.
    + intros e h. cbn [stuck_device env_millis length]. lia.
    + cbn [commandTimeout emit initial_world]. lia.
    + cbn [commandTimeout emit initial_world]. lia.
    + cbn [commandTimeout emit initial_world]. lia.
    + exists w1. split; [exact E|].
      assert (R : transceiveCommand stuck_device 10 [PN5180_RF_ON; 0] None 0
                    (initial_world 5)
                  = Some ((false, None), tc_aborted w1)).
      { apply (proj1 (proj2 (proj2 (proj2 (transceiveCommand_timeout_aborts
                 stuck_device 10 [PN5180_RF_ON; 0] None 0
                 (initial_world 5)))))).
        exact E. }
      split; [exact R|].
      assert (T : option_map (fun x => transfers (snd x))
                    (transceiveCommand stuck_device 10 [PN5180_RF_ON; 0]
                       None 0 (initial_world 5)) = Some [])
        by (vm_compute; reflexivity).
      rewrite R in T. cbn [option_map snd] in T. injection T as T. exact T.
  - do 2 eexists. split; [vm_compute; reflexivity|].
    split; [vm_compute; reflexivity|].
    split; [|split; reflexivity].
    eapply (proj1 (proj2 (proj2 (proj2 (proj2
              (transceiveCommand_timeout_aborts
                 unresponsive_device 10 [PN5180_RF_ON; 0] None 0
                 (initial_world 5)))))));
      [vm_compute; reflexivity|vm_compute; reflexivity].
Defined.

Lemma sendData_checks_WaitTransmit_witness :
  exists w' ext,
    sendData (device (ready_regs 5) card7) datasheet 3 [0x26] 1 7
             (initial_world 500) = Some (true, w') /\
    advances (initial_world 500) w' ext /\
    map fst (chron ext) = sendData_frames datasheet [0x26] 1 7.
Proof.
  destruct (sendData (device (ready_regs 5) card7) datasheet 3 [0x26] 1 7
                     (initial_world 500)) as [[ok w']|] eqn:E;
    [|vm_compute in E; discriminate E].
  assert (Hok : ok = true)
    by (pose proof E as E'; vm_compute in E'; inversion E'; reflexivity).
  subst ok.
  destruct (sendData_checks_WaitTransmit _ _ _ _ _ _ _ _ _ E)
    as (ext & Hadv & (k & ms & Hl & _ & Hc & Hk & _) & _).
  exists w', ext. split; [reflexivity|]. split; [exact Hadv|].
  rewrite Hc, (Hk eq_refl). rewrite (Hk eq_refl) in Hl.
  do 5 (destruct ms as [|? ms]; [discriminate Hl|]).
  destruct ms; [|discriminate Hl]. reflexivity.
Defined.

Lemma readEEprom_range_check_witness :
  readEEprom stuck_device 3 250 [] 5 (initial_world 500)
  = Some ((false, []), initial_world 500).
Proof.
  apply (proj1 (readEEprom_range_check stuck_device 3 250 [] 5
                  (initial_world 500))).
  right. reflexivity.
Defined.


Lemma mifareAuthenticate_keyType_check_witness :
  mifareAuthenticate stuck_device 3 4 [1; 2; 3; 4; 5; 6] 0x62 [1; 2; 3; 4]
                     (initial_world 500)
  = Some (-2, initial_world 500).
Proof.
  apply (proj1 (mifareAuthenticate_keyType_check stuck_device 3 4
                  [1; 2; 3; 4; 5; 6] 0x62 [1; 2; 3; 4] (initial_world 500))).
  split; discriminate.
Defined.


Lemma readCardSerial_validity_witness :
  exists w' response,
    readCardSerial (device (ready_regs 5) card7) datasheet 3 (repeat 0 8)
                   (initial_world 500)
    = Some ((7, [0x11; 0x22; 0x33; 0x44; 0x55; 0x66; 0x77; 0]), w') /\
    activateTypeA (device (ready_regs 5) card7) datasheet 3 (repeat 0 10) 0
                  (initial_world 500)
    = Some ((7, response), w') /\
    cells response 3 7 = [0x11; 0x22; 0x33; 0x44; 0x55; 0x66; 0x77].
Proof.
  destruct (readCardSerial (device (ready_regs 5) card7) datasheet 3
              (repeat 0 8) (initial_world 500)) as [[[r b] w']|] eqn:E;
    [|vm_compute in E; discriminate E].
  assert (Hrb : r = 7 /\ b = [0x11; 0x22; 0x33; 0x44; 0x55; 0x66; 0x77; 0]).
  { pose proof E as E'. vm_compute in E'. injection E' as H1 H2 H3.
    split; symmetry; assumption. }
  destruct Hrb as [-> ->].
  destruct (readCardSerial_validity _ _ _ _ _ _ _ _ E)
    as (u & resp & Ha & _ & _ & Hpos).
  destruct (Hpos ltac:(lia)) as (Hu & _ & Hc).
  exists w', resp. split; [reflexivity|].
  rewrite <- Hu in Ha. split; [exact Ha|].
  symmetry. apply Hc. cbn. lia.
Defined.

(** Two runs of [readCardSerial].  A card whose ATQA is FF FF is
    accepted: the ATQA read after REQA is FF FF, and the call returns 4
    with the UID.  And a failure of the exchange with the card is not
    always reported as a negative value: when the device stops reacting
    after the REQA frame, no answer is read and the call returns 0. *)
Lemma readCardSerial_ATQA_unchecked_and_zero_on_failure :
  (exists w',
      readCardSerial (device (ready_regs 5) card4_atqa_ffff) datasheet 3
                     (repeat 0 8) (initial_world 500)
      = Some ((4, [0x04; 0x12; 0x34; 0x56; 0; 0; 0; 0]), w') /\
      firstn 3 (skipn 17 (transfers w'))
      = [([PN5180_SEND_DATA; 0x07; 0x26], [0xFF; 0xFF; 0xFF]);
         ([PN5180_READ_DATA; 0x00], [0xFF; 0xFF]);
         (repeat 0xFF 2, [0xFF; 0xFF])]) /\
  (exists w',
      readCardSerial silent_after_reqa datasheet 10 (repeat 0xAA 8)
                     (initial_world 5)
      = Some ((0, repeat 0xAA 8), w') /\
      last (transfers w') ([], [])
      = ([PN5180_SEND_DATA; 0x07; 0x26], [0xFF; 0xFF; 0xFF]) /\
      reads (transfers w') = 0%nat).
Proof.
  split.
  - eexists. split; [vm_compute; reflexivity|]. vm_compute. reflexivity.
  - eexists. split; [vm_compute; reflexivity|].
    split; vm_compute; reflexivity.
Qed.

Lemma getInventory_uid_buffer_witness :
  length (repeat 0xAA 8) = 8%nat /\
  exists w',
    getInventory (device (ready_regs 10) tag15693) datasheet 3 (repeat 0xAA 8)
                 (initial_world 500)
    = Some ((ISO15693_EC_OK, [0x11; 0x22; 0x33; 0x44; 0x55; 0x66; 0x04; 0xE0]),
            w') /\
    device_response (transfers w')
    = [0x00; 0x00; 0x11; 0x22; 0x33; 0x44; 0x55; 0x66; 0x04; 0xE0] /\
    [0x11; 0x22; 0x33; 0x44; 0x55; 0x66; 0x04; 0xE0]
    = cells (device_response (transfers w')) 2 8.
Proof.
  split; [reflexivity|].
  destruct (getInventory (device (ready_regs 10) tag15693) datasheet 3
              (repeat 0xAA 8) (initial_world 500))
    as [[[rc uid'] w']|] eqn:E; [|vm_compute in E; discriminate E].
  assert (Hr : option_map
                 (fun x => (fst x, device_response (transfers (snd x))))
                 (getInventory (device (ready_regs 10) tag15693) datasheet 3
                    (repeat 0xAA 8) (initial_world 500))
               = Some ((ISO15693_EC_OK,
                        [0x11; 0x22; 0x33; 0x44; 0x55; 0x66; 0x04; 0xE0]),
                       [0x00; 0x00; 0x11; 0x22; 0x33; 0x44; 0x55; 0x66; 0x04;
                        0xE0]))
    by (vm_compute; reflexivity).
  rewrite E in Hr. cbn [option_map fst snd] in Hr.
  injection Hr as -> -> Hd.
  destruct (proj2 (getInventory_uid_buffer
                     (device (ready_regs 10) tag15693) datasheet 3
                     (repeat 0xAA 8) (initial_world 500) eq_refl) _ _ _ E)
    as (p & _ & _ & Hok).
  destruct (Hok eq_refl) as (q & ext & _ & [Hh _] & _ & _ & H10).
  cbn [history initial_world] in Hh. rewrite app_nil_r in Hh. subst ext.
  change (chron (history w')) with (transfers w') in H10.
  exists w'. split; [reflexivity|]. split; [exact Hd|].
  apply H10. rewrite Hd. cbn [length]. lia.
Defined.

(** Two inventories in a row.  The second, after the tag has left,
    reads no response byte, returns OK, and hands out the UID of the
    first call. *)
Lemma getInventory_stale_uid :
  exists w1 w2,
    getInventory departing_tag datasheet 3 (repeat 0xAA 8) (initial_world 500)
    = Some ((ISO15693_EC_OK, [0x11; 0x22; 0x33; 0x44; 0x55; 0x66; 0x04; 0xE0]),
            w1) /\
    getInventory departing_tag datasheet 3 (repeat 0xAA 8) w1
    = Some ((ISO15693_EC_OK, [0x11; 0x22; 0x33; 0x44; 0x55; 0x66; 0x04; 0xE0]),
            w2) /\
    device_response (skipn (length (transfers w1)) (transfers w2)) = [] /\
    reads (skipn (length (transfers w1)) (transfers w2)) = 1%nat.
Proof.
  do 2 eexists.
  split; [vm_compute; reflexivity|].
  split; [vm_compute; reflexivity|].
  split; vm_compute; reflexivity.
Qed.

Lemma readMultipleBlock_range_tests_witness :
  exists blockData' w' resultPtr e,
    readMultipleBlock (device (ready_regs 17) tag15693) datasheet 3
      [0x11; 0x22; 0x33; 0x44; 0x55; 0x66; 0x04; 0xE0] 0 4 (repeat 0 16) 4
      (initial_world 500)
    = Some ((ISO15693_EC_OK, blockData'), w') /\
    issueISO15693Command (device (ready_regs 17) tag15693) datasheet 3
      [0x22; 0x23; 0x11; 0x22; 0x33; 0x44; 0x55; 0x66; 0x04; 0xE0; 0; 3] 12
      (initial_world 500)
    = Some ((ISO15693_EC_OK, resultPtr), w') /\
    history w' = e ++ [EvBeginTransaction].
Proof.
  destruct (readMultipleBlock (device (ready_regs 17) tag15693) datasheet 3
      [0x11; 0x22; 0x33; 0x44; 0x55; 0x66; 0x04; 0xE0] 0 4 (repeat 0 16) 4
      (initial_world 500))
    as [[[rc blockData'] w']|] eqn:E; [|vm_compute in E; discriminate E].
  assert (Hr : rc = ISO15693_EC_OK).
  { pose proof E as E'. vm_compute in E'. injection E' as H1 H2 H3.
    symmetry; assumption. }
  subst rc.
  destruct (proj2 (readMultipleBlock_range_tests
                     (device (ready_regs 17) tag15693) datasheet 3
                     [0x11; 0x22; 0x33; 0x44; 0x55; 0x66; 0x04; 0xE0] 0 4
                     (repeat 0 16) 4 (initial_world 500))
              ltac:(lia) ltac:(lia) _ _ _ E) as (p & e & Hi & He).
  exists blockData', w', p, e. split; [reflexivity|].
  split; [exact Hi|exact He].
Defined.

(** Block 1 of a four-block read is below the block count, yet the
    second range test refuses it: block-not-available, and nothing on
    the bus. *)
Lemma readMultipleBlock_refuses_block_1_of_4 :
  1 < 4 /\
  readMultipleBlock (device (ready_regs 17) tag15693) datasheet 3
    [0x11; 0x22; 0x33; 0x44; 0x55; 0x66; 0x04; 0xE0] 1 4 (repeat 0 16) 4
    (initial_world 500)
  = Some ((ISO15693_EC_BLOCK_NOT_AVAILABLE, repeat 0 16), initial_world 500).
Proof. split; [lia|reflexivity]. Qed.


Lemma getInventoryMultiple_collisions_witness :
  exists st' w' ext,
    getInventoryMultiple (field two_behind_slot_3) datasheet 20 (repeat 0 32) 4
                         (initial_world 500)
    = Some ((ISO15693_EC_OK, st'), w') /\
    inv_numCol st' = 0 /\
    inv_numCard st' = 2 /\
    extends (initial_world 500) w' ext /\
    inv_numCard st' = Z.of_nat (reads (chron ext)) mod 256.
Proof.
  assert (H : option_map (fun r => (fst (fst r), inv_numCard (snd (fst r))))
                (getInventoryMultiple (field two_behind_slot_3) datasheet 20
                   (repeat 0 32) 4 (initial_world 500))
              = Some (ISO15693_EC_OK, 2))
    by (vm_compute; reflexivity).
  destruct (getInventoryMultiple (field two_behind_slot_3) datasheet 20
              (repeat 0 32) 4 (initial_world 500))
    as [[[rc st'] w']|] eqn:E; [|discriminate H].
  cbn [option_map fst snd] in H. injection H as -> Hn.
  destruct (proj2 (proj2 (proj2 (proj2
              (getInventoryMultiple_collisions
                 (field two_behind_slot_3) datasheet 20 4))))
              _ _ _ _ _ E) as (_ & Hok).
  destruct (Hok eq_refl) as (Hz & ext & X & Hc).
  exists st', w', ext. split; [reflexivity|]. split; [exact Hz|].
  split; [exact Hn|]. split; [exact X|exact Hc].
Defined.

(** Two runs against a field where every slot of the first round
    collides.  With room for two records, both taken by slots 0 and 1,
    the collision flagged in slot 2 is not recorded: the slot is read
    as a tag instead.  With room for sixteen, the sixteen follow-up
    rounds record sixteen UIDs each, and the call returns OK with
    [numCard] 0 after 256 READ_DATA commands. *)
Lemma getInventoryMultiple_unrecorded_and_wrapped :
  (exists w1 w2 st' w',
      getIRQStatus (field crowd) datasheet 20 (initial_world 500)
      = Some (0x301, w1) /\
      readRegister (field crowd) 20 (RX_STATUS datasheet) 0 w1
      = Some ((true, 0x40000), w2) /\
      inventoryPoll_slot (field crowd) datasheet 20 2 0
        (inventoryPoll_request 0 [0; 1]) 2
        (mkInventory (repeat 0 16) 0 2 [0; 1]) (initial_world 500)
      = Some ((true, st'), w') /\
      inv_numCol st' = 2 /\ inv_collision st' = [0; 1] /\
      inv_numCard st' = 1) /\
  (exists st' w',
      getInventoryMultiple (field crowd) datasheet 20 (repeat 0 256) 16
                           (initial_world 500)
      = Some ((ISO15693_EC_OK, st'), w') /\
      reads (chron (history w')) = 256%nat /\
      inv_numCard st' = 0).
Proof.
  split.
  - do 4 eexists.
    split; [vm_compute; reflexivity|].
    split; [vm_compute; reflexivity|].
    split; [vm_compute; reflexivity|].
    repeat split.
  - assert (H : option_map
                  (fun r => (fst (fst r), inv_numCard (snd (fst r)),
                             count_read_data (history (snd r)) 0))
                  (getInventoryMultiple (field crowd) datasheet 20
                     (repeat 0 256) 16 (initial_world 500))
                = Some (ISO15693_EC_OK, 0, 256%nat))
      by (vm_compute; reflexivity).
    destruct (getInventoryMultiple (field crowd) datasheet 20
                (repeat 0 256) 16 (initial_world 500))
      as [[[rc st'] w']|]; [|discriminate H].
    cbn [option_map fst snd] in H. injection H as -> Hn Hc.
    exists st', w'. split; [reflexivity|].
    rewrite count_read_data_reads, Nat.add_0_r in Hc.
    split; [exact Hc|exact Hn].
Qed.

(** The value a run returns, computed: [proj] selects it from the
    result, and [v] is what it is. *)
Ltac run_value E proj v :=
  lazymatch type of E with
  | ?run = Some _ =>
      let H := fresh "H" in
      assert (H : option_map proj run = Some v) by (vm_compute; reflexivity);
      rewrite E in H; cbn [option_map fst snd] in H;
      injection H as H; subst
  end.


Lemma inventoryPoll_maskLen_digits_witness :
  0 <= at_ [0x123] 0 < 65536 /\
  let maskLen := inventoryPoll_maskLen 1 [0x123] in
  1 <= maskLen <= 4 /\
  at_ [0x123] 0 < 16 ^ maskLen /\
  (1 < maskLen -> 16 ^ (maskLen - 1) <= at_ [0x123] 0) /\
  4 <= inventoryPoll_cmdLen maskLen <= 5 /\
  at_ (inventoryPoll_request maskLen [0x123]) 2 = 4 * maskLen.
Proof.
  assert (H : 0 <= at_ [0x123] 0 < 65536) by (cbn; lia).
  split; [exact H|].
  apply (proj2 (inventoryPoll_maskLen_digits 1 [0x123] H)). lia.
Defined.


Lemma rxBytesReceived_range_witness :
  exists w' ext,
    rxBytesReceived (device (ready_regs 1000) card7) datasheet 3
                    (initial_world 500)
    = Some (488, w') /\
    0 <= 488 <= 511 /\
    advances (initial_world 500) w' ext /\ reads (chron ext) = 0%nat.
Proof.
  destruct (rxBytesReceived (device (ready_regs 1000) card7) datasheet 3
              (initial_world 500)) as [[r w']|] eqn:E;
    [|vm_compute in E; discriminate E].
  run_value E (@fst Z World) 488.
  pose proof E as H. apply rxBytesReceived_range in H.
  destruct H as (Hr & ext & A & R).
  exists w', ext. split; [reflexivity|]. split; [exact Hr|].
  split; [exact A|exact R].
Defined.

Lemma mifareBlockRead_sixteen_bytes_witness :
  exists w' ext ms rx m0,
    mifareBlockRead (device (ready_regs 16) mifare_block) datasheet 3 4
                    (repeat 0 16) (initial_world 500)
    = Some ((true, mifare_block []), w') /\
    advances (initial_world 500) w' ext /\
    chron ext
    = combine (sendData_frames datasheet [0x30; 4] 2 0) ms
      ++ rx
      ++ [([PN5180_READ_DATA; 0x00], m0); (repeat 0xFF 16, mifare_block [])].
Proof.
  destruct (mifareBlockRead (device (ready_regs 16) mifare_block) datasheet 3
              4 (repeat 0 16) (initial_world 500)) as [[r w']|] eqn:E;
    [|vm_compute in E; discriminate E].
  run_value E (@fst (bool * list Z) World) (true, mifare_block []).
  pose proof E as H. apply mifareBlockRead_sixteen_bytes in H.
  destruct H as (ext & A & Hok & _).
  destruct (Hok eq_refl) as (ms & rx & m0 & m & _ & _ & _ & C & Hb).
  cbn [skipn repeat] in Hb. rewrite app_nil_r in Hb. subst m.
  exists w', ext, ms, rx, m0. split; [reflexivity|].
  split; [exact A|exact C].
Defined.

Lemma mifareBlockWrite16_result_witness :
  exists w' ext m,
    mifareBlockWrite16 (device (ready_regs 1) mifare_ack) datasheet 3 4
                       (repeat 7 16) (initial_world 500)
    = Some (0x0A, w') /\
    advances (initial_world 500) w' ext /\
    In (repeat 0xFF 1, m) (chron ext) /\ length m = 1%nat /\ 0x0A = at_ m 0.
Proof.
  destruct (mifareBlockWrite16 (device (ready_regs 1) mifare_ack) datasheet 3
              4 (repeat 7 16) (initial_world 500)) as [[r w']|] eqn:E;
    [|vm_compute in E; discriminate E].
  run_value E (@fst Z World) 0x0A.
  pose proof E as H. apply mifareBlockWrite16_result in H.
  destruct H as (ext & A & _ & [F|(m & Hin & Hl & Hm)]); [discriminate F|].
  exists w', ext, m. split; [reflexivity|]. split; [exact A|].
  split; [exact Hin|]. split; [exact Hl|exact Hm].
Defined.

Lemma activateTypeA_overwrites_ATQA_witness :
  length (repeat 0 10) = 10%nat /\
  exists buffer' w',
    activateTypeA (device (ready_regs 5) card7) datasheet 3 (repeat 0 10) 0
                  (initial_world 500)
    = Some ((7, buffer'), w') /\
    length buffer' = 10%nat /\
    at_ buffer' 0 = 0x88 /\ at_ buffer' 1 = at_ buffer' 3.
Proof.
  split; [reflexivity|].
  destruct (activateTypeA (device (ready_regs 5) card7) datasheet 3
              (repeat 0 10) 0 (initial_world 500)) as [[[r b] w']|] eqn:E;
    [|vm_compute in E; discriminate E].
  run_value E (fun x : Z * list Z * World => fst (fst x)) 7.
  pose proof E as H. apply activateTypeA_overwrites_ATQA in H; [|reflexivity].
  destruct H as (Hl & H7). destruct (H7 eq_refl) as (H0 & H1).
  exists b, w'. split; [reflexivity|]. split; [exact Hl|].
  split; [exact H0|exact H1].
Defined.

Lemma readCardSerial_result_codes_witness :
  exists buffer' w',
    readCardSerial stuck_device datasheet 3 (repeat 0xAA 8) (initial_world 0)
    = Some ((-1, buffer'), w') /\
    buffer' = repeat 0xAA 8.
Proof.
  destruct (readCardSerial stuck_device datasheet 3 (repeat 0xAA 8)
              (initial_world 0)) as [[[r b] w']|] eqn:E;
    [|vm_compute in E; discriminate E].
  run_value E (fun x : Z * list Z * World => fst (fst x)) (-1).
  pose proof E as H. apply readCardSerial_result_codes in H.
  destruct H as (_ & Hb).
  exists b, w'. split; [reflexivity|]. apply Hb. lia.
Defined.

Lemma isCardPresent_validated_uid_witness :
  exists w' buffer r buffer',
    isCardPresent (device (ready_regs 5) card7) datasheet 3 (initial_world 500)
    = Some (true, w') /\
    readCardSerial (device (ready_regs 5) card7) datasheet 3 buffer
                   (initial_world 500)
    = Some ((r, buffer'), w') /\
    (r = 4 \/ r = 7).
Proof.
  destruct (isCardPresent (device (ready_regs 5) card7) datasheet 3
              (initial_world 500)) as [[p w']|] eqn:E;
    [|vm_compute in E; discriminate E].
  run_value E (@fst bool World) true.
  pose proof E as H. apply isCardPresent_validated_uid in H.
  destruct H as (buffer & r & buffer' & _ & Hr & Ht & _).
  exists w', buffer, r, buffer'. split; [reflexivity|].
  split; [exact Hr|]. apply Ht. reflexivity.
Defined.

Lemma setRF_waits_for_flag_witness :
  exists w' ext,
    setRF_on (device (ready_regs 5) card7) datasheet 3 (initial_world 500)
    = Some (true, w') /\
    advances (initial_world 500) w' ext /\
    field_switched datasheet PN5180_RF_ON (TX_RFON_IRQ_STAT datasheet)
                   (chron ext).
Proof.
  destruct (setRF_on (device (ready_regs 5) card7) datasheet 3
              (initial_world 500)) as [[ok w']|] eqn:E;
    [|vm_compute in E; discriminate E].
  run_value E (@fst bool World) true.
  destruct (proj1 (setRF_waits_for_flag (device (ready_regs 5) card7)
                     datasheet 3) _ _ _ E) as (ext & A & H).
  exists w', ext. split; [reflexivity|]. split; [exact A|].
  apply H. reflexivity.
Defined.

Lemma xor_password_involution_witness :
  Forall (fun b => 0 <= b < 256) (cells [1; 2; 3; 4] 0 4) /\
  Forall (fun b => 0 <= b < 256) (cells [0x55; 0xAA] 0 2) /\
  xor_password (xor_password [1; 2; 3; 4] [0x55; 0xAA]) [0x55; 0xAA]
  = cells [1; 2; 3; 4] 0 4 /\
  Forall (fun b => 0 <= b < 256) (xor_password [1; 2; 3; 4] [0x55; 0xAA]).
Proof.
  assert (H1 : Forall (fun b => 0 <= b < 256) (cells [1; 2; 3; 4] 0 4))
    by (cbn; repeat constructor; lia).
  assert (H2 : Forall (fun b => 0 <= b < 256) (cells [0x55; 0xAA] 0 2))
    by (cbn; repeat constructor; lia).
  split; [exact H1|]. split; [exact H2|].
  exact (xor_password_involution [1; 2; 3; 4] [0x55; 0xAA] H1 H2).
Defined.


Lemma issueISO15693Command_result_codes_witness :
  exists q w' ext,
    issueISO15693Command (device (ready_regs 10) tag15693) datasheet 3
                         [0x01; 0x26; 0x00] 3 (initial_world 500)
    = Some ((ISO15693_EC_OK, Some q), w') /\
    extends (initial_world 500) w' ext /\ reads (chron ext) = 1%nat.
Proof.
  destruct (issueISO15693Command (device (ready_regs 10) tag15693) datasheet 3
              [0x01; 0x26; 0x00] 3 (initial_world 500))
    as [[[rc p] w']|] eqn:E; [|vm_compute in E; discriminate E].
  run_value E (fun x : Z * option BufPtr * World => fst (fst x))
            ISO15693_EC_OK.
  pose proof E as H. apply issueISO15693Command_result_codes in H.
  destruct H as (_ & _ & Hok).
  destruct (Hok eq_refl) as (Hp & ext & X & R).
  destruct p as [q|]; [|contradiction].
  exists q, w', ext. split; [reflexivity|]. split; [exact X|exact R].
Defined.

Lemma readSingleBlock_copies_block_witness :
  0 <= 4 <= Z.of_nat (length (repeat 0xAA 6)) /\
  exists blockData' w',
    readSingleBlock (device (ready_regs 10) tag15693) datasheet 3
                    [1; 2; 3; 4; 5; 6; 7; 8] 5 (repeat 0xAA 6) 4
                    (initial_world 500)
    = Some ((ISO15693_EC_OK, blockData'), w') /\
    issueISO15693Command (device (ready_regs 10) tag15693) datasheet 3
      ([0x22; 0x20] ++ cells [1; 2; 3; 4; 5; 6; 7; 8] 0 8 ++ [5]) 11
      (initial_world 500)
    = Some ((ISO15693_EC_OK, Some PtrStatic16), w') /\
    block_copied 4 (load PtrStatic16 w') (repeat 0xAA 6) blockData'.
Proof.
  assert (Hs : 0 <= 4 <= Z.of_nat (length (repeat 0xAA 6))) by (cbn; lia).
  split; [exact Hs|].
  destruct (readSingleBlock (device (ready_regs 10) tag15693) datasheet 3
              [1; 2; 3; 4; 5; 6; 7; 8] 5 (repeat 0xAA 6) 4
              (initial_world 500))
    as [[[rc b] w']|] eqn:E; [|vm_compute in E; discriminate E].
  assert (HL : option_map (fun x => length (readBufferStatic16 (snd x)))
                 (readSingleBlock (device (ready_regs 10) tag15693) datasheet
                    3 [1; 2; 3; 4; 5; 6; 7; 8] 5 (repeat 0xAA 6) 4
                    (initial_world 500)) = Some 16%nat)
    by (vm_compute; reflexivity).
  rewrite E in HL. cbn [option_map snd] in HL. injection HL as HL.
  run_value E (fun x : Z * list Z * World => fst (fst x)) ISO15693_EC_OK.
  pose proof E as H. apply readSingleBlock_copies_block in H; [|exact Hs].
  destruct H as (p & Hi & _ & Hok).
  destruct (Hok eq_refl) as (q & -> & Hc).
  run_value Hi (fun x : Z * option BufPtr * World => snd (fst x))
            (Some PtrStatic16).
  exists b, w'. split; [reflexivity|]. split; [exact Hi|].
  apply Hc. cbn [load]. rewrite HL. cbn. lia.
Defined.

Lemma readMultipleBlock_copies_blocks_witness :
  0 < 2 /\ 0 + 2 <= 2 /\
  0 <= 2 * 4 <= Z.of_nat (length (repeat 0xAA 9)) /\
  exists blockData' w',
    readMultipleBlock (device (ready_regs 10) tag15693) datasheet 3
                      [1; 2; 3; 4; 5; 6; 7; 8] 0 2 (repeat 0xAA 9) 4
                      (initial_world 500)
    = Some ((ISO15693_EC_OK, blockData'), w') /\
    issueISO15693Command (device (ready_regs 10) tag15693) datasheet 3
      ([0x22; 0x23] ++ cells [1; 2; 3; 4; 5; 6; 7; 8] 0 8 ++ [0; uint8 (2 - 1)])
      12 (initial_world 500)
    = Some ((ISO15693_EC_OK, Some PtrStatic16), w') /\
    block_copied 8 (load PtrStatic16 w') (repeat 0xAA 9) blockData'.
Proof.
  assert (Hs : 0 <= 2 * 4 <= Z.of_nat (length (repeat 0xAA 9)))
    by (cbn; lia).
  split; [lia|]. split; [lia|]. split; [exact Hs|].
  destruct (readMultipleBlock (device (ready_regs 10) tag15693) datasheet 3
              [1; 2; 3; 4; 5; 6; 7; 8] 0 2 (repeat 0xAA 9) 4
              (initial_world 500))
    as [[[rc b] w']|] eqn:E; [|vm_compute in E; discriminate E].
  assert (HL : option_map (fun x => length (readBufferStatic16 (snd x)))
                 (readMultipleBlock (device (ready_regs 10) tag15693)
                    datasheet 3 [1; 2; 3; 4; 5; 6; 7; 8] 0 2 (repeat 0xAA 9) 4
                    (initial_world 500)) = Some 16%nat)
    by (vm_compute; reflexivity).
  rewrite E in HL. cbn [option_map snd] in HL. injection HL as HL.
  run_value E (fun x : Z * list Z * World => fst (fst x)) ISO15693_EC_OK.
  pose proof E as H.
  apply readMultipleBlock_copies_blocks in H; [|lia|lia|exact Hs].
  destruct H as (p & Hi & _ & Hok).
  destruct (Hok eq_refl) as (q & -> & Hc).
  run_value Hi (fun x : Z * option BufPtr * World => snd (fst x))
            (Some PtrStatic16).
  exists b, w'. split; [reflexivity|]. split; [exact Hi|].
  apply Hc. cbn [load]. rewrite HL. cbn. lia.
Defined.

Lemma readData_into_range_check_witness :
  readData_into stuck_device 3 509 [1; 2; 3] (initial_world 500)
  = Some ((false, [1; 2; 3]), initial_world 500).
Proof.
  apply (proj1 (readData_into_range_check stuck_device 3 509 [1; 2; 3]
                  (initial_world 500))).
  right. lia.
Defined.

Lemma getRandomNumber_bytes_witness :
  length [0x00; 0x00] = 2%nat /\
  exists q randomData' w',
    getRandomNumber (device (ready_regs 10) tag15693) datasheet 3 [0x00; 0x00]
                    (initial_world 500)
    = Some ((ISO15693_EC_OK, randomData'), w') /\
    issueISO15693Command (device (ready_regs 10) tag15693) datasheet 3
                         [0x02; 0xB2; 0x04] 3 (initial_world 500)
    = Some ((ISO15693_EC_OK, Some q), w') /\
    randomData' = [at_ (load q w') 1; at_ (load q w') 2].
Proof.
  split; [reflexivity|].
  destruct (getRandomNumber (device (ready_regs 10) tag15693) datasheet 3
              [0x00; 0x00] (initial_world 500))
    as [[[rc d] w']|] eqn:E; [|vm_compute in E; discriminate E].
  run_value E (fun x : Z * list Z * World => fst (fst x)) ISO15693_EC_OK.
  pose proof E as H. apply getRandomNumber_bytes in H; [|reflexivity].
  destruct H as (p & Hi & _ & Hok).
  destruct (Hok eq_refl) as (q & -> & Hd).
  exists q, d, w'. split; [reflexivity|]. split; [exact Hi|exact Hd].
Defined.

Lemma getSystemInfo_decodes_witness :
  length (repeat 0 8) = 8%nat /\
  exists q uid' w',
    getSystemInfo (device (ready_regs 15) info_tag) datasheet 3 (repeat 0 8)
                  0 0 (initial_world 500)
    = Some ((ISO15693_EC_OK, (uid', 4, 0)), w') /\
    issueISO15693Command (device (ready_regs 15) info_tag) datasheet 3
                         ([0x22; 0x2b] ++ cells (repeat 0 8) 0 8) 10
                         (initial_world 500)
    = Some ((ISO15693_EC_OK, Some q), w') /\
    uid' = cells (load q w') 2 8 /\
    (Z.land (at_ (load q w') 1) 0x04 <> 0 ->
     4 = Z.land (at_ (load q w')
                     (S (memory_field (at_ (load q w') 1)))) 0x1f + 1 /\
     0 = (at_ (load q w') (memory_field (at_ (load q w') 1)) + 1) mod 256).
Proof.
  split; [reflexivity|].
  destruct (getSystemInfo (device (ready_regs 15) info_tag) datasheet 3
              (repeat 0 8) 0 0 (initial_world 500))
    as [[[rc [[u bs] nb]] w']|] eqn:E; [|vm_compute in E; discriminate E].
  run_value E (fun x : Z * (list Z * Z * Z) * World =>
                 (fst (fst x), snd (fst (snd (fst x))), snd (snd (fst x))))
            (ISO15693_EC_OK, 4, 0).
  pose proof E as H. apply getSystemInfo_decodes in H; [|reflexivity].
  destruct H as (p & Hi & _ & Hok).
  destruct (Hok eq_refl) as (q & -> & Hu & _ & Hm).
  exists q, u, w'. split; [reflexivity|]. split; [exact Hi|].
  split; [exact Hu|]. intros G. destruct (Hm G) as (Hb & Hn & _).
  split; [exact Hb|exact Hn].
Defined.

Lemma privacy_mode_masks_password_witness :
  exists q ptr2 w1 w',
    disablePrivacyMode (device (ready_regs 10) tag15693) datasheet 3
                       [1; 2; 3; 4] (initial_world 500)
    = Some (ISO15693_EC_OK, w') /\
    issueISO15693Command (device (ready_regs 10) tag15693) datasheet 3
                         [0x02; 0xB2; 0x04] 3 (initial_world 500)
    = Some ((ISO15693_EC_OK, Some q), w1) /\
    issueISO15693Command (device (ready_regs 10) tag15693) datasheet 3
      ([0x02; 0xB3; 0x04; 0x04]
         ++ xor_password [1; 2; 3; 4] [at_ (load q w1) 1; at_ (load q w1) 2])
      8 w1
    = Some ((ISO15693_EC_OK, ptr2), w').
Proof.
  destruct (disablePrivacyMode (device (ready_regs 10) tag15693) datasheet 3
              [1; 2; 3; 4] (initial_world 500))
    as [[rc w']|] eqn:E; [|vm_compute in E; discriminate E].
  run_value E (@fst Z World) ISO15693_EC_OK.
  destruct (proj1 (privacy_mode_masks_password
                     (device (ready_regs 10) tag15693) datasheet 3
                     [1; 2; 3; 4] (initial_world 500) ISO15693_EC_OK w') E)
    as (rc1 & ptr1 & w1 & Hi & _ & Hok).
  run_value Hi (fun x : Z * option BufPtr * World => fst (fst x))
            ISO15693_EC_OK.
  destruct (Hok eq_refl) as (q & ptr2 & -> & H2).
  exists q, ptr2, w1, w'. split; [reflexivity|].
  split; [exact Hi|exact H2].
Defined.

Lemma setupRF_config_then_field_witness :
  exists w' ext pre a b,
    ISO15693_setupRF (device (ready_regs 10) tag15693) datasheet 3
                     (initial_world 500)
    = Some (true, w') /\
    advances (initial_world 500) w' ext /\
    chron ext = pre ++ a ++ b /\
    rf_configured datasheet 0x0d 0x8d pre /\
    at_most_once ([PN5180_WRITE_REGISTER_AND_MASK; SYSTEM_CONFIG datasheet]
                    ++ le_bytes32 0xfffffff8) a /\
    at_most_once ([PN5180_WRITE_REGISTER_OR_MASK; SYSTEM_CONFIG datasheet]
                    ++ le_bytes32 0x00000003) b.
Proof.
  destruct (ISO15693_setupRF (device (ready_regs 10) tag15693) datasheet 3
              (initial_world 500)) as [[ok w']|] eqn:E;
    [|vm_compute in E; discriminate E].
  run_value E (@fst bool World) true.
  destruct (proj2 (setupRF_config_then_field
                     (device (ready_regs 10) tag15693) datasheet 3) _ _ _ E)
    as (ext & A & _ & H).
  destruct (H eq_refl) as (pre & a & b & C & R & Ha & Hb).
  exists w', ext, pre, a, b. split; [reflexivity|]. split; [exact A|].
  split; [exact C|]. split; [exact R|]. split; [exact Ha|exact Hb].
Defined.

Lemma prepareLPCD_always_true_witness :
  exists ok w' ext f1 f2 f3 f4 f5,
    prepareLPCD stuck_device 3 (initial_world 0) = Some (ok, w') /\
    transfers w' = [] /\
    ok = true /\
    advances (initial_world 0) w' ext /\
    chron ext = f1 ++ f2 ++ f3 ++ f4 ++ f5 /\
    eeprom_step 0x36 0xF0 f1 /\ eeprom_step 0x37 0x03 f2 /\
    eeprom_step 0x38 0x01 f3 /\ eeprom_step 0x39 0xF0 f4 /\
    eeprom_step 0x3A 0xF0 f5.
Proof.
  destruct (prepareLPCD stuck_device 3 (initial_world 0))
    as [[ok w']|] eqn:E; [|vm_compute in E; discriminate E].
  assert (Ht : option_map (fun x => transfers (snd x))
                 (prepareLPCD stuck_device 3 (initial_world 0)) = Some [])
    by (vm_compute; reflexivity).
  rewrite E in Ht. cbn [option_map snd] in Ht. injection Ht as Ht.
  pose proof E as H. apply prepareLPCD_always_true in H.
  destruct H as (Hok & ext & f1 & f2 & f3 & f4 & f5 & A & C & S).
  exists ok, w', ext, f1, f2, f3, f4, f5. split; [reflexivity|].
  split; [exact Ht|]. split; [exact Hok|]. split; [exact A|].
  split; [exact C|exact S].
Defined.

Lemma switchToLPCD_frame_witness :
  0 <= 0x0A82 < 65536 /\
  exists w' ext a b m,
    switchToLPCD (device (ready_regs 10) tag15693) datasheet 3
                 0x01 0x80000 0x20000 0x0A82 (initial_world 500)
    = Some (true, w') /\
    advances (initial_world 500) w' ext /\
    chron ext = a ++ b ++ [([PN5180_SWITCH_MODE; 0x01; 0x82; 0x0A], m)].
Proof.
  split; [lia|].
  destruct (switchToLPCD (device (ready_regs 10) tag15693) datasheet 3
              0x01 0x80000 0x20000 0x0A82 (initial_world 500))
    as [[ok w']|] eqn:E; [|vm_compute in E; discriminate E].
  run_value E (@fst bool World) true.
  pose proof E as H. apply switchToLPCD_frame in H; [|lia].
  destruct H as (ext & a & b & c & A & C & _ & _ & [Hc|(m & Hc)] & Hne).
  - exfalso. exact (Hne eq_refl Hc).
  - exists w', ext, a, b, m. split; [reflexivity|]. split; [exact A|].
    rewrite C, Hc. reflexivity.
Defined.
